(** * Zonal statistics of geofarm-pipeline: [src/04_zonal_stats.py]

    A shallow embedding of [compute_zonal_mean] and of the library calls it
    makes, followed by the properties of the zonal aggregation engine.

    - Floating-point values are [spec_float]s of the Standard Library
      (IEEE 754 binary formats, round to nearest even); single precision is
      [prec = 24, emax = 128], double precision is [prec = 53, emax = 1024].
    - A table (GeoDataFrame) keeps its attribute columns in a finite map
      from column names to columns; its index is the positional
      [RangeIndex] that [geopandas.read_file] builds, so a row label is the
      row's position.
    - The geometry libraries (shapely, pyproj, the rasterisation of
      rasterio) stay behind the interface [GeoLib]; what [rasterio.mask.mask]
      does with the rasterised shape is written out in [mask].
    - Logging and the exceptions are explicit: a computation returns the
      events it emitted and either an exception or a value. *)

From Stdlib Require Import ZArith Bool Lia.
From Stdlib Require Import Floats.SpecFloat.
From stdpp Require Import gmap strings list pretty.

Local Open Scope Z_scope.

(** ** NumPy on one-dimensional [float32] arrays *)

Module np.

(** [np.nan]. *)
Definition nan : spec_float := S754_nan.

(** Narrowing a double to single precision ([astype("float32")] on a
    [float64] array, [np.float32(x)]): round to nearest even, overflow
    goes to an infinity. *)
Definition float32_of_float64 (x : spec_float) : spec_float :=
  match x with
  | S754_finite s m e => binary_round 24 128 s m e
  | _ => x
  end.

(** Widening a single to double precision ([float(x)] on a [np.float32]):
    exact, the 24-bit mantissa is shifted into the 53-bit field. *)
Definition float64_of_float32 (x : spec_float) : spec_float :=
  match x with
  | S754_finite s m e =>
      let e' := e - (53 - Zpos (digits2_pos m)) in
      S754_finite s (fst (shl_align m e e')) (snd (shl_align m e e'))
  | _ => x
  end.

Definition float64_of_int (n : Z) : spec_float := binary_normalize 53 1024 n 0 false.
Definition float32_of_int (n : Z) : spec_float := binary_normalize 24 128 n 0 false.

Definition isnan (x : spec_float) : bool :=
  match x with S754_nan => true | _ => false end.

(** [np.isfinite]: neither NaN nor an infinity. *)
Definition isfinite (x : spec_float) : bool :=
  match x with S754_zero _ | S754_finite _ _ _ => true | _ => false end.

(** The inner loop of [np.add.reduce] on a contiguous floating-point
    array is NumPy's pairwise summation: fewer than 8 items are added left
    to right (starting from [-0.0]), up to 128 items go through eight
    running sums that are combined as a balanced tree before the remaining
    items are added, and longer arrays are split in two. *)
Section Reduce.
Variable add : spec_float -> spec_float -> spec_float.

Definition sum_lt8 (a : list spec_float) : spec_float :=
  fold_left add a (S754_zero true).

Definition tree8 (r : list spec_float) : spec_float :=
  match r with
  | [r0; r1; r2; r3; r4; r5; r6; r7] =>
      add (add (add r0 r1) (add r2 r3)) (add (add r4 r5) (add r6 r7))
  | _ => nan
  end.

Fixpoint unrolled (k : nat) (r rest : list spec_float)
  : list spec_float * list spec_float :=
  match k with
  | O => (r, rest)
  | S k' => unrolled k' (zip_with add r (take 8 rest)) (drop 8 rest)
  end.

Definition sum_block (a : list spec_float) : spec_float :=
  let '(r, rest) := unrolled (length a / 8 - 1)%nat (take 8 a) (drop 8 a) in
  fold_left add rest (tree8 r).

Fixpoint pairwise_sum (fuel : nat) (a : list spec_float) : spec_float :=
  let n := length a in
  if (n <? 8)%nat then sum_lt8 a
  else if (n <=? 128)%nat then sum_block a
  else match fuel with
       | O => sum_block a
       | S fuel' =>
           let n2 := (n / 2)%nat in
           let n2 := (n2 - n2 mod 8)%nat in
           add (pairwise_sum fuel' (take n2 a)) (pairwise_sum fuel' (drop n2 a))
       end.
End Reduce.

Definition add32 : spec_float -> spec_float -> spec_float := SFadd 24 128.
Definition add64 : spec_float -> spec_float -> spec_float := SFadd 53 1024.

(** [a.sum()] for a [float32] array: the reduction starts from the
    identity of the addition, [+0.0], and adds the pairwise sum of the
    items to it. *)
Definition sum (a : list spec_float) : spec_float :=
  add32 (S754_zero false) (pairwise_sum add32 (length a) a).

(** [a.mean()] for a [float32] array: [ret.dtype.type(ret / rcount)] where
    [ret] is the [float32] sum and [rcount] an [intp]; the quotient of the
    two scalars is taken in double precision and narrowed back. *)
Definition mean (a : list spec_float) : spec_float :=
  float32_of_float64
    (SFdiv 53 1024 (float64_of_float32 (sum a))
                   (float64_of_int (Z.of_nat (length a)))).

(** [a.mean()] for a [float64] array. *)
Definition mean64 (a : list spec_float) : spec_float :=
  SFdiv 53 1024 (add64 (S754_zero false) (pairwise_sum add64 (length a) a))
                (float64_of_int (Z.of_nat (length a))).

(** [np.minimum] and [np.maximum] propagate a NaN and give the second
    of two equal items (the zeros of both signs are equal): [x] when it
    is NaN, else [x < y ? x : y] and [x > y ? x : y]. [a.min()] and
    [a.max()] reduce with them from the first item. *)
Definition minimum (x y : spec_float) : spec_float :=
  if isnan x then x else if SFltb x y then x else y.
Definition maximum (x y : spec_float) : spec_float :=
  if isnan x then x else if SFltb y x then x else y.

Definition min (a : list spec_float) : spec_float :=
  match a with [] => nan | x :: r => fold_left minimum r x end.
Definition max (a : list spec_float) : spec_float :=
  match a with [] => nan | x :: r => fold_left maximum r x end.

End np.

(** ** Data model *)

(** A coordinate reference system, by its authority code or WKT text. *)
Definition CRS : Type := string.

Inductive dtype := float32 | float64.

(** A single-band raster as [rasterio.open] presents it: [src.crs] (or
    [None] for a raster without georeference), [src.nodata] (a Python
    float, or [None]), the band's sample type and the band itself, row by
    row from the top. *)
Record Raster := {
  r_crs : option CRS;
  r_nodata : option spec_float;
  r_dtype : dtype;
  r_band : list (list spec_float)
}.

(** A pixel window of the raster: offsets and shape. *)
Record Window := {
  row_off : nat;
  col_off : nat;
  height : nat;
  width : nat
}.

(** Python exceptions that reach or cross [compute_zonal_mean]. *)
Inductive exn :=
| FileNotFoundError (msg : string)
| ValueError (msg : string)
| RasterioIOError (msg : string)
| DataSourceError (msg : string)
| AttributeError (msg : string)
| IndexError (msg : string).

(** [str(e)]. *)
Definition str_exn (e : exn) : string :=
  match e with
  | FileNotFoundError m | ValueError m | RasterioIOError m | DataSourceError m
  | AttributeError m | IndexError m => m
  end.

(** The geometry libraries behind the aggregation: shapely's geometries,
    pyproj's reprojection of one geometry between two reference systems
    (what [GeoSeries.to_crs] applies to every row), and rasterio's
    [raster_geometry_mask] with [crop=True], which either raises (the
    shape does not overlap the raster, or cannot be rasterised) or gives
    the window of the shape's bounds inside the raster together with the
    shape mask over that window, [true] at the pixels OUTSIDE the shape. *)
Class GeoLib := {
  Geometry : Type;
  transform : CRS -> CRS -> Geometry -> Geometry;
  raster_geometry_mask : Raster -> Geometry -> exn + Window * (nat -> nat -> bool)
}.

(** A cell of an attribute column. *)
Inductive value :=
| VStr (s : string)
| VInt (n : Z)
| VFloat (x : spec_float)
| VNone.

(** A [GeoDataFrame]: declared reference system, geometry column and
    attribute columns by name. Row [i] has the index label [i]. The
    geometry of a row is [None] for a feature that was read without
    geometry. *)
Record GeoDataFrame `{GeoLib} := {
  crs : option CRS;
  geometry : list (option Geometry);
  columns : gmap string (list value)
}.

(** What a path of the file system leads to: a raster the raster driver
    can open, a feature collection the vector driver can read, or anything
    else (a file of another kind, a directory). *)
Inductive file `{GeoLib} :=
| RasterFile (r : Raster)
| VectorFile (v : GeoDataFrame)
| OtherFile.

(** ** Effects: log records, raster reads, exceptions *)

(** [Clip idx] records the call of [rasterio.mask.mask] for the zone with
    index label [idx], the only place where pixel data is read. *)
Inductive event :=
| Info (msg : string)
| Warning (msg : string)
| Clip (idx : nat).

Definition M (A : Type) : Type := list event * (exn + A).

Definition raise {A} (e : exn) : M A := ([], inl e).
Definition log (ev : event) : M unit := ([ev], inr tt).

#[export] Instance M_ret : MRet M := fun A x => ([], inr x).
#[export] Instance M_bind : MBind M := fun A B f m =>
  match m with
  | (t, inl e) => (t, inl e)
  | (t, inr x) => let '(t', r) := f x in (t ++ t', r)
  end.

(** The trace and the outcome of a run. *)
Definition trace {A} (m : M A) : list event := fst m.
Definition outcome {A} (m : M A) : exn + A := snd m.

(** ** The aggregation *)

Section Aggregate.
Context `{GeoLib}.

(** [Path(p).exists()]. *)
Definition path_exists (fs : gmap string file) (p : string) : bool :=
  bool_decide (is_Some (fs !! p)).

(** [rasterio.open(p)] gives the dataset or raises. *)
Definition rasterio_open (fs : gmap string file) (p : string) : M Raster :=
  match fs !! p with
  | Some (RasterFile r) => mret r
  | _ => raise (RasterioIOError
                  ("'" +:+ p +:+ "' not recognized as being in a supported file format."))
  end.

(** [gpd.read_file(p)] gives the table or raises. *)
Definition read_file (fs : gmap string file) (p : string) : M GeoDataFrame :=
  match fs !! p with
  | Some (VectorFile v) => mret v
  | _ => raise (DataSourceError (p +:+ ": unable to read as a vector source."))
  end.

Definition nrows (gdf : GeoDataFrame) : nat := length (geometry gdf).

(** [gdf.empty]: a table read from a file has its geometry column, so it
    is empty exactly when it has no row. *)
Definition empty (gdf : GeoDataFrame) : bool := bool_decide (nrows gdf = 0%nat).

(** [gdf.set_crs(c, inplace=True)] on a table without reference system. *)
Definition set_crs (c : CRS) (gdf : GeoDataFrame) : GeoDataFrame :=
  {| crs := Some c; geometry := geometry gdf; columns := columns gdf |}.

(** [gdf.to_crs(dst)]: every geometry that is there is transformed; a
    table without reference system is refused, and so is the target
    [None]. *)
Definition to_crs (dst : option CRS) (gdf : GeoDataFrame) : M GeoDataFrame :=
  match crs gdf with
  | None => raise (ValueError "Cannot transform naive geometries.  Please set a crs on the object first.")
  | Some src_crs =>
      match dst with
      | None => raise (ValueError "Must pass either crs or epsg.")
      | Some dst =>
          mret {| crs := Some dst;
                  geometry := fmap (M := option) (transform src_crs dst) <$> geometry gdf;
                  columns := columns gdf |}
      end
  end.

(** [gdf[name] = vals]: pandas refuses a column of another length. *)
Definition setitem (name : string) (vals : list value) (gdf : GeoDataFrame)
  : M GeoDataFrame :=
  if decide (length vals = nrows gdf) then
    mret {| crs := crs gdf; geometry := geometry gdf;
            columns := <[name := vals]> (columns gdf) |}
  else raise (ValueError "Length of values does not match length of index").

(** [gdf.index.astype(str)] for the positional index. *)
Definition index_astype_str (gdf : GeoDataFrame) : list value :=
  (fun i : nat => VStr (pretty i)) <$> seq 0 (nrows gdf).

(** *** [rasterio.mask.mask(src, [geom], crop=True)]

    With the defaults [nodata=None] and [filled=True]: the fill value is
    the raster's nodata value, and 0 when the raster declares none; the
    window is read, and every pixel the shape mask marks as outside the
    shape is overwritten with the fill value. (The pixels the dataset's
    own mask flags are those equal to the nodata value; filling them
    with it leaves them as they are.) The result stands for
    [out_img[0]], the one band of the raster. *)

(** The Python float [nodata] stored into an array of the raster's sample
    type. *)
Definition cast (t : dtype) (x : spec_float) : spec_float :=
  match t with float32 => np.float32_of_float64 x | float64 => x end.

Definition fill_value (src : Raster) : spec_float :=
  match r_nodata src with
  | Some nd => cast (r_dtype src) nd
  | None => S754_zero false
  end.

Definition read_window (src : Raster) (w : Window) : list (list spec_float) :=
  (fun row => take (width w) (drop (col_off w) row))
    <$> take (height w) (drop (row_off w) (r_band src)).

Definition filled (shape_mask : nat -> nat -> bool) (fill : spec_float)
    (img : list (list spec_float)) : list (list spec_float) :=
  imap (fun i row => imap (fun j v => if shape_mask i j then fill else v) row) img.

Definition mask (src : Raster) (geom : Geometry) : exn + list (list spec_float) :=
  match raster_geometry_mask src geom with
  | inl e => inl e
  | inr (w, shape_mask) => inr (filled shape_mask (fill_value src) (read_window src w))
  end.

(** *** The body of the [try] *)

(** [.astype("float32")] on an array of the raster's sample type. *)
Definition astype_float32 (t : dtype) (x : spec_float) : spec_float :=
  match t with float32 => x | float64 => np.float32_of_float64 x end.

(** [arr[arr == nodata] = np.nan]: the Python float [nodata] is compared
    in the array's precision. *)
Definition nodata_to_nan (nodata : option spec_float) (x : spec_float) : spec_float :=
  match nodata with
  | Some nd => if SFeqb x (np.float32_of_float64 nd) then np.nan else x
  | None => x
  end.

(** [arr[np.isfinite(arr)]], in row-major order. *)
Definition select_finite (arr : list (list spec_float)) : list spec_float :=
  filter (fun x => np.isfinite x) (concat arr).

(** The four values one iteration appends. *)
Definition StatRow : Type := spec_float * spec_float * spec_float * Z.

Definition zero_coverage : StatRow := (np.nan, np.nan, np.nan, 0).

Definition stats_of (valid : list spec_float) : StatRow :=
  if decide (length valid = 0%nat) then zero_coverage
  else (np.float64_of_float32 (np.mean valid),
        np.float64_of_float32 (np.min valid),
        np.float64_of_float32 (np.max valid),
        Z.of_nat (length valid)).

Definition clip_valid (src : Raster) (nodata : option spec_float)
    (out_img : list (list spec_float)) : list spec_float :=
  let arr := (fun row : list spec_float => astype_float32 (r_dtype src) <$> row) <$> out_img in
  let arr := (fun row : list spec_float => nodata_to_nan nodata <$> row) <$> arr in
  select_finite arr.

Definition try_zone (src : Raster) (nodata : option spec_float) (geom : Geometry)
  : exn + StatRow :=
  match mask src geom with
  | inl e => inl e
  | inr out_img => inr (stats_of (clip_valid src nodata out_img))
  end.

(** *** The loop over [gdf.iterrows()] *)

Record Lists := {
  means : list spec_float;
  mins : list spec_float;
  maxs : list spec_float;
  counts : list Z
}.

Definition append (st : Lists) (row : StatRow) : Lists :=
  let '(mean, mn, mx, count) := row in
  {| means := means st ++ [mean]; mins := mins st ++ [mn];
     maxs := maxs st ++ [mx]; counts := counts st ++ [count] |}.

(** [mapping(row.geometry)] (line 49, before the [try]): the GeoJSON
    form of the geometry; a row without geometry has no
    [__geo_interface__]. *)
Definition no_geo_interface : exn :=
  AttributeError "'NoneType' object has no attribute '__geo_interface__'".

Definition mapping (g : option Geometry) : M Geometry :=
  match g with
  | Some geom => mret geom
  | None => raise no_geo_interface
  end.

(** One iteration (lines 49-65): [mapping], whose exception leaves the
    loop and the function; then the [try] body, and the
    [except Exception] handler that logs the warning and appends the
    zero-coverage values. *)
Definition loop_body (src : Raster) (nodata : option spec_float)
    (idx : nat) (g : option Geometry) (lists : Lists) : M Lists :=
  geom ← mapping g;
  log (Clip idx);;
  match try_zone src nodata geom with
  | inr row => mret (append lists row)
  | inl e =>
      log (Warning ("Polygon " +:+ pretty idx +:+ " failed: " +:+ str_exn e));;
      mret (append lists zero_coverage)
  end.

Fixpoint iterrows (src : Raster) (nodata : option spec_float) (idx : nat)
    (rows : list (option Geometry)) (lists : Lists) : M Lists :=
  match rows with
  | [] => mret lists
  | g :: rest =>
      lists ← loop_body src nodata idx g lists;
      iterrows src nodata (S idx) rest lists
  end.

Definition run_loop (src : Raster) (nodata : option spec_float)
    (gdf : GeoDataFrame) : M Lists :=
  iterrows src nodata 0 (geometry gdf)
           {| means := []; mins := []; maxs := []; counts := [] |}.

(** *** [compute_zonal_mean(raster_path, vector_path)]

    Lines 24-27 are the two existence checks, 29-32 read the raster's
    metadata, 34-43 read and reproject the zones, 46-65 are the loop and
    68-76 assemble the table. The raster is opened a second time for the
    loop (line 47); the file system does not change in between. The
    line of the log after the reprojection prints the reference system of
    the raster, which is there when [to_crs] has returned. *)
Definition compute_zonal_mean (fs : gmap string file)
    (raster_path vector_path : string) : M GeoDataFrame :=
  if negb (path_exists fs raster_path) then
    raise (FileNotFoundError ("Raster not found: " +:+ raster_path))
  else if negb (path_exists fs vector_path) then
    raise (FileNotFoundError ("Vector not found: " +:+ vector_path))
  else
    log (Info ("Loading raster: " +:+ raster_path));;
    src ← rasterio_open fs raster_path;
    let raster_crs := r_crs src in
    let nodata := r_nodata src in
    log (Info ("Loading polygons: " +:+ vector_path));;
    gdf ← read_file fs vector_path;
    if empty gdf then raise (ValueError "Vector file has no features.")
    else
      let gdf := match crs gdf with None => set_crs "EPSG:4326" gdf | Some _ => gdf end in
      gdf ← to_crs raster_crs gdf;
      log (Info ("Reprojected vector to raster CRS: " +:+ default "None" raster_crs));;
      src ← rasterio_open fs raster_path;
      lists ← run_loop src nodata gdf;
      gdf ← (if decide (is_Some (columns gdf !! "id")) then mret gdf
             else setitem "id" (index_astype_str gdf) gdf);
      gdf ← setitem "ndvi_mean" (VFloat <$> means lists) gdf;
      gdf ← setitem "ndvi_min" (VFloat <$> mins lists) gdf;
      gdf ← setitem "ndvi_max" (VFloat <$> maxs lists) gdf;
      setitem "ndvi_count" (VInt <$> counts lists) gdf.

End Aggregate.

(** ** A concrete geometry library: pixel-aligned shapes

    Shapes made of rectangles whose sides lie on the pixel grid of the
    raster (rows [top, bottom), columns [left, right), counted from the
    raster's upper left corner), already expressed in the raster's
    reference system. For such shapes the rasterisation is exact: a pixel
    is inside the shape when one of the rectangles contains it, and the
    crop window is the hull of the rectangles cut to the raster's extent.
    As in rasterio, a shape whose bounds miss the raster is refused with
    [ValueError("Input shapes do not overlap raster.")], and a geometry
    with no part at all has no bounds: looking them up raises an
    [IndexError]. *)

Module PixelGrid.

Record Box := { top : Z; left : Z; bottom : Z; right : Z }.

Definition in_box (r c : Z) (b : Box) : bool :=
  (top b <=? r) && (r <? bottom b) && (left b <=? c) && (c <? right b).

Definition covers (g : list Box) (r c : Z) : bool := existsb (in_box r c) g.

Definition hull (a b : Box) : Box :=
  {| top := Z.min (top a) (top b); left := Z.min (left a) (left b);
     bottom := Z.max (bottom a) (bottom b); right := Z.max (right a) (right b) |}.

Definition raster_height (src : Raster) : Z := Z.of_nat (length (r_band src)).
Definition raster_width (src : Raster) : Z :=
  Z.of_nat (default 0%nat (length <$> head (r_band src))).

(** The bounds of a shape with at least one part, cut to the raster. *)
Definition clipped_bounds (src : Raster) (b : Box) (bs : list Box) : Box :=
  let bb := foldr hull b bs in
  {| top := Z.max 0 (top bb); left := Z.max 0 (left bb);
     bottom := Z.min (raster_height src) (bottom bb);
     right := Z.min (raster_width src) (right bb) |}.

Definition overlaps (cb : Box) : bool :=
  (top cb <? bottom cb) && (left cb <? right cb).

Definition shape_mask (src : Raster) (g : list Box)
  : exn + Window * (nat -> nat -> bool) :=
  match g with
  | [] => inl (IndexError "tuple index out of range")
  | b :: bs =>
      let cb := clipped_bounds src b bs in
      if overlaps cb then
        inr ({| row_off := Z.to_nat (top cb); col_off := Z.to_nat (left cb);
                height := Z.to_nat (bottom cb - top cb);
                width := Z.to_nat (right cb - left cb) |},
             fun i j => negb (covers g (top cb + Z.of_nat i) (left cb + Z.of_nat j)))
      else inl (ValueError "Input shapes do not overlap raster.")
  end.

Definition lib : GeoLib :=
  {| Geometry := list Box;
     transform := fun _ _ g => g;
     raster_geometry_mask := shape_mask |}.

Definition box (t l b r : Z) : list Box :=
  [{| top := t; left := l; bottom := b; right := r |}].

End PixelGrid.

(** ** Reading the result *)

Section Observations.
Context `{GeoLib}.

(** What one zone contributes: the values of its row, and the events of
    its iteration. *)
Definition zone_stats (src : Raster) (geom : Geometry) : StatRow :=
  match try_zone src (r_nodata src) geom with
  | inr row => row
  | inl _ => zero_coverage
  end.

Definition zone_events (src : Raster) (idx : nat) (geom : Geometry) : list event :=
  match try_zone src (r_nodata src) geom with
  | inr _ => [Clip idx]
  | inl e => [Clip idx; Warning ("Polygon " +:+ pretty idx +:+ " failed: " +:+ str_exn e)]
  end.

Definition s_mean (row : StatRow) : spec_float := row.1.1.1.
Definition s_min (row : StatRow) : spec_float := row.1.1.2.
Definition s_max (row : StatRow) : spec_float := row.1.2.
Definition s_count (row : StatRow) : Z := row.2.

(** The cells of a statistics row as the table stores them. *)
Definition stat_values (row : StatRow) : value * value * value * value :=
  let '(mean, mn, mx, count) := row in (VFloat mean, VFloat mn, VFloat mx, VInt count).

(** Cell [i] of a column, statistics of row [i], identifier of row [i]. *)
Definition cell (t : GeoDataFrame) (name : string) (i : nat) : option value :=
  columns t !! name ≫= (fun col => col !! i).

Definition stat_row (t : GeoDataFrame) (i : nat)
  : option (value * value * value * value) :=
  mean ← cell t "ndvi_mean" i;
  mn ← cell t "ndvi_min" i;
  mx ← cell t "ndvi_max" i;
  count ← cell t "ndvi_count" i;
  Some (mean, mn, mx, count).

Definition identifier (t : GeoDataFrame) (i : nat) : option value := cell t "id" i.

Definition is_str (v : value) : bool :=
  match v with VStr _ => true | _ => false end.

Definition is_clip (ev : event) : bool :=
  match ev with Clip _ => true | _ => false end.
Definition is_warning (ev : event) : bool :=
  match ev with Warning _ => true | _ => false end.

(** The zone set reduced to its row [j], as a table of its own. *)
Definition single (z : GeoDataFrame) (j : nat) : GeoDataFrame :=
  {| crs := crs z;
     geometry := take 1 (drop j (geometry z));
     columns := (fun col : list value => take 1 (drop j col)) <$> columns z |}.

(** The reference system a zone set is read in: the declared one, and
    geographic WGS84 when none is declared. *)
Definition source_crs (z : GeoDataFrame) : CRS := default "EPSG:4326" (crs z).

(** The geometries of the rows that carry one, in order, and the zone
    sets in which every row carries one. *)
Definition zones (z : GeoDataFrame) : list Geometry := omap id (geometry z).

Definition complete (z : GeoDataFrame) : Prop := Forall is_Some (geometry z).

(** The zones as the loop sees them when the raster is in the reference
    system [c], and the table and the trace of a run that gets through
    the checks and through the loop. *)
Definition reprojected (c : CRS) (z : GeoDataFrame) : list Geometry :=
  transform (source_crs z) c <$> zones z.

Definition id_columns (z : GeoDataFrame) : gmap string (list value) :=
  if decide (is_Some (columns z !! "id")) then columns z
  else <["id" := (fun i : nat => VStr (pretty i)) <$> seq 0 (nrows z)]> (columns z).

Definition result_table (src : Raster) (c : CRS) (z : GeoDataFrame) : GeoDataFrame :=
  let rows := zone_stats src <$> reprojected c z in
  {| crs := Some c;
     geometry := fmap (M := option) (transform (source_crs z) c) <$> geometry z;
     columns :=
       <["ndvi_count" := VInt <$> (s_count <$> rows)]>
         (<["ndvi_max" := VFloat <$> (s_max <$> rows)]>
            (<["ndvi_min" := VFloat <$> (s_min <$> rows)]>
               (<["ndvi_mean" := VFloat <$> (s_mean <$> rows)]> (id_columns z)))) |}.

Definition result_trace (raster_path vector_path : string) (src : Raster)
    (c : CRS) (z : GeoDataFrame) : list event :=
  [Info ("Loading raster: " +:+ raster_path);
   Info ("Loading polygons: " +:+ vector_path);
   Info ("Reprojected vector to raster CRS: " +:+ c)]
  ++ concat (imap (zone_events src) (reprojected c z)).

(** The pixels of a window that the shape covers, in row-major order. *)
Definition covered_row (m : nat -> bool) (row : list spec_float) : list spec_float :=
  omap id (imap (fun j v => if m j then None else Some v) row).

Definition covered (shape_mask : nat -> nat -> bool) (img : list (list spec_float))
  : list spec_float :=
  concat (imap (fun i row => covered_row (shape_mask i) row) img).

(** Validity as the code decides it, on the single-precision image of a
    pixel: finite and different from the nodata value. *)
Definition valid32 (nodata : option spec_float) (x : spec_float) : bool :=
  np.isfinite x &&
  match nodata with
  | Some nd => negb (SFeqb x (np.float32_of_float64 nd))
  | None => true
  end.

(** A pixel of the raster equal to the raster's nodata value. *)
Definition equals_nodata (src : Raster) (p : spec_float) : bool :=
  match r_nodata src with
  | Some nd => SFeqb p (cast (r_dtype src) nd)
  | None => false
  end.

(** The numeric semantics in the words of the specification: a pixel is
    valid when it is finite and not equal to the declared nodata value,
    and mean, min and max are taken in the raster's own precision. *)
Definition native_valid (src : Raster) (p : spec_float) : bool :=
  np.isfinite p && negb (equals_nodata src p).

Definition native_stats_of (t : dtype) (valid : list spec_float) : StatRow :=
  if decide (length valid = 0%nat) then zero_coverage
  else match t with
       | float32 =>
           (np.float64_of_float32 (np.mean valid), np.float64_of_float32 (np.min valid),
            np.float64_of_float32 (np.max valid), Z.of_nat (length valid))
       | float64 =>
           (np.mean64 valid, np.min valid, np.max valid, Z.of_nat (length valid))
       end.

Definition native_zone_stats (src : Raster) (geom : Geometry) : StatRow :=
  match mask src geom with
  | inl _ => zero_coverage
  | inr out_img =>
      native_stats_of (r_dtype src)
        (filter (fun p => native_valid src p) (concat out_img))
  end.

(** The number of pixels of the clipped window of a zone. *)
Definition window_size (src : Raster) (geom : Geometry) : nat :=
  match mask src geom with
  | inl _ => 0%nat
  | inr out_img => length (concat out_img)
  end.

End Observations.

(** ** Concrete inputs *)

Module Ex.
Import PixelGrid.
#[local] Existing Instance PixelGrid.lib.

Definition raster_path : string := "data/processed/ndvi.tif".
Definition vector_path : string := "data/vector/fields.geojson".

(** Single-precision values. *)
Definition f32 (n d : Z) : spec_float :=
  np.float32_of_float64 (SFdiv 53 1024 (np.float64_of_int n) (np.float64_of_int d)).
(** Double-precision values. *)
Definition f64 (n d : Z) : spec_float :=
  SFdiv 53 1024 (np.float64_of_int n) (np.float64_of_int d).

(** The 4x4 raster of the specification: 1.0 everywhere, the nodata
    value -9999 in the top row; zone A is the top row, zone B the three
    rows below it. The zone set has no identifier column and declares no
    reference system. *)
Definition raster44 : Raster :=
  {| r_crs := Some "EPSG:32633"; r_nodata := Some (f64 (-9999) 1); r_dtype := float32;
     r_band := [repeat (f32 (-9999) 1) 4; repeat (f32 1 1) 4;
                repeat (f32 1 1) 4; repeat (f32 1 1) 4] |}.

Definition zoneA : list Box := box 0 0 1 4.
Definition zoneB : list Box := box 1 0 4 4.

Definition zonesAB : GeoDataFrame :=
  {| crs := None; geometry := [Some zoneA; Some zoneB];
     columns := {[ "name" := [VStr "A"; VStr "B"] ]} |}.

Definition fs44 : gmap string file :=
  {[ raster_path := RasterFile raster44; vector_path := VectorFile zonesAB ]}.

(** The same zones when the raster path leads to a file that is not a
    raster. *)
Definition fs_not_a_raster : gmap string file :=
  {[ raster_path := OtherFile; vector_path := VectorFile zonesAB ]}.

(** Zone A, a geometry without any part, zone B. *)
Definition zones_degenerate : GeoDataFrame :=
  {| crs := Some "EPSG:32633"; geometry := [Some zoneA; Some []; Some zoneB];
     columns := {[ "name" := [VStr "A"; VStr "broken"; VStr "B"] ]} |}.

Definition fs_degenerate : gmap string file :=
  {[ raster_path := RasterFile raster44; vector_path := VectorFile zones_degenerate ]}.

(** Zone A, a feature without geometry, zone B; and zones A and B
    followed by a feature without geometry. *)
Definition zones_null : GeoDataFrame :=
  {| crs := Some "EPSG:32633"; geometry := [Some zoneA; None; Some zoneB];
     columns := {[ "name" := [VStr "A"; VStr "empty"; VStr "B"] ]} |}.

Definition fs_null : gmap string file :=
  {[ raster_path := RasterFile raster44; vector_path := VectorFile zones_null ]}.

Definition zones_null_last : GeoDataFrame :=
  {| crs := Some "EPSG:32633"; geometry := [Some zoneA; Some zoneB; None];
     columns := {[ "name" := [VStr "A"; VStr "B"; VStr "empty"] ]} |}.

Definition fs_null_last : gmap string file :=
  {[ raster_path := RasterFile raster44; vector_path := VectorFile zones_null_last ]}.



(** The zones as [04a_make_grid_over_ndvi.py] writes them: the identifier
    column holds the integers 1, 2, ... *)
Definition zones_grid : GeoDataFrame :=
  {| crs := Some "EPSG:4326"; geometry := [Some zoneA; Some zoneB];
     columns := {[ "id" := [VInt 1; VInt 2]; "name" := [VStr "Cell 1"; VStr "Cell 2"] ]} |}.

Definition fs_grid : gmap string file :=
  {[ raster_path := RasterFile raster44; vector_path := VectorFile zones_grid ]}.

(** A zone that lies entirely outside the 4x4 raster. *)
Definition zone_outside : list Box := box 10 10 12 12.

(** A 2x2 raster of 1.0 that declares no nodata value, and an L-shaped
    zone covering three of its four pixels. *)
Definition raster22 : Raster :=
  {| r_crs := Some "EPSG:32633"; r_nodata := None; r_dtype := float32;
     r_band := [repeat (f32 1 1) 2; repeat (f32 1 1) 2] |}.

Definition zoneL : list Box := box 0 0 1 2 ++ box 1 0 2 1.

(** A double-precision raster with the single pixel 0.1, and one with the
    single pixel 1e39; the zone covers the pixel. *)
Definition raster64 : Raster :=
  {| r_crs := Some "EPSG:32633"; r_nodata := None; r_dtype := float64;
     r_band := [[f64 1 10]] |}.

Definition raster64_large : Raster :=
  {| r_crs := Some "EPSG:32633"; r_nodata := None; r_dtype := float64;
     r_band := [[f64 (10 ^ 39) 1]] |}.

Definition zone_pixel : list Box := box 0 0 1 1.

(** A double-precision raster with the nodata value -9999 and the two
    pixels 1.0 and -9999.0001, and the zone covering both. *)
Definition raster64_nodata : Raster :=
  {| r_crs := Some "EPSG:32633"; r_nodata := Some (f64 (-9999) 1); r_dtype := float64;
     r_band := [[f64 1 1; f64 (-99990001) 10000]] |}.

Definition zone_row2 : list Box := box 0 0 1 2.

(** A single-precision raster of one row of seven pixels, all 0.1, and
    the zone covering the row. *)
Definition raster17 : Raster :=
  {| r_crs := Some "EPSG:32633"; r_nodata := None; r_dtype := float32;
     r_band := [repeat (f32 1 10) 7] |}.

Definition zone_row7 : list Box := box 0 0 1 7.

(** A zone that wraps around the upper left corner of the 2x2 raster at
    a distance of one pixel: its bounds overlap the raster, the shape lies
    entirely outside of it. *)
Definition zone_around : list Box := box (-2) (-2) (-1) 3 ++ box (-2) (-2) 3 (-1).

(** Running the aggregation on a file system, and reading its result. *)
Definition aggregate (fs : gmap string file) : M GeoDataFrame :=
  compute_zonal_mean fs raster_path vector_path.

Definition table (fs : gmap string file) : option GeoDataFrame :=
  match outcome (aggregate fs) with inr t => Some t | inl _ => None end.

Definition row (fs : gmap string file) (i : nat) : option (value * value * value * value) :=
  table fs ≫= fun t => stat_row t i.

Definition ident (fs : gmap string file) (i : nat) : option value :=
  table fs ≫= fun t => identifier t i.

Definition stats (src : Raster) (g : list Box) : StatRow := zone_stats src g.

Definition native_stats (src : Raster) (g : list Box) : StatRow :=
  native_zone_stats src g.

Definition covered_pixels (src : Raster) (g : list Box) : list spec_float :=
  match shape_mask src g with
  | inr (w, sm) => covered sm (read_window src w)
  | inl _ => []
  end.

End Ex.

(** ** More observations on the aggregation *)

Section MoreObservations.
Context `{GeoLib}.

(** The warning that the handler of the loop logs for the zone at position
    [idx] when its clip is refused. *)
Definition failure_warning (src : Raster) (idx : nat) (geom : Geometry) : option event :=
  match mask src geom with
  | inl e => Some (Warning ("Polygon " +:+ pretty idx +:+ " failed: " +:+ str_exn e))
  | inr _ => None
  end.

Definition failure_warnings (src : Raster) (gs : list Geometry) : list event :=
  omap id (imap (failure_warning src) gs).

(** The pixels of a window that lie outside the shape, in row-major
    order. *)
Definition outside_row (m : nat -> bool) (row : list spec_float) : list spec_float :=
  omap id (imap (fun j v => if m j then Some v else None) row).

Definition outside (shape_mask : nat -> nat -> bool) (img : list (list spec_float))
  : list spec_float :=
  concat (imap (fun i row => outside_row (shape_mask i) row) img).

(** The columns that the aggregation writes. *)
Definition stat_columns : list string :=
  ["ndvi_mean"; "ndvi_min"; "ndvi_max"; "ndvi_count"].

End MoreObservations.

(** ** [src/utils/log.py]: [get_logger]

    The state is the registry of the [logging] module: the loggers created
    so far, by name. [logging.getLogger(name)] returns the logger of that
    name and creates it, without handlers, when it does not exist yet.
    Creating the directory of the log file and opening the log file can
    fail; the environment decides. *)

Module log.

Definition format : string := "%(asctime)s %(levelname)s %(name)s: %(message)s".

Inductive Handler :=
| StreamHandler (fmt : string)
| FileHandler (path : string) (fmt : string).

(** A logger: the level [get_logger] has set on it ([None] while it has the
    level it was created with) and its handlers, oldest first. *)
Inductive Level := INFO.

Record Logger := {
  level : option Level;
  handlers : list Handler
}.

Definition new_logger : Logger := {| level := None; handlers := [] |}.

Record Env := {
  parent : string -> string;
  mkdir_error : string -> option string;
  open_error : string -> option string
}.

Definition getLogger (reg : gmap string Logger) (name : string)
  : gmap string Logger * Logger :=
  match reg !! name with
  | Some logger => (reg, logger)
  | None => (<[name := new_logger]> reg, new_logger)
  end.

Definition setLevel (lv : Level) (logger : Logger) : Logger :=
  {| level := Some lv; handlers := handlers logger |}.

Definition addHandler (h : Handler) (logger : Logger) : Logger :=
  {| level := level logger; handlers := handlers logger ++ [h] |}.

(** [if log_path:] — [None] and the empty string are false. *)
Definition truthy (log_path : option string) : option string :=
  match log_path with
  | Some "" => None
  | other => other
  end.

(** [get_logger(name, log_path)]: the registry after the call, and the
    logger it returns or the message of the [OSError] it raises. *)
Definition get_logger (env : Env) (name : string) (log_path : option string)
    (reg : gmap string Logger) : gmap string Logger * (string + Logger) :=
  let '(reg, logger) := getLogger reg name in
  if bool_decide (handlers logger <> []) then (reg, inr logger)
  else
    let logger := setLevel INFO logger in
    let logger := addHandler (StreamHandler format) logger in
    let reg := <[name := logger]> reg in
    match truthy log_path with
    | None => (reg, inr logger)
    | Some path =>
        match mkdir_error env (parent env path) with
        | Some msg => (reg, inl msg)
        | None =>
            match open_error env path with
            | Some msg => (reg, inl msg)
            | None =>
                let logger := addHandler (FileHandler path format) logger in
                (<[name := logger]> reg, inr logger)
            end
        end
    end.

(** A sequence of calls, each on the registry the one before it left,
    whether it returned or raised. *)
Fixpoint calls (env : Env) (cs : list (string * option string))
    (reg : gmap string Logger) : gmap string Logger :=
  match cs with
  | [] => reg
  | (name, log_path) :: rest => calls env rest (get_logger env name log_path reg).1
  end.

(** The handler lists [get_logger] can leave on a logger. *)
Definition configured (logger : Logger) : Prop :=
  level logger = Some INFO /\
  (handlers logger = [StreamHandler format] \/
   exists path, handlers logger = [StreamHandler format; FileHandler path format]).

Definition well_formed (logger : Logger) : Prop :=
  handlers logger = [] \/ configured logger.

End log.

(** ** [src/04_zonal_stats.py]: [main]

    The command line is parsed into [Args] (the defaults are those of the
    argument parser); a path is the text of its [Path]. Creating a
    directory and writing a file can fail with an [OSError]; the
    environment decides for every operation. What is written is recorded
    as the table handed to the writer. *)

Module zonal_stats.

Record Args := {
  vector : string;
  raster : string;
  out_geojson : string;
  out_csv : string
}.

Definition default_args : Args :=
  {| vector := "data/vector/fields.geojson";
     raster := "data/processed/ndvi.tif";
     out_geojson := "data/processed/ndvi_zonal.geojson";
     out_csv := "data/processed/ndvi_zonal.csv" |}.

Section Main.
Context `{GeoLib}.

(** [p.parent.mkdir(parents=True, exist_ok=True)], [gdf.to_file(p,
    driver="GeoJSON")] and [df.to_csv(p, index=False)] on the table
    without its geometry column. *)
Inductive io :=
| Mkdir (dir : string)
| ToFile (path : string) (gdf : GeoDataFrame)
| ToCsv (path : string) (cols : gmap string (list value)).

Inductive main_event :=
| Did (op : io)
| Logged (ev : event).

Inductive main_exn :=
| Aggregation (e : exn)
| OSError (op : io) (msg : string).

(** [Path(p).parent] as text, the failures of the operations, and the
    format [:.3f] of a float. *)
Record Env := {
  parent : string -> string;
  io_error : io -> option string;
  format_3f : spec_float -> string
}.

(** [gdf[name]] read as floats. *)
Definition float_column (gdf : GeoDataFrame) (name : string) : list spec_float :=
  omap (fun v => match v with VFloat x => Some x | _ => None end)
       (default [] (columns gdf !! name)).

(** [np.nanmin] and [np.nanmax] on a column with at least one row (the
    table a run returns has one): the minimum and the maximum of the items
    that are not NaN, and NaN when every item is NaN. *)
Definition nanmin (a : list spec_float) : spec_float :=
  np.min (filter (fun x => negb (np.isnan x)) a).
Definition nanmax (a : list spec_float) : spec_float :=
  np.max (filter (fun x => negb (np.isnan x)) a).

Definition summary (env : Env) (gdf : GeoDataFrame) : string :=
  "Rows: " +:+ pretty (nrows gdf) +:+ " | NDVI mean range: "
  +:+ format_3f env (nanmin (float_column gdf "ndvi_mean")) +:+ ".."
  +:+ format_3f env (nanmax (float_column gdf "ndvi_mean")).

(** [main()] (lines 78-102): the events of the run and its outcome. *)
Definition main (env : Env) (fs : gmap string file) (args : Args)
  : list main_event * (main_exn + unit) :=
  let out_geo := out_geojson args in
  match io_error env (Mkdir (parent env out_geo)) with
  | Some msg => ([], inl (OSError (Mkdir (parent env out_geo)) msg))
  | None =>
      let out_csv := out_csv args in
      let '(t, r) := compute_zonal_mean fs (raster args) (vector args) in
      let evs := Did (Mkdir (parent env out_geo)) :: (Logged <$> t) in
      match r with
      | inl e => (evs, inl (Aggregation e))
      | inr gdf =>
          match io_error env (ToFile out_geo gdf) with
          | Some msg => (evs, inl (OSError (ToFile out_geo gdf) msg))
          | None =>
              let evs := evs ++ [Did (ToFile out_geo gdf)] in
              match io_error env (ToCsv out_csv (columns gdf)) with
              | Some msg => (evs, inl (OSError (ToCsv out_csv (columns gdf)) msg))
              | None =>
                  (evs ++ [Did (ToCsv out_csv (columns gdf));
                           Logged (Info ("✅ Saved zonal GeoJSON: " +:+ out_geo));
                           Logged (Info ("✅ Saved zonal CSV:     " +:+ out_csv));
                           Logged (Info (summary env gdf))],
                   inr tt)
              end
          end
      end
  end.

(** The files a run has written, in order. *)
Definition writes (evs : list main_event) : list io :=
  omap (fun ev => match ev with
                  | Did (ToFile p g) => Some (ToFile p g)
                  | Did (ToCsv p c) => Some (ToCsv p c)
                  | _ => None
                  end) evs.

End Main.
End zonal_stats.

(** ** [src/06_postgis_ingest.py]: [upsert_fields] and [load_zonal_csv]

    A pandas [DataFrame] with its positional index: the number of rows and
    the columns by name. The database writes ([to_postgis], [to_sql]) and
    [pd.read_csv] belong to the environment, as does the text of a float
    under [astype(str)], what [astype(str)] does with a missing cell, and
    the EPSG code of a reference system. The two functions are modelled as
    they are defined; the statements of the module after [main] are
    not. *)

Module postgis_ingest.

Record DataFrame := {
  df_len : nat;
  df_columns : gmap string (list value)
}.

(** Every column has one cell per row. *)
Definition df_wf (df : DataFrame) : Prop :=
  map_Forall (fun _ col => length col = df_len df) (df_columns df).

Section Ingest.
Context `{GeoLib}.

Inductive ingest_exn :=
| Py (e : exn)
| DBError (msg : string).

Inductive ingest_event :=
| Logged (ev : event)
| ToPostgis (table : string) (gdf : GeoDataFrame)
| ToSql (table : string) (df : DataFrame).

(** [na_preserved]: whether [astype(str)] leaves a missing cell missing
    (pandas 3, where [str] is the string dtype whose missing value is
    NaN) or turns it into text (earlier versions: ["nan"], ["None"]). The
    repository pins no version. *)
Record Env := {
  to_epsg : CRS -> option Z;
  str_float : spec_float -> string;
  na_preserved : bool;
  read_csv : string -> exn + DataFrame;
  to_postgis_error : GeoDataFrame -> option string;
  to_sql_error : DataFrame -> option string
}.

(** [str(v)] for the cell of a column, as [astype(str)] applies it. *)
Definition str_value (env : Env) (v : value) : string :=
  match v with
  | VStr s => s
  | VInt n => pretty n
  | VFloat x => str_float env x
  | VNone => "None"
  end.

(** A missing cell: [None] or NaN. *)
Definition missing (v : value) : bool :=
  match v with
  | VNone => true
  | VFloat x => np.isnan x
  | _ => false
  end.

(** [col.astype(str)], cell by cell. *)
Definition astype_str_cell (env : Env) (v : value) : value :=
  if missing v && na_preserved env then VFloat np.nan else VStr (str_value env v).

Definition astype_str (env : Env) (col : list value) : list value :=
  astype_str_cell env <$> col.

(** [index.astype(str)] of a positional index of [n] rows. *)
Definition index_str (n : nat) : list value :=
  (fun i : nat => VStr (pretty i)) <$> seq 0 n.

(** [gdf.rename(columns={old: new})] when [old] is a column. *)
Definition rename_column (old new : string) (cols : gmap string (list value))
  : gmap string (list value) :=
  match cols !! old with
  | Some col => <[new := col]> (delete old cols)
  | None => cols
  end.

(** The attribute columns after lines 46-53: the key column and the name
    column are there. *)
Definition with_field_id (gdf : GeoDataFrame) : gmap string (list value) :=
  if decide (is_Some (columns gdf !! "field_id")) then columns gdf
  else if decide (is_Some (columns gdf !! "id")) then rename_column "id" "field_id" (columns gdf)
  else <["field_id" := index_str (nrows gdf)]> (columns gdf).

Definition with_name (n : nat) (cols : gmap string (list value)) : gmap string (list value) :=
  if decide (is_Some (cols !! "name")) then cols
  else <["name" := replicate n (VStr "field")]> cols.

(** Lines 56-59: the table in WGS84. *)
Definition ensure_wgs84 (env : Env) (gdf : GeoDataFrame) : GeoDataFrame :=
  match crs gdf with
  | None => {| crs := Some "EPSG:4326"; geometry := geometry gdf; columns := columns gdf |}
  | Some c =>
      if decide (to_epsg env c = Some 4326) then gdf
      else {| crs := Some "EPSG:4326";
              geometry := fmap (M := option) (transform c "EPSG:4326") <$> geometry gdf;
              columns := columns gdf |}
  end.

(** [gdf[["field_id", "name", "geom"]]]: the two attribute columns beside
    the geometry. *)
Definition select_fields (cols : gmap string (list value)) : gmap string (list value) :=
  filter (fun kv => kv.1 = "field_id" \/ kv.1 = "name") cols.

(** Lines 46-65: the frame that is written, for a table with rows;
    [rename_geometry("geom")] refuses a table that has a column of that
    name. *)
Definition fields_frame (env : Env) (gdf : GeoDataFrame) : exn + GeoDataFrame :=
  let cols := with_name (nrows gdf) (with_field_id gdf) in
  let gdf := ensure_wgs84 env
               {| crs := crs gdf; geometry := geometry gdf; columns := cols |} in
  if decide (is_Some (columns gdf !! "geom")) then
    inl (ValueError "Column named geom already exists")
  else
    inr {| crs := crs gdf; geometry := geometry gdf;
           columns := select_fields (columns gdf) |}.

(** [upsert_fields(engine, fields_geojson)]. *)
Definition upsert_fields (env : Env) (fs : gmap string file) (fields_geojson : string)
  : list ingest_event * (ingest_exn + unit) :=
  match outcome (read_file fs fields_geojson) with
  | inl e => ([], inl (Py e))
  | inr gdf =>
      if empty gdf then ([Logged (Warning "No features in fields.geojson")], inr tt)
      else
        match fields_frame env gdf with
        | inl e => ([], inl (Py e))
        | inr gdf =>
            match to_postgis_error env gdf with
            | Some msg => ([], inl (DBError msg))
            | None =>
                ([ToPostgis "fields" gdf;
                  Logged (Info ("Inserted/appended " +:+ pretty (nrows gdf)
                                +:+ " rows into geofarm.fields."))],
                 inr tt)
            end
        end
  end.

(** [df.get(name)] and [df.get(name, 0)] as a column of the new frame:
    the column when it is there, and else the default in every row. *)
Definition get_column (df : DataFrame) (name : string) (dflt : value) : list value :=
  match df_columns df !! name with
  | Some col => col
  | None => replicate (df_len df) dflt
  end.

(** The column of the CSV that the keys are taken from: [field_id], else
    [id], else none (the keys are then the row positions). *)
Definition key_source (df : DataFrame) : option (list value) :=
  match df_columns df !! "field_id" with
  | Some col => Some col
  | None => df_columns df !! "id"
  end.

(** Lines 104-109: the key column, as text. *)
Definition field_id_series (env : Env) (df : DataFrame) : list value :=
  match df_columns df !! "field_id" with
  | Some col => astype_str env col
  | None =>
      match df_columns df !! "id" with
      | Some col => astype_str env col
      | None => index_str (df_len df)
      end
  end.

(** Lines 111-119: the frame that is inserted. *)
Definition ins_df (env : Env) (run_id : string) (df : DataFrame) : DataFrame :=
  {| df_len := df_len df;
     df_columns :=
       <["run_id" := replicate (df_len df) (VStr run_id)]>
         (<["ndvi_count" := get_column df "ndvi_count" (VInt 0)]>
            (<["ndvi_max" := get_column df "ndvi_max" VNone]>
               (<["ndvi_min" := get_column df "ndvi_min" VNone]>
                  (<["ndvi_mean" := get_column df "ndvi_mean" VNone]>
                     {[ "field_id" := field_id_series env df ]})))) |}.

(** [load_zonal_csv(engine, run_id, csv_path)]. *)
Definition load_zonal_csv (env : Env) (run_id : string) (csv_path : string)
  : list ingest_event * (ingest_exn + unit) :=
  match read_csv env csv_path with
  | inl e => ([], inl (Py e))
  | inr df =>
      let frame := ins_df env run_id df in
      match to_sql_error env frame with
      | Some msg => ([], inl (DBError msg))
      | None =>
          ([ToSql "ndvi_stats" frame;
            Logged (Info ("Inserted " +:+ pretty (df_len frame)
                          +:+ " geofarm.ndvi_stats rows for run_id=" +:+ run_id))],
           inr tt)
      end
  end.

End Ingest.
End postgis_ingest.

(** ** [src/04a_make_grid_over_ndvi.py]: [make_grid_over_raster]

    The bounds of the raster ([src.bounds]: left, bottom, right, top) and
    shapely's [Polygon] constructor belong to the environment. Coordinates
    are Python floats; [rows] and [cols] are Python integers of any sign
    and size. *)

Module make_grid.

Definition sub64 : spec_float -> spec_float -> spec_float := SFsub 53 1024.
Definition mul64 : spec_float -> spec_float -> spec_float := SFmul 53 1024.
Definition div64 : spec_float -> spec_float -> spec_float := SFdiv 53 1024.

Inductive grid_exn :=
| Py (e : exn)
| ZeroDivisionError (msg : string)
| OverflowError (msg : string).

(** [x / n] for a float [x] and an integer [n]: the integer is converted
    to a float first, which fails when it is too large, and the division
    by zero is refused. *)
Definition float_div_int (x : spec_float) (n : Z) : grid_exn + spec_float :=
  if np.isfinite (np.float64_of_int n) then
    if decide (n = 0) then inl (ZeroDivisionError "float division by zero")
    else inr (div64 x (np.float64_of_int n))
  else inl (OverflowError "int too large to convert to float").

Section Grid.
Context `{GeoLib}.

Record Env := {
  bounds : Raster -> spec_float * spec_float * spec_float * spec_float;
  Polygon : list (spec_float * spec_float) -> Geometry
}.

(** One entry of [polys]. *)
Record Feature := {
  f_id : Z;
  f_name : string;
  f_geometry : Geometry
}.

(** Lines 31-34: the rectangle of the cell in row [r] and column [c]. *)
Definition cell_polygon (env : Env) (minx miny dx dy : spec_float) (r c : nat) : Geometry :=
  let x0 := np.add64 minx (mul64 (np.float64_of_int (Z.of_nat c)) dx) in
  let y0 := np.add64 miny (mul64 (np.float64_of_int (Z.of_nat r)) dy) in
  let x1 := np.add64 x0 dx in
  let y1 := np.add64 y0 dy in
  Polygon env [(x0, y0); (x1, y0); (x1, y1); (x0, y1)].

(** Lines 29-36: the two loops, on the list built so far and the running
    identifier; [range(n)] is empty for a negative [n]. *)
Definition range (n : Z) : list nat := seq 0 (Z.to_nat n).

Definition inner_body (env : Env) (minx miny dx dy : spec_float) (r : nat)
    (st : list Feature * Z) (c : nat) : list Feature * Z :=
  let '(polys, fid) := st in
  (polys ++ [{| f_id := fid; f_name := "Cell " +:+ pretty fid;
                f_geometry := cell_polygon env minx miny dx dy r c |}],
   fid + 1).

Definition outer_body (env : Env) (minx miny dx dy : spec_float) (cols : Z)
    (st : list Feature * Z) (r : nat) : list Feature * Z :=
  fold_left (inner_body env minx miny dx dy r) (range cols) st.

Definition loops (env : Env) (minx miny dx dy : spec_float) (rows cols : Z)
  : list Feature * Z :=
  fold_left (outer_body env minx miny dx dy cols) (range rows) ([], 1).

(** The entry that the loops append in their [k]-th step, counted from 0,
    when a row has [cols] cells: the cell of row [k / cols] and column
    [k mod cols], numbered [k + 1]. *)
Definition feature_at (env : Env) (minx miny dx dy : spec_float) (cols k : nat) : Feature :=
  {| f_id := Z.of_nat k + 1;
     f_name := "Cell " +:+ pretty (Z.of_nat k + 1);
     f_geometry := cell_polygon env minx miny dx dy (k / cols) (k mod cols) |}.

(** The steps of the grid over [src]: [dx] and [dy] of lines 24-25, when
    the divisions succeed. *)
Definition step_x (env : Env) (src : Raster) (cols : Z) : spec_float :=
  let '(minx, miny, maxx, maxy) := bounds env src in
  div64 (sub64 maxx minx) (np.float64_of_int cols).

Definition step_y (env : Env) (src : Raster) (rows : Z) : spec_float :=
  let '(minx, miny, maxx, maxy) := bounds env src in
  div64 (sub64 maxy miny) (np.float64_of_int rows).

(** The cell of row [r] and column [c] of the [rows] x [cols] grid over
    [src], in the reference system of the raster. *)
Definition grid_cell (env : Env) (src : Raster) (rows cols : Z) (r c : nat) : Geometry :=
  let '(minx, miny, maxx, maxy) := bounds env src in
  cell_polygon env minx miny (step_x env src cols) (step_y env src rows) r c.

(** [gpd.GeoDataFrame(polys, crs=crs)] for a list with entries. *)
Definition frame_of (polys : list Feature) (c : option CRS) : GeoDataFrame :=
  {| crs := c;
     geometry := (fun f => Some (f_geometry f)) <$> polys;
     columns := {[ "id" := (fun f => VInt (f_id f)) <$> polys;
                   "name" := (fun f => VStr (f_name f)) <$> polys ]} |}.

(** Lines 38-40. An empty list gives a table without geometry column:
    the constructor refuses a reference system for it, and without one
    [to_crs] finds no geometry column to work on. *)
Definition frame_to_wgs84 (polys : list Feature) (c : option CRS) : exn + GeoDataFrame :=
  match polys with
  | [] =>
      match c with
      | Some _ =>
          inl (ValueError "Assigning CRS to a GeoDataFrame without a geometry column is not supported.")
      | None =>
          inl (AttributeError "You are calling a geospatial method on the GeoDataFrame, but the active geometry column to use has not been set.")
      end
  | _ => outcome (to_crs (Some "EPSG:4326") (frame_of polys c))
  end.

(** [make_grid_over_raster(raster_path, rows, cols)]. *)
Definition make_grid_over_raster (env : Env) (fs : gmap string file)
    (raster_path : string) (rows cols : Z) : grid_exn + GeoDataFrame :=
  match outcome (rasterio_open fs raster_path) with
  | inl e => inl (Py e)
  | inr src =>
      let '(minx, miny, maxx, maxy) := bounds env src in
      match float_div_int (sub64 maxx minx) cols with
      | inl e => inl e
      | inr dx =>
          match float_div_int (sub64 maxy miny) rows with
          | inl e => inl e
          | inr dy =>
              let polys := (loops env minx miny dx dy rows cols).1 in
              match frame_to_wgs84 polys (r_crs src) with
              | inl e => inl (Py e)
              | inr gdf => inr gdf
              end
          end
      end
  end.

End Grid.
End make_grid.

(** ** Concrete environments *)

Module Setup.
Import PixelGrid.
#[local] Existing Instance PixelGrid.lib.

(** Environments in which no operation fails. The text of a float is
    given for the values of the examples, NaN and 1.0. *)
Definition log_env : log.Env :=
  {| log.parent := fun _ => "logs";
     log.mkdir_error := fun _ => None;
     log.open_error := fun _ => None |}.

(** The log directory cannot be created. *)
Definition log_env_readonly : log.Env :=
  {| log.parent := fun _ => "logs";
     log.mkdir_error := fun _ => Some "Read-only file system";
     log.open_error := fun _ => None |}.

Definition main_env : zonal_stats.Env :=
  {| zonal_stats.parent := fun _ => "data/processed";
     zonal_stats.io_error := fun _ => None;
     zonal_stats.format_3f := fun x => if np.isnan x then "nan" else "1.000" |}.

(** A zone file without features, and no file at all. *)
Definition zones_empty : GeoDataFrame :=
  {| crs := Some "EPSG:4326"; geometry := []; columns := ∅ |}.

Definition fs_empty_zones : gmap string file :=
  {[ Ex.raster_path := RasterFile Ex.raster44; Ex.vector_path := VectorFile zones_empty ]}.

Definition fs_nothing : gmap string file := ∅.

(** The CSV that [main] writes for the 4x4 raster and the zones A and B,
    as [pd.read_csv] reads it. *)
Definition csv_path : string := "data/processed/ndvi_zonal.csv".

Definition zonal_csv : postgis_ingest.DataFrame :=
  {| postgis_ingest.df_len := 2;
     postgis_ingest.df_columns :=
       {[ "name" := [VStr "A"; VStr "B"];
          "id" := [VInt 0; VInt 1];
          "ndvi_mean" := [VFloat np.nan; VFloat (Ex.f32 1 1)];
          "ndvi_min" := [VFloat np.nan; VFloat (Ex.f32 1 1)];
          "ndvi_max" := [VFloat np.nan; VFloat (Ex.f32 1 1)];
          "ndvi_count" := [VInt 0; VInt 12] ]} |}.

(** A CSV whose second row has no identifier: the column is read as
    floats, with NaN for the missing cell. *)
Definition csv_gap_path : string := "data/processed/ndvi_zonal_gap.csv".

Definition zonal_csv_gap : postgis_ingest.DataFrame :=
  {| postgis_ingest.df_len := 2;
     postgis_ingest.df_columns :=
       {[ "id" := [VFloat (Ex.f64 1 1); VFloat np.nan];
          "ndvi_mean" := [VFloat np.nan; VFloat (Ex.f32 1 1)];
          "ndvi_min" := [VFloat np.nan; VFloat (Ex.f32 1 1)];
          "ndvi_max" := [VFloat np.nan; VFloat (Ex.f32 1 1)];
          "ndvi_count" := [VInt 0; VInt 12] ]} |}.

Definition ingest_env : postgis_ingest.Env :=
  {| postgis_ingest.to_epsg := fun c =>
       if decide (c = "EPSG:4326") then Some 4326
       else if decide (c = "EPSG:32633") then Some 32633 else None;
     postgis_ingest.str_float := fun x => if np.isnan x then "nan" else "1.0";
     postgis_ingest.na_preserved := true;
     postgis_ingest.read_csv := fun p =>
       if decide (p = csv_path) then inr zonal_csv
       else if decide (p = csv_gap_path) then inr zonal_csv_gap
       else inl (FileNotFoundError p);
     postgis_ingest.to_postgis_error := fun _ => None;
     postgis_ingest.to_sql_error := fun _ => None |}.

(** The frame that [upsert_fields] writes for the zones A and B. *)
Definition fields_table : GeoDataFrame :=
  {| crs := Some "EPSG:4326"; geometry := [Some Ex.zoneA; Some Ex.zoneB];
     columns := {[ "field_id" := [VStr "0"; VStr "1"]; "name" := [VStr "A"; VStr "B"] ]} |}.

(** The pixel grid of a raster with four rows as a map: a pixel is a unit
    square, the lower left corner of the raster is the origin, and a
    rectangle with integral corners is the box of its pixels. *)
Definition Z_of_float (x : spec_float) : Z :=
  match x with
  | S754_finite s m e =>
      let v := if 0 <=? e then Z.pos m * 2 ^ e else Z.pos m / 2 ^ (- e) in
      if s then - v else v
  | _ => 0
  end.

Definition grid_env : make_grid.Env :=
  {| make_grid.bounds := fun src =>
       (Ex.f64 0 1, Ex.f64 0 1,
        np.float64_of_int (raster_width src), np.float64_of_int (raster_height src));
     make_grid.Polygon := fun pts =>
       match pts with
       | [(x0, y0); _; (x1, y1); _] =>
           box (4 - Z_of_float y1) (Z_of_float x0) (4 - Z_of_float y0) (Z_of_float x1)
       | _ => []
       end |}.

(** The 2x2 grid over the 4x4 raster, and the file system in which it is
    the zone file. *)
Definition grid22 : GeoDataFrame :=
  {| crs := Some "EPSG:4326";
     geometry := [Some (box 2 0 4 2); Some (box 2 2 4 4);
                  Some (box 0 0 2 2); Some (box 0 2 2 4)];
     columns := {[ "id" := [VInt 1; VInt 2; VInt 3; VInt 4];
                   "name" := [VStr "Cell 1"; VStr "Cell 2"; VStr "Cell 3"; VStr "Cell 4"] ]} |}.


End Setup.

(** * Properties *)

(** ** Summation *)

(** The recursion of the pairwise summation stops before the bound given
    by the length of the array is used up. *)
Lemma pairwise_sum_fuel (add : spec_float -> spec_float -> spec_float) :
  forall (f1 f2 : nat) (a : list spec_float),
    (length a <= f1)%nat -> (length a <= f2)%nat ->
    np.pairwise_sum add f1 a = np.pairwise_sum add f2 a.
Proof.
  induction f1 as [|f1 IH]; intros f2 a H1 H2.
  - assert (a = []) as -> by (destruct a; [done|simpl in H1; lia]).
    by destruct f2.
  - destruct f2 as [|f2].
    { assert (a = []) as -> by (destruct a; [done|simpl in H2; lia]). done. }
    cbn [np.pairwise_sum].
    destruct (length a <? 8)%nat eqn:H8; [done|].
    destruct (length a <=? 128)%nat eqn:H128; [done|].
    apply Nat.leb_gt in H128.
    pose proof (Nat.mod_upper_bound (length a / 2) 8 ltac:(lia)) as Hmod.
    pose proof (Nat.div_lt (length a) 2 ltac:(lia) ltac:(lia)) as Hdiv.
    assert (64 <= length a / 2)%nat as Hhalf.
    { apply Nat.div_le_lower_bound; lia. }
    f_equal; apply IH; rewrite ?length_take, ?length_drop; lia.
Qed.

Lemma sum_fuel (a : list spec_float) (fuel : nat) :
  (length a <= fuel)%nat ->
  np.add32 (S754_zero false) (np.pairwise_sum np.add32 fuel a) = np.sum a.
Proof. intros Hf. unfold np.sum. f_equal. by apply pairwise_sum_fuel. Qed.

(** ** Floating-point order *)

Lemma SFcompare_finite_eq s1 m1 e1 s2 m2 e2 :
  SFcompare (S754_finite s1 m1 e1) (S754_finite s2 m2 e2) = Some Eq ->
  s1 = s2 /\ m1 = m2 /\ e1 = e2.
Proof.
  unfold SFcompare. destruct s1, s2; try discriminate;
    destruct (Z.compare_spec e1 e2); try discriminate;
    change (Pos.compare_cont Eq m1 m2) with (Pos.compare m1 m2);
    destruct (Pos.compare_spec m1 m2); try discriminate; done.
Qed.

Lemma SFeqb_refl (x : spec_float) : np.isnan x = false -> SFeqb x x = true.
Proof.
  destruct x as [s|s| |s m e]; try done; unfold SFeqb, SFcompare.
  - by destruct s.
  - intros _. rewrite Z.compare_refl.
    change (Pos.compare_cont Eq m m) with (Pos.compare m m).
    rewrite Pos.compare_refl. by destruct s.
Qed.

Lemma SFleb_refl (x : spec_float) : np.isnan x = false -> SFleb x x = true.
Proof.
  intros Hx. pose proof (SFeqb_refl x Hx) as Heq.
  unfold SFeqb in Heq. unfold SFleb.
  by destruct (SFcompare x x) as [[]|].
Qed.

Ltac cmp_cases :=
  repeat match goal with
    | |- context [Z.compare ?a ?b] => destruct (Z.compare_spec a b)
    | H : context [Z.compare ?a ?b] |- _ => destruct (Z.compare_spec a b)
    | |- context [Pos.compare_cont Eq ?a ?b] =>
        change (Pos.compare_cont Eq a b) with (Pos.compare a b);
        destruct (Pos.compare_spec a b)
    | H : context [Pos.compare_cont Eq ?a ?b] |- _ =>
        change (Pos.compare_cont Eq a b) with (Pos.compare a b) in H;
        destruct (Pos.compare_spec a b)
    end.

Lemma SFleb_total (x y : spec_float) :
  np.isnan x = false -> np.isnan y = false -> SFleb x y = false -> SFleb y x = true.
Proof.
  unfold SFleb, SFcompare.
  destruct x as [s1|s1| |s1 m1 e1], y as [s2|s2| |s2 m2 e2]; try done;
    intros _ _; try (destruct s1, s2; done); try (destruct s1; done); try (destruct s2; done).
  destruct s1, s2; try done; cmp_cases; simpl; try done; try lia.
Qed.

Lemma SFleb_trans (x y z : spec_float) :
  SFleb x y = true -> SFleb y z = true -> SFleb x z = true.
Proof.
  unfold SFleb, SFcompare.
  destruct x as [s1|s1| |s1 m1 e1], y as [s2|s2| |s2 m2 e2], z as [s3|s3| |s3 m3 e3];
    try done;
    try (destruct s1, s2, s3; done);
    try (destruct s1, s2; done); try (destruct s1, s3; done); try (destruct s2, s3; done);
    try (destruct s1; done); try (destruct s2; done); try (destruct s3; done).
  destruct s1, s2, s3; try done; cmp_cases; simpl; try done; try lia.
Qed.

Lemma SFltb_leb (x y : spec_float) : SFltb x y = true -> SFleb x y = true.
Proof. unfold SFltb, SFleb. by destruct (SFcompare x y) as [[]|]. Qed.

Lemma SFltb_false_leb (x y : spec_float) :
  np.isnan x = false -> np.isnan y = false -> SFltb x y = false -> SFleb y x = true.
Proof.
  unfold SFltb, SFleb, SFcompare.
  destruct x as [s1|s1| |s1 m1 e1], y as [s2|s2| |s2 m2 e2]; try done;
    intros _ _; try (destruct s1, s2; done); try (destruct s1; done); try (destruct s2; done).
  destruct s1, s2; try done; cmp_cases; simpl; try done; try lia.
Qed.

Lemma isfinite_not_nan (x : spec_float) : np.isfinite x = true -> np.isnan x = false.
Proof. by destruct x. Qed.

(** Two equal doubles stay equal when narrowed, unless they narrow to a
    value that is not finite. *)
Lemma SFeqb_narrow (p q : spec_float) :
  SFeqb p q = true ->
  SFeqb (np.float32_of_float64 p) (np.float32_of_float64 q) = true
  \/ np.isfinite (np.float32_of_float64 p) = false.
Proof.
  unfold SFeqb. destruct (SFcompare p q) as [[]|] eqn:Hc; try done. intros _.
  destruct p as [s1|s1| |s1 m1 e1], q as [s2|s2| |s2 m2 e2]; simpl in Hc; try done;
    try (destruct s1, s2; done); try (destruct s1; done); try (destruct s2; done).
  - by left.
  - by right.
  - apply SFcompare_finite_eq in Hc as (-> & -> & ->).
    destruct (np.isfinite (np.float32_of_float64 (S754_finite s2 m2 e2))) eqn:Hf; [left|by right].
    apply (SFeqb_refl _ (isfinite_not_nan _ Hf)).
Qed.


(** ** Minimum and maximum of finite values *)

Lemma minimum_spec (x y : spec_float) :
  np.isfinite x = true -> np.isfinite y = true ->
  (np.minimum x y = x \/ np.minimum x y = y) /\
  SFleb (np.minimum x y) x = true /\ SFleb (np.minimum x y) y = true.
Proof.
  intros Hx Hy. unfold np.minimum.
  rewrite (isfinite_not_nan x Hx).
  destruct (SFltb x y) eqn:Hlt.
  - split; [by left|]. split; [|by apply SFltb_leb].
    by apply SFleb_refl, isfinite_not_nan.
  - split; [by right|]. split.
    + apply SFltb_false_leb; auto using isfinite_not_nan.
    + by apply SFleb_refl, isfinite_not_nan.
Qed.

Lemma maximum_spec (x y : spec_float) :
  np.isfinite x = true -> np.isfinite y = true ->
  (np.maximum x y = x \/ np.maximum x y = y) /\
  SFleb x (np.maximum x y) = true /\ SFleb y (np.maximum x y) = true.
Proof.
  intros Hx Hy. unfold np.maximum.
  rewrite (isfinite_not_nan x Hx).
  destruct (SFltb y x) eqn:Hlt.
  - split; [by left|]. split; [|by apply SFltb_leb].
    by apply SFleb_refl, isfinite_not_nan.
  - split; [by right|]. split.
    + apply SFltb_false_leb; auto using isfinite_not_nan.
    + by apply SFleb_refl, isfinite_not_nan.
Qed.

Lemma fold_minimum_spec (l : list spec_float) :
  forall x : spec_float,
    np.isfinite x = true -> Forall (fun v => np.isfinite v = true) l ->
    fold_left np.minimum l x ∈ x :: l /\
    Forall (fun v => SFleb (fold_left np.minimum l x) v = true) (x :: l).
Proof.
  induction l as [|y l IH]; intros x Hx Hl.
  - simpl. split; [apply list_elem_of_here|].
    constructor; [|constructor]. by apply SFleb_refl, isfinite_not_nan.
  - apply Forall_cons in Hl as [Hy Hl].
    destruct (minimum_spec x y Hx Hy) as (Hin & Hlx & Hly).
    assert (np.isfinite (np.minimum x y) = true) as Hm by (by destruct Hin as [->| ->]).
    destruct (IH _ Hm Hl) as (IHin & IHle). simpl.
    apply Forall_cons in IHle as [IHm IHle].
    split.
    + apply elem_of_cons in IHin as [->|IHin].
      * destruct Hin as [->| ->]; [apply list_elem_of_here|].
        apply list_elem_of_further, list_elem_of_here.
      * by do 2 apply list_elem_of_further.
    + repeat constructor; eauto using SFleb_trans.
Qed.

Lemma fold_maximum_spec (l : list spec_float) :
  forall x : spec_float,
    np.isfinite x = true -> Forall (fun v => np.isfinite v = true) l ->
    fold_left np.maximum l x ∈ x :: l /\
    Forall (fun v => SFleb v (fold_left np.maximum l x) = true) (x :: l).
Proof.
  induction l as [|y l IH]; intros x Hx Hl.
  - simpl. split; [apply list_elem_of_here|].
    constructor; [|constructor]. by apply SFleb_refl, isfinite_not_nan.
  - apply Forall_cons in Hl as [Hy Hl].
    destruct (maximum_spec x y Hx Hy) as (Hin & Hlx & Hly).
    assert (np.isfinite (np.maximum x y) = true) as Hm by (by destruct Hin as [->| ->]).
    destruct (IH _ Hm Hl) as (IHin & IHle). simpl.
    apply Forall_cons in IHle as [IHm IHle].
    split.
    + apply elem_of_cons in IHin as [->|IHin].
      * destruct Hin as [->| ->]; [apply list_elem_of_here|].
        apply list_elem_of_further, list_elem_of_here.
      * by do 2 apply list_elem_of_further.
    + repeat constructor; eauto using SFleb_trans.
Qed.

(** The minimum and the maximum of a non-empty array of finite values are
    items of the array and bound every item. *)
Lemma np_min_spec (a : list spec_float) :
  a <> [] -> Forall (fun v => np.isfinite v = true) a ->
  np.min a ∈ a /\ Forall (fun v => SFleb (np.min a) v = true) a.
Proof.
  destruct a as [|x l]; [done|]. intros _ Ha.
  apply Forall_cons in Ha as [Hx Hl]. by apply fold_minimum_spec.
Qed.

Lemma np_max_spec (a : list spec_float) :
  a <> [] -> Forall (fun v => np.isfinite v = true) a ->
  np.max a ∈ a /\ Forall (fun v => SFleb v (np.max a) = true) a.
Proof.
  destruct a as [|x l]; [done|]. intros _ Ha.
  apply Forall_cons in Ha as [Hx Hl]. by apply fold_maximum_spec.
Qed.

Lemma float64_of_float32_isnan (x : spec_float) :
  np.isnan (np.float64_of_float32 x) = np.isnan x.
Proof. by destruct x. Qed.

(** ** Lists *)

Lemma concat_fmap_fmap {A B} (f : A -> B) (ll : list (list A)) :
  concat ((fun l : list A => f <$> l) <$> ll) = f <$> concat ll.
Proof.
  induction ll as [|l ll IH]; [done|].
  rewrite fmap_cons, !concat_cons, fmap_app. by f_equal.
Qed.

Lemma filter_fmap_fix {A} (P Q : A -> Prop) `{!forall x, Decision (P x)}
    `{!forall x, Decision (Q x)} (f : A -> A) (l : list A) :
  (forall x, P (f x) <-> Q x) -> (forall x, Q x -> f x = x) ->
  filter P (f <$> l) = filter Q l.
Proof.
  intros HPQ Hfix. induction l as [|x l IH]; [done|].
  rewrite fmap_cons, !filter_cons, IH.
  destruct (decide (P (f x))) as [HP|HP], (decide (Q x)) as [HQ|HQ].
  - by rewrite Hfix.
  - by apply HPQ in HP.
  - by apply HPQ in HQ.
  - done.
Qed.


Section Properties.
Context `{GeoLib}.

(** ** The monad *)

Lemma bind_ret {A B} (x : A) (f : A -> M B) : mret x ≫= f = f x.
Proof. unfold mbind, M_bind, mret, M_ret. by destruct (f x). Qed.

Lemma bind_raise {A B} (e : exn) (f : A -> M B) : raise e ≫= f = raise e.
Proof. done. Qed.

Lemma bind_log {B} (ev : event) (k : M B) :
  log ev ≫= (fun _ => k) = (ev :: trace k, outcome k).
Proof. unfold mbind, M_bind, log. by destruct k. Qed.

Lemma bind_pure {A B} (t : list event) (x : A) (f : A -> M B) :
  ((t, inr x) : M A) ≫= f = (t ++ trace (f x), outcome (f x)).
Proof. unfold mbind, M_bind. by destruct (f x). Qed.

Lemma bind_fail {A B} (t : list event) (e : exn) (f : A -> M B) :
  ((t, inl e) : M A) ≫= f = (t, inl e).
Proof. done. Qed.

(** ** Rows with and without geometry *)

Lemma complete_zones (z : GeoDataFrame) : complete z -> geometry z = Some <$> zones z.
Proof.
  unfold complete, zones. induction (geometry z) as [|g l IH]; [done|].
  intros Hall. apply Forall_cons in Hall as [[g0 ->] Hall].
  cbn. f_equal. by apply IH.
Qed.

Lemma zones_some (gs : list Geometry) : omap id (Some <$> gs) = gs.
Proof. induction gs as [|g gs IH]; [done|]. cbn. by f_equal. Qed.

Lemma complete_some (z : GeoDataFrame) (gs : list Geometry) :
  geometry z = Some <$> gs -> complete z /\ zones z = gs.
Proof.
  intros Hg. unfold complete, zones. rewrite Hg. split; [|apply zones_some].
  apply Forall_fmap, Forall_true. intros g. by eexists.
Qed.

(** A geometry column is complete, or has a first row without geometry. *)
Lemma first_null {A} (l : list (option A)) :
  Forall is_Some l \/ exists gs rest, l = (Some <$> gs) ++ None :: rest.
Proof.
  induction l as [|[a|] l IH].
  - by left.
  - destruct IH as [Hall|(gs & rest & ->)].
    + left. constructor; [by eexists|done].
    + right. by exists (a :: gs), rest.
  - right. by exists [], l.
Qed.


Lemma length_zones_complete (z : GeoDataFrame) : complete z -> length (zones z) = nrows z.
Proof. intros Hc. unfold nrows. by rewrite (complete_zones z Hc), length_fmap. Qed.

(** ** The loop *)

Lemma append_spec (l : Lists) (row : StatRow) :
  append l row =
  {| means := means l ++ [s_mean row]; mins := mins l ++ [s_min row];
     maxs := maxs l ++ [s_max row]; counts := counts l ++ [s_count row] |}.
Proof. by destruct row as [[[??]?]?]. Qed.

Lemma loop_body_some (src : Raster) (idx : nat) (g : Geometry) (l : Lists) :
  loop_body src (r_nodata src) idx (Some g) l =
  (zone_events src idx g, inr (append l (zone_stats src g))).
Proof.
  unfold loop_body, mapping, zone_events, zone_stats.
  rewrite bind_ret, bind_log.
  destruct (try_zone src (r_nodata src) g); [|done].
  by rewrite bind_log.
Qed.

Lemma loop_body_none (src : Raster) nodata (idx : nat) (l : Lists) :
  loop_body src nodata idx None l = raise no_geo_interface.
Proof. done. Qed.

Lemma iterrows_spec (src : Raster) (rows : list Geometry) :
  forall (idx : nat) (l : Lists),
    iterrows src (r_nodata src) idx (Some <$> rows) l =
    (concat (imap (fun i g => zone_events src (idx + i) g) rows),
     inr {| means := means l ++ (s_mean <$> (zone_stats src <$> rows));
            mins := mins l ++ (s_min <$> (zone_stats src <$> rows));
            maxs := maxs l ++ (s_max <$> (zone_stats src <$> rows));
            counts := counts l ++ (s_count <$> (zone_stats src <$> rows)) |}).
Proof.
  induction rows as [|g rows IH]; intros idx l.
  - cbn. rewrite !app_nil_r. by destruct l.
  - rewrite fmap_cons. cbn [iterrows].
    rewrite loop_body_some, bind_pure, IH, append_spec.
    cbn [means mins maxs counts trace outcome fst snd].
    rewrite !fmap_cons, imap_cons, concat_cons, Nat.add_0_r, <- !app_assoc.
    replace (imap (fun i g0 => zone_events src (S idx + i) g0) rows)
      with (imap ((fun i g0 => zone_events src (idx + i) g0) ∘ S) rows); [done|].
    apply imap_ext. intros i x _. simpl. f_equal. lia.
Qed.

(** The loop stops at the first row without geometry: the zones before it
    have been processed, and their values are dropped with the lists. *)
Lemma iterrows_null (src : Raster) (gs : list Geometry) (rest : list (option Geometry)) :
  forall (idx : nat) (l : Lists),
    iterrows src (r_nodata src) idx ((Some <$> gs) ++ None :: rest) l =
    (concat (imap (fun i g => zone_events src (idx + i) g) gs), inl no_geo_interface).
Proof.
  induction gs as [|g gs IH]; intros idx l.
  - done.
  - rewrite fmap_cons. cbn [app iterrows].
    rewrite loop_body_some, bind_pure, IH.
    cbn [trace outcome fst snd].
    rewrite imap_cons, concat_cons, Nat.add_0_r.
    replace (imap (fun i g0 => zone_events src (S idx + i) g0) gs)
      with (imap ((fun i g0 => zone_events src (idx + i) g0) ∘ S) gs); [done|].
    apply imap_ext. intros i x _. simpl. f_equal. lia.
Qed.

Lemma path_exists_true (fs : gmap string file) p f :
  fs !! p = Some f -> path_exists fs p = true.
Proof. intros Hp. unfold path_exists. apply bool_decide_eq_true. eauto. Qed.

Lemma path_exists_false (fs : gmap string file) p :
  fs !! p = None -> path_exists fs p = false.
Proof.
  intros Hp. unfold path_exists. apply bool_decide_eq_false.
  rewrite Hp. by intros [? ?].
Qed.

Lemma setitem_ok name vals (gdf : GeoDataFrame) :
  length vals = nrows gdf ->
  setitem name vals gdf =
  mret {| crs := crs gdf; geometry := geometry gdf;
          columns := <[name := vals]> (columns gdf) |}.
Proof. intros Hl. unfold setitem. by rewrite decide_True. Qed.

Lemma to_crs_default (dst : CRS) (z : GeoDataFrame) :
  to_crs (Some dst) (match crs z with None => set_crs "EPSG:4326" z | Some _ => z end) =
  mret {| crs := Some dst;
          geometry := fmap (M := option) (transform (source_crs z) dst) <$> geometry z;
          columns := columns z |}.
Proof. unfold to_crs, source_crs. by destruct (crs z) eqn:E; simpl; rewrite ?E. Qed.

Lemma to_crs_none (z : GeoDataFrame) :
  to_crs None (match crs z with None => set_crs "EPSG:4326" z | Some _ => z end) =
  raise (ValueError "Must pass either crs or epsg.").
Proof. unfold to_crs. by destruct (crs z) eqn:E; simpl; rewrite ?E. Qed.

Lemma run_loop_spec (src : Raster) (gdf : GeoDataFrame) (gs : list Geometry) :
  geometry gdf = Some <$> gs ->
  run_loop src (r_nodata src) gdf =
  (concat (imap (zone_events src) gs),
   inr {| means := s_mean <$> (zone_stats src <$> gs);
          mins := s_min <$> (zone_stats src <$> gs);
          maxs := s_max <$> (zone_stats src <$> gs);
          counts := s_count <$> (zone_stats src <$> gs) |}).
Proof. intros Hg. unfold run_loop. by rewrite Hg, iterrows_spec. Qed.

Lemma run_loop_null (src : Raster) (gdf : GeoDataFrame) (gs : list Geometry) rest :
  geometry gdf = (Some <$> gs) ++ None :: rest ->
  run_loop src (r_nodata src) gdf =
  (concat (imap (zone_events src) gs), inl no_geo_interface).
Proof. intros Hg. unfold run_loop. by rewrite Hg, iterrows_null. Qed.

Lemma id_step (gdf : GeoDataFrame) :
  (if decide (is_Some (columns gdf !! "id")) then mret gdf
   else setitem "id" (index_astype_str gdf) gdf) =
  mret {| crs := crs gdf; geometry := geometry gdf;
          columns := if decide (is_Some (columns gdf !! "id")) then columns gdf
                     else <["id" := index_astype_str gdf]> (columns gdf) |}.
Proof.
  destruct (decide (is_Some (columns gdf !! "id"))); [by destruct gdf|].
  apply setitem_ok. unfold index_astype_str. by rewrite length_fmap, length_seq.
Qed.

Lemma fmap_transform_some (f : Geometry -> Geometry) (gs : list Geometry) :
  fmap (M := option) f <$> (Some <$> gs) = Some <$> (f <$> gs).
Proof. by rewrite <- !list_fmap_compose. Qed.

Lemma fmap_transform_null (f : Geometry -> Geometry) (gs : list Geometry) rest :
  fmap (M := option) f <$> ((Some <$> gs) ++ None :: rest) =
  (Some <$> (f <$> gs)) ++ None :: (fmap (M := option) f <$> rest).
Proof. by rewrite fmap_app, fmap_cons, fmap_transform_some. Qed.

(** The run on a raster with a reference system and a zone set with rows,
    all of them with a geometry. *)
Lemma compute_returns (fs : gmap string file) rp vp src c z :
  fs !! rp = Some (RasterFile src) ->
  fs !! vp = Some (VectorFile z) ->
  nrows z <> 0%nat ->
  r_crs src = Some c ->
  complete z ->
  compute_zonal_mean fs rp vp = (result_trace rp vp src c z, inr (result_table src c z)).
Proof.
  intros Hr Hv Hne Hc Hall. unfold compute_zonal_mean.
  rewrite (path_exists_true _ _ _ Hr), (path_exists_true _ _ _ Hv). cbn [negb].
  unfold rasterio_open, read_file. rewrite Hr, Hv.
  rewrite bind_log, bind_ret, bind_log, bind_ret.
  unfold empty. rewrite bool_decide_eq_false_2 by done.
  rewrite Hc, to_crs_default, bind_ret, bind_log, bind_ret.
  rewrite (run_loop_spec src _ (reprojected c z))
    by (cbn [geometry]; unfold reprojected;
        by rewrite (complete_zones z Hall) at 1; rewrite fmap_transform_some).
  rewrite bind_pure.
  cbn [means mins maxs counts].
  assert (length (reprojected c z) = nrows z) as Hlen
    by (unfold reprojected; by rewrite length_fmap, length_zones_complete).
  rewrite id_step, bind_ret.
  rewrite setitem_ok, bind_ret by (unfold nrows; cbn [geometry]; by rewrite !length_fmap).
  rewrite setitem_ok, bind_ret by (unfold nrows; cbn [geometry]; by rewrite !length_fmap).
  rewrite setitem_ok, bind_ret by (unfold nrows; cbn [geometry]; by rewrite !length_fmap).
  rewrite setitem_ok by (unfold nrows; cbn [geometry]; by rewrite !length_fmap).
  cbn [geometry columns crs trace outcome fst snd mret M_ret default].
  unfold result_trace, result_table, id_columns, nrows.
  unfold index_astype_str, nrows. cbn [geometry].
  rewrite length_fmap, app_nil_r. reflexivity.
Qed.

(** ** Clipping *)

Lemma nodata_to_nan_valid (nodata : option spec_float) (x : spec_float) :
  np.isfinite (nodata_to_nan nodata x) <-> valid32 nodata x.
Proof.
  unfold nodata_to_nan, valid32. destruct nodata as [nd|].
  - destruct (SFeqb x (np.float32_of_float64 nd)); simpl.
    + rewrite andb_false_r. done.
    + by rewrite andb_true_r.
  - by rewrite andb_true_r.
Qed.

Lemma nodata_to_nan_fix (nodata : option spec_float) (x : spec_float) :
  valid32 nodata x -> nodata_to_nan nodata x = x.
Proof.
  unfold nodata_to_nan, valid32. destruct nodata as [nd|]; [|done].
  destruct (SFeqb x (np.float32_of_float64 nd)); [|done].
  simpl. by rewrite andb_false_r.
Qed.

(** The valid pixels of a clipped image: the single-precision images of
    its pixels that are finite and differ from the nodata value. *)
Lemma clip_valid_spec (src : Raster) (nodata : option spec_float)
    (out_img : list (list spec_float)) :
  clip_valid src nodata out_img =
  filter (fun x => valid32 nodata x) (astype_float32 (r_dtype src) <$> concat out_img).
Proof.
  unfold clip_valid, select_finite. rewrite !concat_fmap_fmap.
  apply filter_fmap_fix.
  - apply nodata_to_nan_valid.
  - apply nodata_to_nan_fix.
Qed.

Lemma covered_row_cons (m : nat -> bool) v row :
  covered_row m (v :: row) =
  if m 0%nat then covered_row (m ∘ S) row else v :: covered_row (m ∘ S) row.
Proof. unfold covered_row. rewrite imap_cons. simpl. by destruct (m 0%nat). Qed.

Lemma filter_filled_row (P : spec_float -> Prop) `{!forall x, Decision (P x)}
    (f : spec_float -> spec_float) (fill : spec_float) (row : list spec_float) :
  ~ P (f fill) ->
  forall m : nat -> bool,
    filter P (f <$> imap (fun j v => if m j then fill else v) row) =
    filter P (f <$> covered_row m row).
Proof.
  intros Hfill. induction row as [|v row IH]; intros m; [done|].
  rewrite imap_cons, covered_row_cons, fmap_cons, filter_cons.
  specialize (IH (m ∘ S)). simpl in IH.
  destruct (m 0%nat).
  - rewrite decide_False by done. apply IH.
  - rewrite fmap_cons, filter_cons. destruct (decide (P (f v))); by rewrite <- IH.
Qed.

Lemma filter_filled (P : spec_float -> Prop) `{!forall x, Decision (P x)}
    (f : spec_float -> spec_float) (fill : spec_float) (img : list (list spec_float)) :
  ~ P (f fill) ->
  forall sm : nat -> nat -> bool,
    filter P (f <$> concat (filled sm fill img)) = filter P (f <$> covered sm img).
Proof.
  intros Hfill. unfold filled, covered.
  induction img as [|row img IH]; intros sm; [done|].
  rewrite !imap_cons, !concat_cons, !fmap_app, !filter_app.
  f_equal.
  - by apply filter_filled_row.
  - apply (IH (sm ∘ S)).
Qed.

(** ** The rows of the returned table *)

Lemma stat_row_result (src : Raster) (c : CRS) (z : GeoDataFrame) (i : nat) :
  stat_row (result_table src c z) i =
  stat_values <$> ((zone_stats src <$> reprojected c z) !! i).
Proof.
  unfold stat_row, cell, result_table. cbn [columns].
  repeat (rewrite lookup_insert_eq || rewrite lookup_insert_ne by done).
  cbn [mbind option_bind]. rewrite !list_lookup_fmap.
  destruct (reprojected c z !! i) as [g|]; [|done]. simpl.
  by destruct (zone_stats src g) as [[[??]?]?].
Qed.

Lemma identifier_result (src : Raster) (c : CRS) (z : GeoDataFrame) (i : nat) :
  identifier (result_table src c z) i =
  match columns z !! "id" with
  | Some col => col !! i
  | None => if decide (i < nrows z)%nat then Some (VStr (pretty i)) else None
  end.
Proof.
  unfold identifier, cell, result_table, id_columns. cbn [columns].
  rewrite !lookup_insert_ne by done.
  destruct (columns z !! "id") as [col|] eqn:Hid.
  - rewrite decide_True by eauto. by rewrite Hid.
  - rewrite decide_False by (by intros [? ?]).
    rewrite lookup_insert_eq. cbn [mbind option_bind].
    rewrite list_lookup_fmap.
    destruct (decide (i < nrows z)%nat) as [Hi|Hi].
    + by rewrite lookup_seq_lt.
    + by rewrite lookup_seq_ge by lia.
Qed.

Lemma nrows_result (src : Raster) (c : CRS) (z : GeoDataFrame) :
  nrows (result_table src c z) = nrows z.
Proof. unfold nrows, result_table. cbn [geometry]. by rewrite length_fmap. Qed.

Lemma geometry_result (src : Raster) (c : CRS) (z : GeoDataFrame) :
  complete z -> geometry (result_table src c z) = Some <$> reprojected c z.
Proof.
  intros Hall. unfold result_table, reprojected. cbn [geometry].
  by rewrite (complete_zones z Hall) at 1; rewrite fmap_transform_some.
Qed.

Lemma zones_result (src : Raster) (c : CRS) (z : GeoDataFrame) :
  complete z -> zones (result_table src c z) = reprojected c z.
Proof. intros Hall. unfold zones. by rewrite geometry_result, zones_some. Qed.

Lemma length_reprojected (c : CRS) (z : GeoDataFrame) :
  complete z -> length (reprojected c z) = nrows z.
Proof. intros Hall. unfold reprojected. by rewrite length_fmap, length_zones_complete. Qed.

(** ** The checks before the loop *)

Lemma compute_raster_missing (fs : gmap string file) rp vp :
  fs !! rp = None ->
  compute_zonal_mean fs rp vp = raise (FileNotFoundError ("Raster not found: " +:+ rp)).
Proof. intros Hr. unfold compute_zonal_mean. by rewrite (path_exists_false _ _ Hr). Qed.

Lemma compute_vector_missing (fs : gmap string file) rp vp :
  is_Some (fs !! rp) -> fs !! vp = None ->
  compute_zonal_mean fs rp vp = raise (FileNotFoundError ("Vector not found: " +:+ vp)).
Proof.
  intros [f Hr] Hv. unfold compute_zonal_mean.
  by rewrite (path_exists_true _ _ _ Hr), (path_exists_false _ _ Hv).
Qed.

Lemma compute_raster_unreadable (fs : gmap string file) rp vp :
  is_Some (fs !! rp) -> is_Some (fs !! vp) ->
  (forall src, fs !! rp <> Some (RasterFile src)) ->
  compute_zonal_mean fs rp vp =
  ([Info ("Loading raster: " +:+ rp)],
   inl (RasterioIOError
          ("'" +:+ rp +:+ "' not recognized as being in a supported file format."))).
Proof.
  intros [f Hr] [f' Hv] Hno. unfold compute_zonal_mean.
  rewrite (path_exists_true _ _ _ Hr), (path_exists_true _ _ _ Hv). cbn [negb].
  rewrite bind_log. unfold rasterio_open. rewrite Hr.
  destruct f as [src| |]; [by destruct (Hno src)| |]; done.
Qed.

Lemma compute_vector_unreadable (fs : gmap string file) rp vp src :
  fs !! rp = Some (RasterFile src) -> is_Some (fs !! vp) ->
  (forall z, fs !! vp <> Some (VectorFile z)) ->
  compute_zonal_mean fs rp vp =
  ([Info ("Loading raster: " +:+ rp); Info ("Loading polygons: " +:+ vp)],
   inl (DataSourceError (vp +:+ ": unable to read as a vector source."))).
Proof.
  intros Hr [f' Hv] Hno. unfold compute_zonal_mean.
  rewrite (path_exists_true _ _ _ Hr), (path_exists_true _ _ _ Hv). cbn [negb].
  unfold rasterio_open, read_file. rewrite Hr, Hv.
  rewrite bind_log, bind_ret, bind_log.
  destruct f' as [|z|]; [|by destruct (Hno z)|]; done.
Qed.

Lemma compute_no_features (fs : gmap string file) rp vp src z :
  fs !! rp = Some (RasterFile src) -> fs !! vp = Some (VectorFile z) ->
  nrows z = 0%nat ->
  compute_zonal_mean fs rp vp =
  ([Info ("Loading raster: " +:+ rp); Info ("Loading polygons: " +:+ vp)],
   inl (ValueError "Vector file has no features.")).
Proof.
  intros Hr Hv Hz. unfold compute_zonal_mean.
  rewrite (path_exists_true _ _ _ Hr), (path_exists_true _ _ _ Hv). cbn [negb].
  unfold rasterio_open, read_file. rewrite Hr, Hv.
  rewrite bind_log, bind_ret, bind_log, bind_ret.
  unfold empty. by rewrite bool_decide_eq_true_2.
Qed.

(** A raster without reference system: [to_crs(None)] raises at line 42,
    before the loop. *)
Lemma compute_no_crs (fs : gmap string file) rp vp src z :
  fs !! rp = Some (RasterFile src) -> fs !! vp = Some (VectorFile z) ->
  nrows z <> 0%nat -> r_crs src = None ->
  compute_zonal_mean fs rp vp =
  ([Info ("Loading raster: " +:+ rp); Info ("Loading polygons: " +:+ vp)],
   inl (ValueError "Must pass either crs or epsg.")).
Proof.
  intros Hr Hv Hz Hc. unfold compute_zonal_mean.
  rewrite (path_exists_true _ _ _ Hr), (path_exists_true _ _ _ Hv). cbn [negb].
  unfold rasterio_open, read_file. rewrite Hr, Hv.
  rewrite bind_log, bind_ret, bind_log, bind_ret.
  unfold empty. rewrite bool_decide_eq_false_2 by done.
  by rewrite Hc, to_crs_none.
Qed.

(** A row without geometry: [mapping] raises at line 49, outside the
    [try], when the loop reaches the first such row; the zones before it
    have been clipped. *)
Lemma compute_null_geometry (fs : gmap string file) rp vp src c z gs rest :
  fs !! rp = Some (RasterFile src) -> fs !! vp = Some (VectorFile z) ->
  r_crs src = Some c ->
  geometry z = (Some <$> gs) ++ None :: rest ->
  compute_zonal_mean fs rp vp =
  ([Info ("Loading raster: " +:+ rp); Info ("Loading polygons: " +:+ vp);
    Info ("Reprojected vector to raster CRS: " +:+ c)]
   ++ concat (imap (zone_events src) (transform (source_crs z) c <$> gs)),
   inl no_geo_interface).
Proof.
  intros Hr Hv Hc Hg. unfold compute_zonal_mean.
  rewrite (path_exists_true _ _ _ Hr), (path_exists_true _ _ _ Hv). cbn [negb].
  unfold rasterio_open, read_file. rewrite Hr, Hv.
  rewrite bind_log, bind_ret, bind_log, bind_ret.
  unfold empty. rewrite bool_decide_eq_false_2
    by (unfold nrows; rewrite Hg, length_app; cbn; lia).
  rewrite Hc, to_crs_default, bind_ret, bind_log, bind_ret.
  rewrite (run_loop_null src _ (transform (source_crs z) c <$> gs)
             (fmap (M := option) (transform (source_crs z) c) <$> rest))
    by (cbn [geometry]; by rewrite Hg, fmap_transform_null).
  rewrite bind_fail. reflexivity.
Qed.

(** A run that returns went through every check and through the loop. *)
Lemma compute_inv (fs : gmap string file) rp vp t out :
  compute_zonal_mean fs rp vp = (t, inr out) ->
  exists src c z,
    fs !! rp = Some (RasterFile src) /\ fs !! vp = Some (VectorFile z) /\
    nrows z <> 0%nat /\ r_crs src = Some c /\ complete z /\
    t = result_trace rp vp src c z /\ out = result_table src c z.
Proof.
  intros Hrun.
  destruct (fs !! rp) as [fr|] eqn:Hr;
    [|by rewrite (compute_raster_missing _ _ _ Hr) in Hrun].
  destruct (fs !! vp) as [fv|] eqn:Hv;
    [|by rewrite compute_vector_missing in Hrun by (by rewrite ?Hr)].
  destruct fr as [src| |];
    try (rewrite compute_raster_unreadable in Hrun by (by rewrite ?Hr, ?Hv); done).
  destruct fv as [|z|];
    try (rewrite (compute_vector_unreadable _ _ _ src) in Hrun by (by rewrite ?Hr, ?Hv); done).
  destruct (decide (nrows z = 0%nat)) as [Hz|Hz];
    [by rewrite (compute_no_features _ _ _ src z) in Hrun|].
  destruct (r_crs src) as [c|] eqn:Hc;
    [|by rewrite (compute_no_crs _ _ _ src z) in Hrun].
  destruct (first_null (geometry z)) as [Hall|(gs & rest & Hg)];
    [|by rewrite (compute_null_geometry _ _ _ src c z gs rest) in Hrun].
  rewrite (compute_returns _ _ _ src c z) in Hrun by done.
  exists src, c, z. by simplify_eq.
Qed.

(** ** One zone *)

Lemma try_zone_mask_fails (src : Raster) (g : Geometry) (e : exn) :
  mask src g = inl e -> try_zone src (r_nodata src) g = inl e.
Proof. intros Hm. unfold try_zone. by rewrite Hm. Qed.

Lemma try_zone_mask_ok (src : Raster) (g : Geometry) img :
  mask src g = inr img ->
  try_zone src (r_nodata src) g = inr (stats_of (clip_valid src (r_nodata src) img)).
Proof. intros Hm. unfold try_zone. by rewrite Hm. Qed.

Lemma zone_stats_mask_fails (src : Raster) (g : Geometry) (e : exn) :
  mask src g = inl e -> zone_stats src g = zero_coverage.
Proof. intros Hm. unfold zone_stats. by rewrite (try_zone_mask_fails _ _ _ Hm). Qed.

Lemma zone_stats_mask_ok (src : Raster) (g : Geometry) img :
  mask src g = inr img ->
  zone_stats src g = stats_of (clip_valid src (r_nodata src) img).
Proof. intros Hm. unfold zone_stats. by rewrite (try_zone_mask_ok _ _ _ Hm). Qed.


(** ** Events *)

(** Zones whose clip succeeds leave no warning. *)
Lemma warnings_all_ok (src : Raster) (gs : list Geometry) :
  forall off : nat,
    (forall j g, gs !! j = Some g -> exists img, mask src g = inr img) ->
    filter (fun ev => is_warning ev)
      (concat (imap (fun k g => zone_events src (off + k) g) gs)) = [].
Proof.
  induction gs as [|g gs IH]; intros off Hok; [done|].
  rewrite imap_cons, concat_cons, filter_app.
  destruct (Hok 0%nat g eq_refl) as [img Himg].
  unfold zone_events at 1. rewrite (try_zone_mask_ok _ _ _ Himg). simpl.
  rewrite (imap_ext _ (fun k g => zone_events src (S off + k) g))
    by (intros; simpl; f_equal; lia).
  apply IH. intros j g' Hj. apply (Hok (S j) g' Hj).
Qed.

Lemma warnings_one_failure (src : Raster) (gs : list Geometry) i gi e :
  gs !! i = Some gi -> mask src gi = inl e ->
  (forall j gj, j <> i -> gs !! j = Some gj -> exists img, mask src gj = inr img) ->
  filter (fun ev => is_warning ev) (concat (imap (zone_events src) gs)) =
  [Warning ("Polygon " +:+ pretty i +:+ " failed: " +:+ str_exn e)].
Proof.
  intros Hi Hfail Hok.
  pose proof (take_drop_middle gs i gi Hi) as Hsplit.
  assert (length (take i gs) = i) as Hlen.
  { apply length_take_le. apply lookup_lt_Some in Hi. lia. }
  rewrite <- Hsplit, imap_app, concat_app, filter_app, imap_cons, concat_cons, filter_app.
  rewrite Hlen.
  assert (filter (fun ev => is_warning ev)
            (concat (imap (zone_events src) (take i gs))) = []) as ->.
  { apply (warnings_all_ok src (take i gs) 0%nat).
    intros j g Hj. apply lookup_take_Some in Hj as [Hj Hlt].
    apply (Hok j g); [lia|done]. }
  unfold zone_events at 1. rewrite (try_zone_mask_fails _ _ _ Hfail).
  rewrite Nat.add_0_r. simpl.
  rewrite (imap_ext _ (fun k g => zone_events src (S i + k) g))
    by (intros; simpl; f_equal; lia).
  rewrite (warnings_all_ok src (drop (S i) gs) (S i)); [done|].
  intros j g Hj. rewrite lookup_drop in Hj. apply (Hok (S i + j)%nat g); [lia|done].
Qed.

(** Every zone is clipped once, in order. *)
Lemma clips_of_events (src : Raster) (gs : list Geometry) :
  forall off : nat,
    filter (fun ev => is_clip ev)
      (concat (imap (fun k g => zone_events src (off + k) g) gs)) =
    Clip <$> seq off (length gs).
Proof.
  induction gs as [|g gs IH]; intros off; [done|].
  rewrite imap_cons, concat_cons, filter_app.
  rewrite (imap_ext _ (fun k g => zone_events src (S off + k) g))
    by (intros; simpl; f_equal; lia).
  rewrite IH, Nat.add_0_r. unfold zone_events.
  by destruct (try_zone src (r_nodata src) g).
Qed.

(** ** The zone set reduced to one row *)

Lemma geometry_single (z : GeoDataFrame) (j : nat) (g : option Geometry) :
  geometry z !! j = Some g -> geometry (single z j) = [g].
Proof.
  intros Hg. unfold single. cbn [geometry].
  rewrite <- (take_drop_middle _ _ _ Hg) at 1.
  rewrite drop_app_length'; [done|].
  symmetry. apply length_take_le. apply lookup_lt_Some in Hg. lia.
Qed.

Lemma reprojected_single (c : CRS) (z : GeoDataFrame) (j : nat) g :
  complete z -> reprojected c z !! j = Some g ->
  reprojected c (single z j) = [g] /\ complete (single z j).
Proof.
  intros Hall. unfold reprojected. rewrite list_lookup_fmap. intros Hj.
  destruct (zones z !! j) as [g0|] eqn:Hg; [|done]. simpl in Hj. simplify_eq.
  assert (geometry z !! j = Some (Some g0)) as Hrow
    by (by rewrite (complete_zones z Hall), list_lookup_fmap, Hg).
  pose proof (geometry_single z j _ Hrow) as Hsingle.
  unfold complete, zones. rewrite Hsingle. split; [done|].
  constructor; [by eexists|constructor].
Qed.


(** ** Valid pixels and their statistics *)

Lemma valid32_isfinite nodata x : valid32 nodata x -> np.isfinite x = true.
Proof. unfold valid32. intros Hv. apply andb_prop_elim in Hv as [Hf _]. by apply Is_true_eq_true. Qed.

Lemma clip_valid_finite (src : Raster) nodata img :
  Forall (fun v => np.isfinite v = true) (clip_valid src nodata img).
Proof.
  rewrite clip_valid_spec. apply Forall_forall. intros x Hx.
  apply list_elem_of_filter in Hx as [Hv _]. by apply (valid32_isfinite nodata).
Qed.

Lemma stats_of_count (valid : list spec_float) :
  s_count (stats_of valid) = Z.of_nat (length valid).
Proof.
  unfold stats_of. destruct (decide (length valid = 0%nat)) as [->|]; done.
Qed.

Lemma stats_of_nonempty (valid : list spec_float) :
  valid <> [] ->
  stats_of valid =
  (np.float64_of_float32 (np.mean valid), np.float64_of_float32 (np.min valid),
   np.float64_of_float32 (np.max valid), Z.of_nat (length valid)).
Proof.
  intros Hne. unfold stats_of. rewrite decide_False; [done|].
  by destruct valid.
Qed.

Lemma stats_of_consistent (valid : list spec_float) :
  Forall (fun v => np.isfinite v = true) valid ->
  0 <= s_count (stats_of valid) /\
  (s_count (stats_of valid) = 0 <->
   np.isnan (s_mean (stats_of valid)) = true /\
   np.isnan (s_min (stats_of valid)) = true /\
   np.isnan (s_max (stats_of valid)) = true).
Proof.
  intros Hfin. rewrite stats_of_count. split; [lia|].
  destruct valid as [|x l]; [done|].
  rewrite stats_of_nonempty by done.
  unfold s_mean, s_min, s_max. cbn [fst snd].
  split; [done|]. intros (_ & Hmin & _).
  rewrite float64_of_float32_isnan in Hmin.
  destruct (np_min_spec (x :: l)) as [Hin _]; [done|done|].
  rewrite Forall_forall in Hfin. specialize (Hfin _ Hin).
  apply isfinite_not_nan in Hfin. congruence.
Qed.

Lemma zone_stats_cases (src : Raster) (g : Geometry) :
  (exists e, mask src g = inl e /\ zone_stats src g = zero_coverage) \/
  (exists img, mask src g = inr img /\
               zone_stats src g = stats_of (clip_valid src (r_nodata src) img)).
Proof.
  destruct (mask src g) as [e|img] eqn:Hm.
  - left. exists e. split; [done|]. by apply (zone_stats_mask_fails _ _ e).
  - right. exists img. split; [done|]. by apply zone_stats_mask_ok.
Qed.

Lemma zone_stats_consistent (src : Raster) (g : Geometry) :
  0 <= s_count (zone_stats src g) /\
  (s_count (zone_stats src g) = 0 <->
   np.isnan (s_mean (zone_stats src g)) = true /\
   np.isnan (s_min (zone_stats src g)) = true /\
   np.isnan (s_max (zone_stats src g)) = true).
Proof.
  destruct (zone_stats_cases src g) as [(e & _ & ->)|(img & _ & ->)]; [done|].
  apply stats_of_consistent, clip_valid_finite.
Qed.

(** The statistics in a row of a returned table are those of its zone. *)
Lemma returned_row (fs : gmap string file) rp vp t out i row :
  compute_zonal_mean fs rp vp = (t, inr out) ->
  stat_row out i = Some row ->
  exists src g,
    fs !! rp = Some (RasterFile src) /\ geometry out !! i = Some (Some g) /\
    row = stat_values (zone_stats src g).
Proof.
  intros Hrun Hrow.
  apply compute_inv in Hrun as (src & c & z & Hr & Hv & Hne & Hc & Hall & -> & ->).
  rewrite stat_row_result, list_lookup_fmap in Hrow.
  destruct (reprojected c z !! i) as [g|] eqn:Hg; [|done].
  exists src, g. simpl in Hrow. rewrite geometry_result, list_lookup_fmap, Hg by done.
  by simplify_eq.
Qed.

(** The four fields of a returned row are absent together. *)
Lemma aggregate_row_consistent (fs : gmap string file) rp vp t out i row :
  compute_zonal_mean fs rp vp = (t, inr out) ->
  stat_row out i = Some row ->
  exists mean mn mx count,
    row = (VFloat mean, VFloat mn, VFloat mx, VInt count) /\
    0 <= count /\
    (count = 0 <->
     np.isnan mean = true /\ np.isnan mn = true /\ np.isnan mx = true).
Proof.
  intros Hrun Hrow.
  destruct (returned_row _ _ _ _ _ _ _ Hrun Hrow) as (src & g & _ & _ & ->).
  pose proof (zone_stats_consistent src g) as Hc.
  destruct (zone_stats src g) as [[[mean mn] mx] count].
  by exists mean, mn, mx, count.
Qed.

(** Minimum and maximum of the valid pixels bound them. *)
Lemma stats_of_bounds (valid : list spec_float) :
  Forall (fun v => np.isfinite v = true) valid ->
  0 < s_count (stats_of valid) ->
  exists lo hi,
    lo ∈ valid /\ hi ∈ valid /\
    s_min (stats_of valid) = np.float64_of_float32 lo /\
    s_max (stats_of valid) = np.float64_of_float32 hi /\
    s_mean (stats_of valid) = np.float64_of_float32 (np.mean valid) /\
    SFleb lo hi = true /\
    Forall (fun v => SFleb lo v = true /\ SFleb v hi = true) valid.
Proof.
  intros Hfin Hpos. rewrite stats_of_count in Hpos.
  assert (valid <> []) as Hne by (intros ->; simpl in Hpos; lia).
  destruct (np_min_spec valid Hne Hfin) as [Hmin_in Hmin].
  destruct (np_max_spec valid Hne Hfin) as [Hmax_in Hmax].
  exists (np.min valid), (np.max valid).
  rewrite stats_of_nonempty by done.
  repeat split; try done.
  - rewrite Forall_forall in Hmin. by apply Hmin.
  - rewrite Forall_forall in Hmin, Hmax. apply Forall_forall. intros v Hv. auto.
Qed.

Lemma clip_valid_length (src : Raster) nodata img :
  (length (clip_valid src nodata img) <= length (concat img))%nat.
Proof.
  rewrite clip_valid_spec.
  etrans; [apply length_filter|]. by rewrite length_fmap.
Qed.

(** ** Nodata and the fill value *)

Lemma invalid_fill (t : dtype) (nd : spec_float) :
  ~ valid32 (Some nd) (astype_float32 t (cast t nd)).
Proof.
  assert (astype_float32 t (cast t nd) = np.float32_of_float64 nd) as -> by (by destruct t).
  unfold valid32. intros Hv. apply andb_prop_elim in Hv as [Hf Hne].
  apply Is_true_eq_true in Hf.
  by rewrite (SFeqb_refl _ (isfinite_not_nan _ Hf)) in Hne.
Qed.

Lemma equals_nodata_invalid (src : Raster) (nd p : spec_float) :
  r_nodata src = Some nd -> equals_nodata src p = true ->
  ~ valid32 (Some nd) (astype_float32 (r_dtype src) p).
Proof.
  unfold equals_nodata, valid32. intros -> Heq Hv.
  apply andb_prop_elim in Hv as [Hf Hne]. apply Is_true_eq_true in Hf.
  destruct (r_dtype src); simpl in *.
  - by rewrite Heq in Hne.
  - destruct (SFeqb_narrow _ _ Heq) as [Hn|Hn]; [by rewrite Hn in Hne|congruence].
Qed.

Lemma mask_ok (src : Raster) (g : Geometry) w sm :
  raster_geometry_mask src g = inr (w, sm) ->
  mask src g = inr (filled sm (fill_value src) (read_window src w)).
Proof. intros Hm. unfold mask. by rewrite Hm. Qed.

(** With a declared nodata value only the covered pixels can be valid. *)
Lemma nodata_exclusion (src : Raster) (nd : spec_float) (g : Geometry) w sm :
  r_nodata src = Some nd ->
  raster_geometry_mask src g = inr (w, sm) ->
  let pixels := covered sm (read_window src w) in
  let valid := filter (fun x => valid32 (Some nd) x)
                      (astype_float32 (r_dtype src) <$> pixels) in
  zone_stats src g = stats_of valid /\
  s_count (zone_stats src g) = Z.of_nat (length valid) /\
  (Forall (fun p => equals_nodata src p = true) pixels ->
   zone_stats src g = zero_coverage).
Proof.
  intros Hnd Hm pixels valid.
  assert (zone_stats src g = stats_of valid) as Hstats.
  { rewrite (zone_stats_mask_ok _ _ _ (mask_ok _ _ _ _ Hm)), clip_valid_spec, Hnd.
    unfold fill_value. rewrite Hnd.
    by rewrite (filter_filled _ _ _ _ (invalid_fill (r_dtype src) nd)). }
  split; [done|]. split; [by rewrite Hstats, stats_of_count|].
  intros Hall. rewrite Hstats.
  assert (valid = []) as ->; [|done].
  subst valid. clear Hstats. induction Hall as [|p ps Hp _ IH]; [done|].
  rewrite fmap_cons, filter_cons_False; [exact IH|].
  by apply equals_nodata_invalid.
Qed.

Lemma valid32_native (src : Raster) (x : spec_float) :
  r_dtype src = float32 -> (valid32 (r_nodata src) x <-> native_valid src x).
Proof.
  intros Ht. unfold valid32, native_valid, equals_nodata. rewrite Ht.
  destruct (r_nodata src); simpl; [done|]. by rewrite andb_true_r.
Qed.


(** * The claims *)

(** The rows of a run on complete inputs: when the raster has a reference
    system and every one of the N >= 1 features has a geometry, the
    aggregation returns a table of exactly N rows, the geometries in the
    order of the input, every position below N with the statistics of its
    own zone, whether computed, zero-coverage or recovered from a refused
    clip, and no position from N on with any. *)
Lemma returned_cardinality (fs : gmap string file) rp vp src c z :
  fs !! rp = Some (RasterFile src) ->
  fs !! vp = Some (VectorFile z) ->
  nrows z <> 0%nat ->
  r_crs src = Some c ->
  complete z ->
  exists t out,
    compute_zonal_mean fs rp vp = (t, inr out) /\
    nrows out = nrows z /\
    geometry out = fmap (M := option) (transform (source_crs z) c) <$> geometry z /\
    (forall i, (i < nrows z)%nat ->
       exists g, geometry out !! i = Some (Some g) /\
                 stat_row out i = Some (stat_values (zone_stats src g))) /\
    (forall i, (nrows z <= i)%nat -> stat_row out i = None).
Proof.
  intros Hr Hv Hne Hc Hall. exists (result_trace rp vp src c z), (result_table src c z).
  split; [by apply compute_returns|].
  split; [apply nrows_result|]. split; [done|]. split.
  - intros i Hi.
    destruct (lookup_lt_is_Some_2 (reprojected c z) i) as [g Hg].
    { by rewrite length_reprojected. }
    exists g. rewrite geometry_result, !list_lookup_fmap, Hg by done. split; [done|].
    by rewrite stat_row_result, list_lookup_fmap, Hg.
  - intros i Hi. rewrite stat_row_result, list_lookup_fmap.
    rewrite (lookup_ge_None_2 (reprojected c z) i); [done|].
    by rewrite length_reprojected.
Qed.


(** Refused clips are isolated: when the raster has a reference system,
    every feature has a geometry and the clip of exactly one zone, at
    position i, is refused, the aggregation returns all N rows; row i is
    the zero-coverage row, one warning naming position i and the error is
    logged and no other, and every other row equals the row obtained by
    aggregating that zone alone. *)
Lemma clip_failure_isolated (fs : gmap string file) rp vp src c z i gi e :
  fs !! rp = Some (RasterFile src) ->
  fs !! vp = Some (VectorFile z) ->
  r_crs src = Some c ->
  complete z ->
  reprojected c z !! i = Some gi ->
  mask src gi = inl e ->
  (forall j gj, j <> i -> reprojected c z !! j = Some gj ->
                exists img, mask src gj = inr img) ->
  exists t out,
    compute_zonal_mean fs rp vp = (t, inr out) /\
    nrows out = nrows z /\
    stat_row out i = Some (stat_values zero_coverage) /\
    filter (fun ev => is_warning ev) t =
      [Warning ("Polygon " +:+ pretty i +:+ " failed: " +:+ str_exn e)] /\
    (forall j, j <> i -> (j < nrows z)%nat ->
       exists tj outj,
         compute_zonal_mean (<[vp := VectorFile (single z j)]> fs) rp vp = (tj, inr outj) /\
         nrows outj = 1%nat /\
         stat_row out j = stat_row outj 0).
Proof.
  intros Hr Hv Hc Hall Hi Hfail Hok.
  assert (nrows z <> 0%nat) as Hne.
  { apply lookup_lt_Some in Hi. rewrite length_reprojected in Hi by done. lia. }
  assert (rp <> vp) as Hpaths by (intros ->; congruence).
  exists (result_trace rp vp src c z), (result_table src c z).
  split; [by apply compute_returns|].
  split; [apply nrows_result|]. split; [|split].
  - rewrite stat_row_result, list_lookup_fmap, Hi. simpl.
    by rewrite (zone_stats_mask_fails _ _ _ Hfail).
  - unfold result_trace. rewrite filter_app.
    by rewrite (warnings_one_failure src _ i gi e).
  - intros j Hj Hlt.
    destruct (lookup_lt_is_Some_2 (reprojected c z) j) as [gj Hgj].
    { by rewrite length_reprojected. }
    destruct (reprojected_single c z j gj Hall Hgj) as [Hsingle Hcomplete].
    exists (result_trace rp vp src c (single z j)), (result_table src c (single z j)).
    assert (nrows (single z j) = 1%nat) as Hone.
    { rewrite <- (length_reprojected c) by done. by rewrite Hsingle. }
    split; [|split].
    + apply compute_returns; [by rewrite lookup_insert_ne|by rewrite lookup_insert_eq|lia|done|done].
    + by rewrite nrows_result.
    + rewrite !stat_row_result, Hsingle.
      by rewrite list_lookup_fmap, Hgj.
Qed.

(** C4, amended — Nodata exclusion. On a raster that declares a nodata
    value, a zone whose covered pixels all equal it gets the row
    (NaN, NaN, NaN, 0); otherwise mean, min and max are taken over exactly
    the covered pixels that are valid, and count is their number, where a
    pixel is valid when its single-precision image is finite and differs
    from the single-precision image of the nodata value; on a raster of
    single-precision samples these are the covered pixels that are finite
    and differ from the nodata value. On the 4x4 raster of the
    specification zone A gets (NaN, NaN, NaN, 0) and zone B gets
    (1.0, 1.0, 1.0, 12). *)
Theorem nodata_excluded :
  (forall (src : Raster) (nd : spec_float) (g : Geometry) w sm,
      r_nodata src = Some nd ->
      raster_geometry_mask src g = inr (w, sm) ->
      let pixels := covered sm (read_window src w) in
      let valid := filter (fun x => valid32 (Some nd) x)
                          (astype_float32 (r_dtype src) <$> pixels) in
      (Forall (fun p => equals_nodata src p = true) pixels ->
       zone_stats src g = zero_coverage) /\
      zone_stats src g = stats_of valid /\
      (valid <> [] ->
       zone_stats src g =
       (np.float64_of_float32 (np.mean valid), np.float64_of_float32 (np.min valid),
        np.float64_of_float32 (np.max valid), Z.of_nat (length valid))) /\
      (r_dtype src = float32 ->
       valid = filter (fun p => native_valid src p) pixels)) /\
  Ex.row Ex.fs44 0 = Some (stat_values zero_coverage) /\
  Ex.row Ex.fs44 1 =
    Some (VFloat (Ex.f64 1 1), VFloat (Ex.f64 1 1), VFloat (Ex.f64 1 1), VInt 12).
Proof.
  split.
  - intros src nd g w sm Hnd Hm pixels valid.
    destruct (nodata_exclusion src nd g w sm Hnd Hm) as (Hstats & _ & Hall).
    split; [exact Hall|]. split; [exact Hstats|]. split.
    + intros Hne. fold pixels valid in Hstats. rewrite Hstats. by apply stats_of_nonempty.
    + intros Ht. subst valid. rewrite Ht. cbn [astype_float32]. rewrite list_fmap_id.
      apply list_filter_iff. intros x. rewrite <- Hnd. by apply valid32_native.
  - split; vm_compute; reflexivity.
Qed.

(** C6, amended — Identifiers. Every returned table has the identifier
    column; when the zone set has none, the identifiers are the
    stringified zero-based row positions, in order; when the zone set
    brings its own identifier column, that column is returned as it is. *)
Theorem aggregate_identifier (fs : gmap string file) rp vp t out :
  compute_zonal_mean fs rp vp = (t, inr out) ->
  exists z,
    fs !! vp = Some (VectorFile z) /\
    nrows out = nrows z /\
    is_Some (columns out !! "id") /\
    (columns z !! "id" = None ->
     forall i, (i < nrows z)%nat -> identifier out i = Some (VStr (pretty i))) /\
    (forall col, columns z !! "id" = Some col ->
     columns out !! "id" = Some col).
Proof.
  intros Hrun.
  apply compute_inv in Hrun as (src & c & z & Hr & Hv & Hne & Hc & Hall & -> & ->).
  exists z. split; [done|]. split; [apply nrows_result|].
  assert (columns (result_table src c z) !! "id" = id_columns z !! "id") as Hid.
  { unfold result_table. cbn [columns]. by rewrite !lookup_insert_ne. }
  split; [|split].
  - rewrite Hid. unfold id_columns.
    destruct (decide (is_Some (columns z !! "id"))); [done|].
    by rewrite lookup_insert_eq.
  - intros Hnone i Hi. rewrite identifier_result, Hnone. by rewrite decide_True.
  - intros col Hcol. rewrite Hid. unfold id_columns.
    by rewrite decide_True by eauto.
Qed.


(** C7 — Reprojection. On a raster that declares a reference system and
    a zone set with features that all have a geometry, the aggregation
    returns. The returned table is in the raster's reference
    system and its geometries are the input geometries transformed from
    the zone set's reference system, taken to be EPSG:4326 when the zone
    set declares none; the statistics of a row are those of the
    transformed geometry on the raster as it was read; and the trace
    shows the reprojection before the events of any zone. *)
Theorem aggregate_reprojection (fs : gmap string file) rp vp src c z :
  fs !! rp = Some (RasterFile src) ->
  fs !! vp = Some (VectorFile z) ->
  nrows z <> 0%nat ->
  r_crs src = Some c ->
  complete z ->
  exists t out,
    compute_zonal_mean fs rp vp = (t, inr out) /\
    crs out = r_crs src /\
    geometry out = fmap (M := option) (transform (source_crs z) c) <$> geometry z /\
    source_crs z = match crs z with Some c => c | None => "EPSG:4326" end /\
    (forall i g, geometry out !! i = Some (Some g) ->
                 stat_row out i = Some (stat_values (zone_stats src g))) /\
    exists zone_trace,
      t = [Info ("Loading raster: " +:+ rp); Info ("Loading polygons: " +:+ vp);
           Info ("Reprojected vector to raster CRS: " +:+ c)] ++ zone_trace /\
      zone_trace = concat (imap (zone_events src) (zones out)).
Proof.
  intros Hr Hv Hne Hc Hall. exists (result_trace rp vp src c z), (result_table src c z).
  split; [by apply compute_returns|].
  split; [by rewrite Hc|]. split; [reflexivity|].
  split; [unfold source_crs; by destruct (crs z)|]. split.
  - intros i g Hg. rewrite stat_row_result, list_lookup_fmap.
    rewrite geometry_result, list_lookup_fmap in Hg by done.
    destruct (reprojected c z !! i) as [g'|]; [|done]. simpl in Hg. by simplify_eq.
  - eexists. split; [reflexivity|]. by rewrite zones_result.
Qed.

(** C9, amended — Precision. The statistics of a zone are those of the
    single-precision images of the pixels of its clipped window that are
    finite and differ from the nodata value in single precision; for a
    raster of single-precision samples this is the raster's own precision
    and the validity of the specification. *)
Theorem zone_stats_precision (src : Raster) (g : Geometry) :
  (forall img, mask src g = inr img ->
     zone_stats src g =
     stats_of (filter (fun x => valid32 (r_nodata src) x)
                      (astype_float32 (r_dtype src) <$> concat img))) /\
  (r_dtype src = float32 -> zone_stats src g = native_zone_stats src g).
Proof.
  split.
  - intros img Hm. by rewrite (zone_stats_mask_ok _ _ _ Hm), clip_valid_spec.
  - intros Ht. unfold native_zone_stats.
    destruct (mask src g) as [e|img] eqn:Hm; [by apply (zone_stats_mask_fails _ _ e)|].
    rewrite (zone_stats_mask_ok _ _ _ Hm), clip_valid_spec, Ht. simpl.
    rewrite list_fmap_id.
    rewrite (list_filter_iff _ (fun p => native_valid src p)); [done|].
    intros x. by apply valid32_native.
Qed.


(** C10, amended — Bounds. In a returned row with a positive count, min
    and max are the widened values of two valid pixels lo <= hi that bound
    every valid pixel, mean is the widened single-precision mean of the
    valid pixels, and count is the number of valid pixels, at most the
    number of pixels of the zone's clipped window. *)
Theorem aggregate_row_bounds (fs : gmap string file) rp vp t out i mean mn mx count :
  compute_zonal_mean fs rp vp = (t, inr out) ->
  stat_row out i = Some (VFloat mean, VFloat mn, VFloat mx, VInt count) ->
  0 < count ->
  exists src g img lo hi,
    fs !! rp = Some (RasterFile src) /\ geometry out !! i = Some (Some g) /\
    mask src g = inr img /\
    let valid := clip_valid src (r_nodata src) img in
    lo ∈ valid /\ hi ∈ valid /\
    mn = np.float64_of_float32 lo /\ mx = np.float64_of_float32 hi /\
    mean = np.float64_of_float32 (np.mean valid) /\
    SFleb lo hi = true /\
    Forall (fun v => SFleb lo v = true /\ SFleb v hi = true) valid /\
    count = Z.of_nat (length valid) /\
    count <= Z.of_nat (window_size src g).
Proof.
  intros Hrun Hrow Hpos.
  destruct (returned_row _ _ _ _ _ _ _ Hrun Hrow) as (src & g & Hr & Hg & Hval).
  destruct (zone_stats_cases src g) as [(e & _ & Hz)|(img & Hm & Hz)].
  { rewrite Hz in Hval. simpl in Hval. simplify_eq. lia. }
  rewrite Hz in Hval.
  pose proof (clip_valid_finite src (r_nodata src) img) as Hfin.
  pose proof (clip_valid_length src (r_nodata src) img) as Hlen.
  set (valid := clip_valid src (r_nodata src) img) in *.
  assert (s_count (stats_of valid) = count) as Hc.
  { destruct (stats_of valid) as [[[a b] c] d]. simpl in Hval. by simplify_eq. }
  destruct (stats_of_bounds valid Hfin) as (lo & hi & Hlo & Hhi & Hmn & Hmx & Hmean & Hle & Hall);
    [lia|].
  exists src, g, img, lo, hi.
  rewrite stats_of_count in Hc.
  destruct (stats_of valid) as [[[a b] c] d].
  unfold s_min, s_max, s_mean in *. simpl in *. simplify_eq.
  repeat split; try done.
  unfold window_size. rewrite Hm. lia.
Qed.

End Properties.

(** * Shapes that miss the raster *)

(** A pixel-aligned shape whose bounds miss the raster is refused by the
    clip, and its row is the zero-coverage row. *)
Lemma bounds_miss_raster (src : Raster) (b : PixelGrid.Box) (bs : list PixelGrid.Box) :
  PixelGrid.overlaps (PixelGrid.clipped_bounds src b bs) = false ->
  @zone_stats PixelGrid.lib src (b :: bs) = zero_coverage.
Proof.
  intros Hmiss.
  apply (zone_stats_mask_fails (H := PixelGrid.lib) src (b :: bs)
           (ValueError "Input shapes do not overlap raster.")).
  unfold mask. cbn [raster_geometry_mask PixelGrid.lib PixelGrid.shape_mask].
  by rewrite Hmiss.
Qed.

Lemma zone_outside_zero_coverage :
  Ex.stats Ex.raster44 Ex.zone_outside = zero_coverage /\
  Ex.stats Ex.raster22 Ex.zone_outside = zero_coverage.
Proof. split; by apply bounds_miss_raster. Qed.

(** * The claims on concrete inputs *)

(** C5 — Footprint. The raster declares no nodata value: [mask] writes 0
    into the pixel of the window that the L-shaped zone does not cover, and
    the loop counts it as a valid pixel. The three covered pixels alone give
    (1.0, 1.0, 1.0, 3); the row of the zone is (0.75, 0.0, 1.0, 4). *)
Theorem undeclared_nodata_counts_fill :
  Ex.covered_pixels Ex.raster22 Ex.zoneL = [Ex.f32 1 1; Ex.f32 1 1; Ex.f32 1 1] /\
  stats_of (Ex.covered_pixels Ex.raster22 Ex.zoneL) =
    (Ex.f64 1 1, Ex.f64 1 1, Ex.f64 1 1, 3) /\
  Ex.stats Ex.raster22 Ex.zoneL = (Ex.f64 3 4, Ex.f64 0 1, Ex.f64 1 1, 4).
Proof. repeat split; vm_compute; reflexivity. Qed.

(** C8 — Zero coverage. The zone wraps around a corner of the raster and
    covers none of its pixels, and the raster declares no nodata value: the
    window of the zone's bounds is filled with 0 and the row is
    (0.0, 0.0, 0.0, 4) instead of (NaN, NaN, NaN, 0). *)
Theorem uncovered_zone_counts_fill :
  (forall r c, 0 <= r < 2 -> 0 <= c < 2 -> PixelGrid.covers Ex.zone_around r c = false) /\
  Ex.covered_pixels Ex.raster22 Ex.zone_around = [] /\
  Ex.stats Ex.raster22 Ex.zone_around = (Ex.f64 0 1, Ex.f64 0 1, Ex.f64 0 1, 4) /\
  Ex.stats Ex.raster22 Ex.zone_around <> zero_coverage.
Proof.
  split; [|split; [|split]]; try (vm_compute; reflexivity).
  - intros r c Hr Hc.
    assert (r = 0 \/ r = 1) as [-> | ->] by lia;
      assert (c = 0 \/ c = 1) as [-> | ->] by lia; reflexivity.
  - vm_compute. discriminate.
Qed.

(** ** C1 *)

(** C1 — Cardinality. The zone file holds zone A, zone B and a feature
    without geometry. Zones A and B are clipped, and then [mapping] raises
    at line 49, outside the [try]: the aggregation returns no table, and
    none of the three features has a row. The zones A and B alone get the
    rows (NaN, NaN, NaN, 0) and (1.0, 1.0, 1.0, 12). *)
Theorem null_geometry_loses_rows :
  @nrows PixelGrid.lib Ex.zones_null_last = 3%nat /\
  outcome (Ex.aggregate Ex.fs_null_last) = inl no_geo_interface /\
  filter (fun ev => is_clip ev) (trace (Ex.aggregate Ex.fs_null_last)) = [Clip 0; Clip 1] /\
  (forall i, Ex.row Ex.fs_null_last i = None) /\
  Ex.row Ex.fs44 0 = Some (stat_values zero_coverage) /\
  Ex.row Ex.fs44 1 =
    Some (VFloat (Ex.f64 1 1), VFloat (Ex.f64 1 1), VFloat (Ex.f64 1 1), VInt 12).
Proof.
  split; [reflexivity|]. split; [vm_compute; reflexivity|].
  split; [vm_compute; reflexivity|]. split; [|split; vm_compute; reflexivity].
  intros i. unfold Ex.row.
  assert (Ex.table Ex.fs_null_last = None) as -> by (vm_compute; reflexivity).
  reflexivity.
Qed.

(** ** C2 *)



(** ** C3 *)

(** C3 — Isolation. The zone file holds zone A, a feature without
    geometry and zone B. [mapping] is called before the [try] and raises
    for the second feature: the exception leaves the aggregation, which
    returns no table, logs no warning and never clips zone B. A geometry
    that the clip refuses, in the same place, is handled: the table has
    its three rows, the second is the zero-coverage row, and the warning
    is logged. *)
Theorem null_geometry_aborts_run :
  outcome (Ex.aggregate Ex.fs_null) = inl no_geo_interface /\
  Ex.table Ex.fs_null = None /\
  filter (fun ev => is_clip ev) (trace (Ex.aggregate Ex.fs_null)) = [Clip 0] /\
  filter (fun ev => is_warning ev) (trace (Ex.aggregate Ex.fs_null)) = [] /\
  exists t out,
    Ex.aggregate Ex.fs_degenerate = (t, inr out) /\
    nrows out = 3%nat /\
    stat_row out 1 = Some (stat_values zero_coverage) /\
    filter (fun ev => is_warning ev) t =
      [Warning "Polygon 1 failed: tuple index out of range"].
Proof.
  split; [vm_compute; reflexivity|]. split; [vm_compute; reflexivity|].
  split; [vm_compute; reflexivity|]. split; [vm_compute; reflexivity|].
  do 2 eexists. split; [vm_compute; reflexivity|].
  repeat split; vm_compute; reflexivity.
Qed.

(** ** C4 *)

(** A double-precision raster with the nodata value -9999: the covered
    pixel -9999.0001 is finite and differs from the nodata value, and its
    single-precision image is -9999, so the loop drops it: the count is 1
    where two covered pixels are valid. *)
Lemma narrowed_pixel_dropped :
  Ex.covered_pixels Ex.raster64_nodata Ex.zone_row2 =
    [Ex.f64 1 1; Ex.f64 (-99990001) 10000] /\
  native_valid Ex.raster64_nodata (Ex.f64 1 1) = true /\
  native_valid Ex.raster64_nodata (Ex.f64 (-99990001) 10000) = true /\
  s_count (Ex.native_stats Ex.raster64_nodata Ex.zone_row2) = 2 /\
  Ex.stats Ex.raster64_nodata Ex.zone_row2 = (Ex.f64 1 1, Ex.f64 1 1, Ex.f64 1 1, 1).
Proof. repeat split; vm_compute; reflexivity. Qed.

Lemma nodata_excluded_witness :
  Ex.stats Ex.raster44 Ex.zoneA = zero_coverage /\
  s_count (Ex.stats Ex.raster44 Ex.zoneB) = 12.
Proof.
  destruct (nodata_excluded (H := PixelGrid.lib)) as (Hgeneral & _ & _).
  split.
  - edestruct (Hgeneral Ex.raster44 (Ex.f64 (-9999) 1) Ex.zoneA) as (Hall & _ & _).
    + reflexivity.
    + reflexivity.
    + apply Hall. apply (bool_decide_unpack _). vm_compute. exact I.
  - edestruct (Hgeneral Ex.raster44 (Ex.f64 (-9999) 1) Ex.zoneB) as (_ & _ & Hvalid & _).
    + reflexivity.
    + reflexivity.
    + unfold Ex.stats. rewrite Hvalid.
      * vm_compute; reflexivity.
      * vm_compute. discriminate.
Defined.

(** ** C6 *)

(** The zone set carries the integer identifiers 1 and 2: the identifier
    of the first returned row is the integer 1, not a string. *)
Lemma integer_identifier_kept :
  exists v, Ex.ident Ex.fs_grid 0 = Some v /\ is_str v = false.
Proof. exists (VInt 1). split; vm_compute; reflexivity. Qed.

Lemma aggregate_identifier_witness :
  exists z : @GeoDataFrame PixelGrid.lib,
    Ex.fs44 !! Ex.vector_path = Some (VectorFile z) /\
    identifier (result_table Ex.raster44 "EPSG:32633" Ex.zonesAB) 0 = Some (VStr "0") /\
    identifier (result_table Ex.raster44 "EPSG:32633" Ex.zonesAB) 1 = Some (VStr "1").
Proof.
  destruct (aggregate_identifier (H := PixelGrid.lib)
              Ex.fs44 Ex.raster_path Ex.vector_path
              (result_trace Ex.raster_path Ex.vector_path Ex.raster44 "EPSG:32633" Ex.zonesAB)
              (result_table Ex.raster44 "EPSG:32633" Ex.zonesAB))
    as (z & Hz & _ & _ & Hsynth & _).
  { vm_compute; reflexivity. }
  assert (z = Ex.zonesAB) as ->.
  { assert (Ex.fs44 !! Ex.vector_path = Some (VectorFile Ex.zonesAB)) as Hz'
      by (vm_compute; reflexivity).
    rewrite Hz' in Hz. by injection Hz. }
  exists Ex.zonesAB. split; [exact Hz|].
  split; apply Hsynth; solve [vm_compute; reflexivity | vm_compute; lia].
Defined.

(** ** C7 *)

Lemma aggregate_reprojection_witness :
  exists t out,
    Ex.aggregate Ex.fs44 = (t, inr out) /\
    crs out = Some "EPSG:32633" /\
    geometry out =
      fmap (M := option) (@transform PixelGrid.lib "EPSG:4326" "EPSG:32633")
        <$> [Some Ex.zoneA; Some Ex.zoneB].
Proof.
  destruct (aggregate_reprojection (H := PixelGrid.lib)
              Ex.fs44 Ex.raster_path Ex.vector_path Ex.raster44 "EPSG:32633" Ex.zonesAB)
    as (t & out & Hrun & Hcrs & Hgeom & _).
  - vm_compute; reflexivity.
  - vm_compute; reflexivity.
  - vm_compute; lia.
  - reflexivity.
  - repeat constructor; by eexists.
  - exists t, out. split; [exact Hrun|]. split; [exact Hcrs|exact Hgeom].
Defined.

(** ** C9 *)

(** A double-precision raster with the one pixel 0.1: the row holds the
    single-precision image of 0.1, not 0.1. A double-precision pixel 1e39
    is finite, and valid in the words of the specification, and the loop
    drops it. *)
Lemma double_raster_narrowed :
  Ex.stats Ex.raster64 Ex.zone_pixel <> Ex.native_stats Ex.raster64 Ex.zone_pixel /\
  s_mean (Ex.native_stats Ex.raster64 Ex.zone_pixel) = Ex.f64 1 10 /\
  native_valid Ex.raster64_large (Ex.f64 (10 ^ 39) 1) = true /\
  s_count (Ex.stats Ex.raster64_large Ex.zone_pixel) = 0.
Proof.
  split; [|repeat split; vm_compute; reflexivity].
  vm_compute. discriminate.
Qed.

Lemma zone_stats_precision_witness :
  Ex.stats Ex.raster44 Ex.zoneB = Ex.native_stats Ex.raster44 Ex.zoneB.
Proof.
  destruct (zone_stats_precision (H := PixelGrid.lib) Ex.raster44 Ex.zoneB) as [_ Hnative].
  apply Hnative. reflexivity.
Defined.

(** ** C10 *)

(** Seven single-precision pixels, all 0.1: the count is 7, min and max
    are 0.1, and the mean, rounded after each addition, is above the max. *)
Lemma mean_above_max :
  exists mean mx,
    Ex.stats Ex.raster17 Ex.zone_row7 = (mean, mx, mx, 7) /\
    SFleb mean mx = false /\ SFltb mx mean = true.
Proof. do 2 eexists. repeat split; vm_compute; reflexivity. Qed.

Lemma aggregate_row_bounds_witness :
  exists lo hi,
    np.float64_of_float32 lo = Ex.f64 1 1 /\
    np.float64_of_float32 hi = Ex.f64 1 1 /\
    SFleb lo hi = true.
Proof.
  destruct (aggregate_row_bounds (H := PixelGrid.lib)
              Ex.fs44 Ex.raster_path Ex.vector_path
              (result_trace Ex.raster_path Ex.vector_path Ex.raster44 "EPSG:32633" Ex.zonesAB)
              (result_table Ex.raster44 "EPSG:32633" Ex.zonesAB) 1%nat
              (Ex.f64 1 1) (Ex.f64 1 1) (Ex.f64 1 1) 12)
    as (src & g & img & lo & hi & _ & _ & _ & _ & _ & Hmn & Hmx & _ & Hle & _).
  - vm_compute; reflexivity.
  - vm_compute; reflexivity.
  - lia.
  - exists lo, hi. by rewrite <- Hmn, <- Hmx.
Defined.

(** * Further properties of the aggregation *)

Section MoreProperties.
Context `{GeoLib}.

Lemma warnings_of_loop (src : Raster) (gs : list Geometry) :
  forall off : nat,
    filter (fun ev => is_warning ev)
      (concat (imap (fun k g => zone_events src (off + k) g) gs)) =
    omap id (imap (fun k g => failure_warning src (off + k) g) gs).
Proof.
  induction gs as [|g gs IH]; intros off; [done|].
  rewrite !imap_cons, concat_cons, filter_app.
  rewrite (imap_ext _ (fun k g => zone_events src (S off + k) g))
    by (intros; simpl; f_equal; lia).
  rewrite IH, Nat.add_0_r.
  rewrite (imap_ext ((fun k g => failure_warning src (off + k) g) ∘ S)
             (fun k g => failure_warning src (S off + k) g))
    by (intros; simpl; f_equal; lia).
  unfold zone_events, failure_warning at 2, try_zone.
  by destruct (mask src g).
Qed.

(** X1 — Attribute columns. The returned table keeps every column of the
    zone set as it was read, the identifier column included when the zone
    set has one; the only columns it adds or overwrites are the four
    statistics columns and a missing identifier column. *)
Theorem aggregate_keeps_columns (fs : gmap string file) rp vp t out z name :
  compute_zonal_mean fs rp vp = (t, inr out) ->
  fs !! vp = Some (VectorFile z) ->
  name ∉ stat_columns ->
  (name = "id" -> is_Some (columns z !! "id")) ->
  columns out !! name = columns z !! name.
Proof.
  intros Hrun Hv Hstat Hid.
  apply compute_inv in Hrun as (src & c & z' & Hr & Hv' & Hne & Hc & Hall & -> & ->).
  assert (z' = z) as -> by congruence.
  unfold stat_columns in Hstat. rewrite !not_elem_of_cons in Hstat.
  destruct Hstat as (H1 & H2 & H3 & H4 & _).
  unfold result_table. cbn [columns].
  rewrite !lookup_insert_ne by done.
  unfold id_columns. destruct (decide (is_Some (columns z !! "id"))) as [|Hno]; [done|].
  rewrite lookup_insert_ne; [done|]. intros <-. by apply Hno, Hid.
Qed.

(** X2 — Raster reads. A run that returns has clipped the raster exactly
    once for every zone, in the order of the zones. *)
Theorem aggregate_clips_each_zone_once (fs : gmap string file) rp vp t out :
  compute_zonal_mean fs rp vp = (t, inr out) ->
  filter (fun ev => is_clip ev) t = Clip <$> seq 0 (nrows out).
Proof.
  intros Hrun.
  apply compute_inv in Hrun as (src & c & z & Hr & Hv & Hne & Hc & Hall & -> & ->).
  unfold result_trace. rewrite filter_app.
  change (filter (fun ev => is_clip ev) _ ++ ?l) with l.
  rewrite nrows_result, <- (length_reprojected c z Hall).
  apply (clips_of_events src (reprojected c z) 0).
Qed.

(** X3 — Warnings. The warnings of a run that returns are, in order, one
    for every zone whose clip was refused, naming the zone's position and
    the error, and nothing else: a zone that was clipped is never
    reported. *)
Theorem aggregate_warns_failed_zones (fs : gmap string file) rp vp src t out :
  compute_zonal_mean fs rp vp = (t, inr out) ->
  fs !! rp = Some (RasterFile src) ->
  filter (fun ev => is_warning ev) t = failure_warnings src (zones out).
Proof.
  intros Hrun Hr'.
  apply compute_inv in Hrun as (src' & c & z & Hr & Hv & Hne & Hc & Hall & -> & ->).
  assert (src' = src) as -> by congruence.
  unfold result_trace. rewrite filter_app, zones_result by done.
  change (filter (fun ev => is_warning ev) _ ++ ?l) with l.
  apply (warnings_of_loop src (reprojected c z) 0).
Qed.

(** X4 — Independence of the rows. In a run that returns, whatever
    happened to the clips of the other zones, every row of the table
    carries the geometry and the statistics that the aggregation returns
    for its zone alone, and the run on that zone alone returns too. *)
Theorem aggregate_row_standalone (fs : gmap string file) rp vp t out z j :
  compute_zonal_mean fs rp vp = (t, inr out) ->
  fs !! vp = Some (VectorFile z) ->
  (j < nrows z)%nat ->
  exists tj outj,
    compute_zonal_mean (<[vp := VectorFile (single z j)]> fs) rp vp = (tj, inr outj) /\
    nrows outj = 1%nat /\
    geometry out !! j = geometry outj !! 0%nat /\
    stat_row out j = stat_row outj 0.
Proof.
  intros Hrun Hv' Hj.
  apply compute_inv in Hrun as (src & c & z' & Hr & Hv & Hne & Hc & Hall & -> & ->).
  assert (z' = z) as -> by congruence.
  assert (rp <> vp) as Hpaths by (intros ->; congruence).
  destruct (lookup_lt_is_Some_2 (reprojected c z) j) as [gj Hgj].
  { by rewrite length_reprojected. }
  destruct (reprojected_single c z j gj Hall Hgj) as [Hsingle Hcomplete].
  assert (nrows (single z j) = 1%nat) as Hone.
  { rewrite <- (length_reprojected c) by done. by rewrite Hsingle. }
  exists (result_trace rp vp src c (single z j)), (result_table src c (single z j)).
  split.
  { apply compute_returns;
      [by rewrite lookup_insert_ne|by rewrite lookup_insert_eq|lia|done|done]. }
  split; [by rewrite nrows_result|].
  split.
  - rewrite !geometry_result, Hsingle by done. by rewrite list_lookup_fmap, Hgj.
  - rewrite !stat_row_result, Hsingle.
    by rewrite list_lookup_fmap, Hgj.
Qed.

Lemma covered_outside_row_length (P : spec_float -> Prop) `{!forall x, Decision (P x)}
    (f : spec_float -> spec_float) (fill : spec_float) (row : list spec_float) :
  P (f fill) ->
  forall m : nat -> bool,
    length (filter P (f <$> imap (fun j v => if m j then fill else v) row)) =
    (length (filter P (f <$> covered_row m row)) + length (outside_row m row))%nat.
Proof.
  intros Hfill. induction row as [|v row IH]; intros m; [done|].
  rewrite imap_cons, covered_row_cons, fmap_cons, filter_cons.
  unfold outside_row at 1. rewrite imap_cons. cbn [omap list_omap].
  pose proof (IH (m ∘ S)) as IH'. unfold outside_row in IH'.
  change (imap ((fun j v => if m j then fill else v) ∘ S) row)
    with (imap (fun j v => if (m ∘ S) j then fill else v) row).
  change (imap ((fun (j : nat) (v : spec_float) => if m j then Some v else None) ∘ S) row)
    with (imap (fun (j : nat) (v : spec_float) => if (m ∘ S) j then Some v else None) row).
  destruct (m 0%nat); cbn [id].
  - rewrite decide_True by done. cbn [length]. rewrite IH'. lia.
  - rewrite fmap_cons, filter_cons.
    destruct (decide (P (f v))); cbn [length]; rewrite IH'; lia.
Qed.

Lemma covered_outside_length (P : spec_float -> Prop) `{!forall x, Decision (P x)}
    (f : spec_float -> spec_float) (fill : spec_float) (img : list (list spec_float)) :
  P (f fill) ->
  forall sm : nat -> nat -> bool,
    length (filter P (f <$> concat (filled sm fill img))) =
    (length (filter P (f <$> covered sm img)) + length (outside sm img))%nat.
Proof.
  intros Hfill. unfold filled, covered, outside.
  induction img as [|row img IH]; intros sm; [done|].
  rewrite !imap_cons, !concat_cons, !fmap_app, !filter_app, !length_app.
  rewrite (covered_outside_row_length P f fill row Hfill).
  pose proof (IH (sm ∘ S)) as IH'.
  change (imap ((fun i row0 => imap (fun j v => if sm i j then fill else v) row0) ∘ S) img)
    with (imap (fun i row0 => imap (fun j v => if (sm ∘ S) i j then fill else v) row0) img).
  change (imap ((fun i row0 => covered_row (sm i) row0) ∘ S) img)
    with (imap (fun i row0 => covered_row ((sm ∘ S) i) row0) img).
  change (imap ((fun i row0 => outside_row (sm i) row0) ∘ S) img)
    with (imap (fun i row0 => outside_row ((sm ∘ S) i) row0) img).
  rewrite IH'. lia.
Qed.

Lemma filled_full_cover (sm : nat -> nat -> bool) (fill : spec_float)
    (img : list (list spec_float)) :
  (forall i j row v, img !! i = Some row -> row !! j = Some v -> sm i j = false) ->
  filled sm fill img = img.
Proof.
  intros Hfull. unfold filled.
  rewrite (imap_ext _ (const id)).
  - by rewrite imap_const, list_fmap_id.
  - intros i row Hrow. rewrite (imap_ext _ (const id)).
    + by rewrite imap_const, list_fmap_id.
    + intros j v Hv. by rewrite (Hfull i j row v).
Qed.

Lemma read_window_lookup (src : Raster) (w : Window) i j row v :
  read_window src w !! i = Some row -> row !! j = Some v ->
  (i < height w)%nat /\ (j < width w)%nat.
Proof.
  unfold read_window. intros Hrow Hv.
  apply list_lookup_fmap_Some in Hrow as (row' & -> & Hrow').
  apply lookup_take_Some in Hrow' as [_ Hi].
  apply lookup_take_Some in Hv as [_ Hj]. done.
Qed.

(** X5 — Undeclared nodata. When the raster declares no nodata value, the
    count of a zone is the number of covered pixels that are finite plus
    the number of pixels of the crop window that lie outside the shape:
    every one of the latter is counted, as the 0 that the clip writes. *)
Theorem fill_counted_without_nodata (src : Raster) (g : Geometry) w sm :
  r_nodata src = None ->
  raster_geometry_mask src g = inr (w, sm) ->
  s_count (zone_stats src g) =
  Z.of_nat (length (filter (fun x => np.isfinite x)
                      (astype_float32 (r_dtype src) <$> covered sm (read_window src w)))
            + length (outside sm (read_window src w))).
Proof.
  intros Hnd Hm.
  rewrite (zone_stats_mask_ok _ _ _ (mask_ok _ _ _ _ Hm)), stats_of_count.
  unfold clip_valid, select_finite, fill_value. rewrite Hnd.
  rewrite !concat_fmap_fmap. cbn [nodata_to_nan]. rewrite list_fmap_id.
  f_equal. apply covered_outside_length. by destruct (r_dtype src).
Qed.

(** X6 — Full windows. A zone whose shape covers every pixel of its crop
    window is aggregated over exactly the valid pixels of that window,
    whether the raster declares a nodata value or not. *)
Theorem full_cover_stats (src : Raster) (g : Geometry) w sm :
  raster_geometry_mask src g = inr (w, sm) ->
  (forall i j, (i < height w)%nat -> (j < width w)%nat -> sm i j = false) ->
  zone_stats src g =
  stats_of (filter (fun x => valid32 (r_nodata src) x)
              (astype_float32 (r_dtype src) <$> concat (read_window src w))).
Proof.
  intros Hm Hfull.
  rewrite (zone_stats_mask_ok _ _ _ (mask_ok _ _ _ _ Hm)), clip_valid_spec.
  rewrite filled_full_cover; [done|].
  intros i j row v Hrow Hv.
  destruct (read_window_lookup _ _ _ _ _ _ Hrow Hv). by apply Hfull.
Qed.

(** X20 — Log trail of a failed run. The log of a run that raises tells
    the stage that failed: nothing is logged when a path does not exist,
    only the line of the raster when the raster cannot be opened, and the
    lines of the raster and of the polygons when the zone file cannot be
    read or has no features or the raster has no reference system. When a
    feature has no geometry, the three lines are followed by the clips
    and the warnings of exactly the zones before the first such
    feature. *)
Theorem aggregate_failure_trail (fs : gmap string file) rp vp e :
  outcome (compute_zonal_mean fs rp vp) = inl e ->
  match e with
  | FileNotFoundError _ => trace (compute_zonal_mean fs rp vp) = []
  | RasterioIOError _ =>
      trace (compute_zonal_mean fs rp vp) = [Info ("Loading raster: " +:+ rp)]
  | DataSourceError _ | ValueError _ =>
      trace (compute_zonal_mean fs rp vp) =
      [Info ("Loading raster: " +:+ rp); Info ("Loading polygons: " +:+ vp)]
  | AttributeError _ | IndexError _ =>
      exists src c z gs rest,
        fs !! rp = Some (RasterFile src) /\ r_crs src = Some c /\
        fs !! vp = Some (VectorFile z) /\
        geometry z = (Some <$> gs) ++ None :: rest /\
        trace (compute_zonal_mean fs rp vp) =
        [Info ("Loading raster: " +:+ rp); Info ("Loading polygons: " +:+ vp);
         Info ("Reprojected vector to raster CRS: " +:+ c)]
        ++ concat (imap (zone_events src) (transform (source_crs z) c <$> gs))
  end.
Proof.
  destruct (fs !! rp) as [fr|] eqn:Hr.
  2:{ rewrite (compute_raster_missing _ _ _ Hr). by intros [= <-]. }
  destruct (fs !! vp) as [fv|] eqn:Hv.
  2:{ rewrite compute_vector_missing by (by rewrite ?Hr). by intros [= <-]. }
  assert (is_Some (fs !! rp)) as Hsr by (by rewrite Hr).
  assert (is_Some (fs !! vp)) as Hsv by (by rewrite Hv).
  destruct fr as [src|zr|].
  2,3: (rewrite compute_raster_unreadable;
        [by intros [= <-]|done|done|intros src Hsrc; congruence]).
  destruct fv as [srcv|z|].
  1,3: (rewrite (compute_vector_unreadable _ _ _ src);
        [by intros [= <-]|done|done|intros z Hz; congruence]).
  destruct (decide (nrows z = 0%nat)) as [Hz|Hz].
  { rewrite (compute_no_features _ _ _ src z) by done. by intros [= <-]. }
  destruct (r_crs src) as [c|] eqn:Hc.
  2:{ rewrite (compute_no_crs _ _ _ src z) by done. by intros [= <-]. }
  destruct (first_null (geometry z)) as [Hall|(gs & rest & Hg)].
  - by rewrite (compute_returns _ _ _ src c z).
  - rewrite (compute_null_geometry _ _ _ src c z gs rest) by done.
    intros [= <-]. by exists src, c, z, gs, rest.
Qed.

End MoreProperties.

(** * The logger factory *)

Lemma get_logger_configured (env : log.Env) name log_path (reg : gmap string log.Logger) l :
  reg !! name = Some l -> log.handlers l <> [] ->
  log.get_logger env name log_path reg = (reg, inr l).
Proof.
  intros Hl Hh. unfold log.get_logger, log.getLogger. rewrite Hl.
  by rewrite bool_decide_eq_true_2.
Qed.

Lemma get_logger_other (env : log.Env) name log_path (reg : gmap string log.Logger) other :
  other <> name ->
  (log.get_logger env name log_path reg).1 !! other = reg !! other.
Proof.
  intros Hne. assert (name <> other) as Hne' by done.
  unfold log.get_logger, log.getLogger.
  destruct (reg !! name) as [l|] eqn:Hl; cbn beta iota;
    (destruct (bool_decide _); [cbn [fst]; by rewrite ?lookup_insert_ne by exact Hne'|]);
    (destruct (log.truthy log_path) as [path|];
       [|cbn [fst]; by rewrite ?lookup_insert_ne by exact Hne']);
    (destruct (log.mkdir_error env (log.parent env path));
       [cbn [fst]; by rewrite ?lookup_insert_ne by exact Hne'|]);
    destruct (log.open_error env path); cbn [fst]; by rewrite ?lookup_insert_ne by exact Hne'.
Qed.

(** One call leaves the logger it names configured, whether it returns
    or raises, and what it returns is the logger of the registry. *)
Lemma get_logger_call (env : log.Env) name log_path (reg : gmap string log.Logger) :
  (forall l, reg !! name = Some l -> log.well_formed l) ->
  exists l,
    (log.get_logger env name log_path reg).1 !! name = Some l /\
    log.configured l /\
    (forall l', (log.get_logger env name log_path reg).2 = inr l' -> l' = l).
Proof.
  intros Hwf.
  unfold log.get_logger, log.getLogger.
  destruct (reg !! name) as [l|] eqn:Hl.
  - destruct (Hwf l eq_refl) as [Hnil|Hconf].
    + rewrite bool_decide_eq_false_2 by (by rewrite Hnil; intros ?).
      unfold log.addHandler, log.setLevel. cbn [log.handlers log.level]. rewrite Hnil.
      cbn [app].
      destruct (log.truthy log_path) as [path|];
        [destruct (log.mkdir_error env (log.parent env path));
           [|destruct (log.open_error env path)]|];
        eexists; cbn [fst snd]; rewrite lookup_insert_eq;
        (split; [reflexivity|]); (split; [split; [reflexivity|]|]);
        try (by left); try (right; by eexists); try done; by intros ? [= <-].
    + rewrite bool_decide_eq_true_2.
      * exists l. cbn [fst snd]. split; [done|]. split; [done|]. by intros ? [= <-].
      * destruct Hconf as [_ [Hh|[p Hh]]]; rewrite Hh; by intros ?.
  - cbn [log.new_logger log.handlers]. rewrite bool_decide_eq_false_2 by (by intros ?).
    unfold log.addHandler, log.setLevel. cbn [log.handlers log.level app].
    destruct (log.truthy log_path) as [path|];
      [destruct (log.mkdir_error env (log.parent env path));
         [|destruct (log.open_error env path)]|];
      eexists; cbn [fst snd]; rewrite lookup_insert_eq;
      (split; [reflexivity|]); (split; [split; [reflexivity|]|]);
      try (by left); try (right; by eexists); try done; by intros ? [= <-].
Qed.

Lemma get_logger_well_formed (env : log.Env) name log_path (reg : gmap string log.Logger) :
  map_Forall (fun _ l => log.well_formed l) reg ->
  map_Forall (fun _ l => log.well_formed l) (log.get_logger env name log_path reg).1.
Proof.
  intros Hwf other l Hl.
  destruct (decide (other = name)) as [->|Hne].
  - destruct (get_logger_call env name log_path reg) as (l' & Hl' & Hconf & _).
    { intros l0 Hl0. by apply (Hwf name). }
    rewrite Hl' in Hl. injection Hl as <-. by right.
  - rewrite get_logger_other in Hl by done. by apply (Hwf other).
Qed.

(** X7 — Handlers. Starting from loggers that have no handler or are
    configured (level INFO, one stream handler, at most one file handler
    after it, all with the format of the module), every sequence of calls
    of [get_logger], returning or raising, leaves every logger in one of
    these two states: no call adds a second stream handler or a second
    file handler. *)
Theorem get_logger_handlers_invariant (env : log.Env) (cs : list (string * option string)) :
  forall reg : gmap string log.Logger,
    map_Forall (fun _ l => log.well_formed l) reg ->
    map_Forall (fun _ l => log.well_formed l) (log.calls env cs reg).
Proof.
  induction cs as [|[name log_path] cs IH]; intros reg Hwf; [done|].
  cbn [log.calls]. by apply IH, get_logger_well_formed.
Qed.

(** X8 — First call wins. A logger that has a handler is never changed
    by [get_logger] again: whatever names and log paths later calls pass,
    its level and handlers stay as they are, so a log path given after the
    first call is ignored. *)
Theorem get_logger_never_reconfigures (env : log.Env) (cs : list (string * option string)) :
  forall (reg : gmap string log.Logger) name l,
    reg !! name = Some l -> log.handlers l <> [] ->
    log.calls env cs reg !! name = Some l.
Proof.
  induction cs as [|[name' log_path] cs IH]; intros reg name l Hl Hh; [done|].
  cbn [log.calls]. apply IH; [|done].
  destruct (decide (name = name')) as [<-|Hne].
  - by rewrite (get_logger_configured env name log_path reg l).
  - by rewrite get_logger_other.
Qed.

(** X9 — Configuration. After a sequence of calls that names a logger at
    least once, that logger exists and is configured: level INFO and the
    stream handler first, also when the call that named it raised while
    setting up the log file. *)
Theorem get_logger_configures (env : log.Env) (cs : list (string * option string))
    (name : string) :
  forall reg : gmap string log.Logger,
    map_Forall (fun _ l => log.well_formed l) reg ->
    name ∈ cs.*1 ->
    exists l, log.calls env cs reg !! name = Some l /\ log.configured l.
Proof.
  assert (forall reg : gmap string log.Logger,
            map_Forall (fun _ l => log.well_formed l) reg ->
            (name ∈ cs.*1 \/ exists l, reg !! name = Some l /\ log.configured l) ->
            exists l, log.calls env cs reg !! name = Some l /\ log.configured l) as Hgen.
  { induction cs as [|[name' log_path] cs IH]; intros reg Hwf Hin.
    - destruct Hin as [Hin|Hin]; [by apply elem_of_nil in Hin|done].
    - cbn [log.calls]. apply IH; [by apply get_logger_well_formed|].
      destruct (decide (name = name')) as [<-|Hne].
      + right. destruct (get_logger_call env name log_path reg) as (l & Hl & Hconf & _).
        { intros l0 Hl0. by apply (Hwf name). }
        eauto.
      + destruct Hin as [Hin|Hin].
        * left. rewrite fmap_cons in Hin. apply elem_of_cons in Hin as [Hin|Hin]; done.
        * right. by rewrite get_logger_other. }
  intros reg Hwf Hin. apply Hgen; [done|by left].
Qed.

(** * The command of the zonal statistics *)

Section MainProperties.
Context `{GeoLib}.

Lemma writes_logged (t : list event) :
  zonal_stats.writes (zonal_stats.Logged <$> t) = [].
Proof. induction t as [|ev t IH]; [done|]. by rewrite fmap_cons. Qed.

Lemma writes_app (evs evs' : list zonal_stats.main_event) :
  zonal_stats.writes (evs ++ evs') = zonal_stats.writes evs ++ zonal_stats.writes evs'.
Proof. unfold zonal_stats.writes. apply omap_app. Qed.

(** X10 — Failed aggregation. When the aggregation raises, [main] writes
    neither output file. The directory of the GeoJSON output is created
    before the aggregation starts: if that fails, [main] raises its error
    and the aggregation is not run; otherwise the directory exists and
    [main] raises the error of the aggregation. *)
Theorem main_failure_writes_nothing (env : zonal_stats.Env) (fs : gmap string file)
    (args : zonal_stats.Args) (e : exn) :
  outcome (compute_zonal_mean fs (zonal_stats.raster args) (zonal_stats.vector args)) = inl e ->
  let dir := zonal_stats.Mkdir (zonal_stats.parent env (zonal_stats.out_geojson args)) in
  let run := zonal_stats.main env fs args in
  zonal_stats.writes run.1 = [] /\
  match zonal_stats.io_error env dir with
  | Some msg => run = ([], inl (zonal_stats.OSError dir msg))
  | None => head run.1 = Some (zonal_stats.Did dir) /\ run.2 = inl (zonal_stats.Aggregation e)
  end.
Proof.
  intros Hfail dir run. subst dir run. unfold zonal_stats.main.
  destruct (zonal_stats.io_error env (zonal_stats.Mkdir _)) as [msg|]; [done|].
  destruct (compute_zonal_mean fs _ _) as [t r]. cbn [outcome snd] in Hfail. subst r.
  cbn [fst snd]. split; [|done].
  change (?x :: ?l) with ([x] ++ l). by rewrite writes_app, writes_logged.
Qed.

(** X11 — Outputs. When the aggregation returns a table, [main] writes
    the GeoJSON file first and the CSV file second, both from that table
    (the CSV without the geometry column), and reports only after both:
    either no write was completed and [main] raised an [OSError], or the
    GeoJSON file alone was written and the CSV write raised, or both were
    written, [main] returned, and its last log line is the summary. *)
Theorem main_writes_geojson_then_csv (env : zonal_stats.Env) (fs : gmap string file)
    (args : zonal_stats.Args) t gdf :
  compute_zonal_mean fs (zonal_stats.raster args) (zonal_stats.vector args) = (t, inr gdf) ->
  let geojson := zonal_stats.ToFile (zonal_stats.out_geojson args) gdf in
  let csv := zonal_stats.ToCsv (zonal_stats.out_csv args) (columns gdf) in
  let run := zonal_stats.main env fs args in
  (zonal_stats.writes run.1 = [] /\ exists op msg, run.2 = inl (zonal_stats.OSError op msg)) \/
  (zonal_stats.writes run.1 = [geojson] /\ exists msg, run.2 = inl (zonal_stats.OSError csv msg)) \/
  (zonal_stats.writes run.1 = [geojson; csv] /\ run.2 = inr tt /\
   last run.1 = Some (zonal_stats.Logged (Info (zonal_stats.summary env gdf)))).
Proof.
  intros Hrun geojson csv run. subst run. unfold zonal_stats.main. rewrite Hrun.
  destruct (zonal_stats.io_error env (zonal_stats.Mkdir _)) as [msg|]; [left; by eauto|].
  destruct (zonal_stats.io_error env (zonal_stats.ToFile _ _)) as [msg|].
  { left. cbn [fst snd]. split; [|by eauto].
    change (?x :: ?l) with ([x] ++ l). by rewrite writes_app, writes_logged. }
  destruct (zonal_stats.io_error env (zonal_stats.ToCsv _ _)) as [msg|].
  - right; left. cbn [fst snd]. split; [|by eauto].
    change (?x :: ?l) with ([x] ++ l). by rewrite !writes_app, writes_logged.
  - right; right. cbn [fst snd]. split; [|split; [done|]].
    + change (?x :: ?l) with ([x] ++ l). by rewrite !writes_app, writes_logged.
    + match goal with
      | |- last (?l ++ [?a; ?b; ?c; ?d]) = _ =>
          change (l ++ [a; b; c; d]) with (l ++ ([a; b; c] ++ [d]))
      end.
      by rewrite app_assoc, last_snoc.
Qed.

End MainProperties.

(** * The ingest into the database *)

Section IngestProperties.
Context `{GeoLib}.
Import postgis_ingest.

Lemma select_fields_lookup (cols : gmap string (list value)) (name : string) :
  select_fields cols !! name =
  if decide (name = "field_id" \/ name = "name") then cols !! name else None.
Proof.
  unfold select_fields. destruct (decide _) as [Hn|Hn].
  - destruct (cols !! name) as [col|] eqn:Hc.
    + by apply map_lookup_filter_Some.
    + apply map_lookup_filter_None. left. done.
  - apply map_lookup_filter_None. right. intros col _. done.
Qed.

Lemma ensure_wgs84_columns (env : Env) (gdf : GeoDataFrame) :
  columns (ensure_wgs84 env gdf) = columns gdf.
Proof.
  unfold ensure_wgs84. destruct (crs gdf); [|done]. by destruct (decide _).
Qed.

Lemma ensure_wgs84_nrows (env : Env) (gdf : GeoDataFrame) :
  nrows (ensure_wgs84 env gdf) = nrows gdf.
Proof.
  unfold ensure_wgs84, nrows. destruct (crs gdf); [|done].
  destruct (decide _); [done|]. cbn [geometry]. by rewrite length_fmap.
Qed.

Lemma with_name_field_id n (cols : gmap string (list value)) :
  with_name n cols !! "field_id" = cols !! "field_id".
Proof. unfold with_name. destruct (decide _); [done|]. by rewrite lookup_insert_ne. Qed.

Lemma with_name_name n (cols : gmap string (list value)) :
  is_Some (with_name n cols !! "name").
Proof.
  unfold with_name. destruct (decide _); [done|]. rewrite lookup_insert_eq. eauto.
Qed.

Lemma with_field_id_lookup (gdf : GeoDataFrame) :
  with_field_id gdf !! "field_id" =
  match columns gdf !! "field_id" with
  | Some col => Some col
  | None =>
      match columns gdf !! "id" with
      | Some col => Some col
      | None => Some (index_str (nrows gdf))
      end
  end.
Proof.
  unfold with_field_id, rename_column.
  destruct (columns gdf !! "field_id") as [col|] eqn:Hf.
  - rewrite decide_True by eauto. done.
  - rewrite decide_False by (by intros [? ?]).
    destruct (columns gdf !! "id") as [col|] eqn:Hi.
    + rewrite decide_True by eauto. by rewrite lookup_insert_eq.
    + rewrite decide_False by (by intros [? ?]). by rewrite lookup_insert_eq.
Qed.

Lemma with_name_other n (cols : gmap string (list value)) (name : string) :
  name <> "name" -> with_name n cols !! name = cols !! name.
Proof.
  intros Hn. unfold with_name. destruct (decide _); [done|].
  by rewrite lookup_insert_ne.
Qed.

Lemma with_field_id_other (gdf : GeoDataFrame) (name : string) :
  name <> "field_id" -> name <> "id" ->
  with_field_id gdf !! name = columns gdf !! name.
Proof.
  intros Hf Hi. unfold with_field_id, rename_column.
  destruct (decide (is_Some (columns gdf !! "field_id"))); [done|].
  destruct (columns gdf !! "id") as [col|] eqn:Hid.
  - rewrite decide_True by eauto.
    rewrite lookup_insert_ne by done. by rewrite lookup_delete_ne.
  - rewrite decide_False by (by intros [? ?]). by rewrite lookup_insert_ne.
Qed.

(** X12 — Keys. For a zone file that has no [field_id] column (and no
    column called [geom]) and for which the aggregation returns a table,
    the key column that [upsert_fields] sends to the [fields] table is the
    identifier column of that table: the file's own [id] column when it
    has one, the row positions as text when it has none. *)
Theorem upsert_fields_key_matches_zonal (env : Env) (fs : gmap string file)
    rp vp z t out :
  fs !! vp = Some (VectorFile z) ->
  compute_zonal_mean fs rp vp = (t, inr out) ->
  columns z !! "field_id" = None ->
  columns z !! "geom" = None ->
  (forall frame, to_postgis_error env frame = None) ->
  exists frame msg,
    upsert_fields env fs vp = ([ToPostgis "fields" frame; Logged (Info msg)], inr tt) /\
    columns frame !! "field_id" = columns out !! "id".
Proof.
  intros Hv Hrun Hfid Hgeom Hdb.
  apply compute_inv in Hrun as (src & c & z' & Hr & Hv' & Hne & Hc & Hall & -> & ->).
  assert (z' = z) as -> by congruence.
  unfold upsert_fields, read_file. rewrite Hv. cbn [outcome snd mret M_ret].
  unfold empty. rewrite bool_decide_eq_false_2 by done.
  unfold fields_frame. rewrite ensure_wgs84_columns. cbn [columns].
  assert (with_name (nrows z) (with_field_id z) !! "geom" = None) as Hg.
  { rewrite with_name_other by done. rewrite with_field_id_other by done. done. }
  rewrite decide_False by (rewrite Hg; by intros [? ?]).
  rewrite Hdb.
  eexists _, _. split; [reflexivity|].
  cbn [columns]. rewrite select_fields_lookup, decide_True by (by left).
  rewrite with_name_field_id, with_field_id_lookup, Hfid.
  unfold result_table. cbn [columns]. rewrite !lookup_insert_ne by done.
  unfold id_columns. destruct (columns z !! "id") as [col|] eqn:Hid.
  - rewrite decide_True by eauto. by rewrite Hid.
  - rewrite decide_False by (by intros [? ?]). by rewrite lookup_insert_eq.
Qed.

(** X13 — Empty zone file. On a zone file without features
    [upsert_fields] logs a warning and returns without touching the
    database, while the aggregation raises a [ValueError] on the same
    file. *)
Theorem empty_zone_file_warns_or_raises (env : Env) (fs : gmap string file) rp vp src z :
  fs !! rp = Some (RasterFile src) ->
  fs !! vp = Some (VectorFile z) ->
  nrows z = 0%nat ->
  upsert_fields env fs vp = ([Logged (Warning "No features in fields.geojson")], inr tt) /\
  outcome (compute_zonal_mean fs rp vp) = inl (ValueError "Vector file has no features.").
Proof.
  intros Hr Hv Hz. split.
  - unfold upsert_fields, read_file. rewrite Hv. cbn [outcome snd mret M_ret].
    unfold empty. by rewrite bool_decide_eq_true_2.
  - by rewrite (compute_no_features _ _ _ src z).
Qed.

(** X14 — The frame for the [fields] table. Whatever [upsert_fields]
    hands to the database comes from a readable zone file with rows, has
    one row per feature, exactly the attribute columns [field_id] and
    [name], and is in EPSG:4326: the geometries are as read when the file
    declares no reference system or one whose EPSG code is 4326, and are
    transformed to EPSG:4326 otherwise. *)
Theorem upsert_fields_frame (env : Env) (fs : gmap string file) path evs r tbl frame :
  upsert_fields env fs path = (evs, r) ->
  ToPostgis tbl frame ∈ evs ->
  exists z,
    fs !! path = Some (VectorFile z) /\
    tbl = "fields" /\
    nrows frame = nrows z /\ nrows z <> 0%nat /\
    (forall name, is_Some (columns frame !! name) <-> name = "field_id" \/ name = "name") /\
    match crs z with
    | None => crs frame = Some "EPSG:4326" /\ geometry frame = geometry z
    | Some c =>
        if decide (to_epsg env c = Some 4326)
        then crs frame = Some c /\ geometry frame = geometry z
        else crs frame = Some "EPSG:4326" /\
             geometry frame = fmap (M := option) (transform c "EPSG:4326") <$> geometry z
    end.
Proof.
  unfold upsert_fields, read_file. intros Hrun Hev.
  destruct (fs !! path) as [[src|z|]|] eqn:Hp; cbn [outcome snd raise mret M_ret] in Hrun;
    try (injection Hrun as <- <-; by apply elem_of_nil in Hev).
  unfold empty in Hrun. destruct (decide (nrows z = 0%nat)) as [Hz|Hz].
  { rewrite bool_decide_eq_true_2 in Hrun by done. injection Hrun as <- <-.
    apply list_elem_of_singleton in Hev. done. }
  rewrite bool_decide_eq_false_2 in Hrun by done.
  destruct (fields_frame env z) as [e|frame'] eqn:Hframe;
    [injection Hrun as <- <-; by apply elem_of_nil in Hev|].
  destruct (to_postgis_error env frame');
    [injection Hrun as <- <-; by apply elem_of_nil in Hev|].
  injection Hrun as <- <-.
  apply elem_of_cons in Hev as [Hev|Hev];
    [|apply list_elem_of_singleton in Hev; done].
  injection Hev as -> ->.
  exists z. split; [done|]. split; [done|].
  unfold fields_frame in Hframe. rewrite ensure_wgs84_columns in Hframe. cbn [columns] in Hframe.
  destruct (decide (is_Some _)) as [|Hnogeom]; [done|]. injection Hframe as <-.
  split; [|split; [done|split]].
  - unfold nrows at 1. cbn [geometry]. fold (nrows (ensure_wgs84 env
      {| crs := crs z; geometry := geometry z;
         columns := with_name (nrows z) (with_field_id z) |})).
    by rewrite ensure_wgs84_nrows.
  - intros name. cbn [columns]. rewrite select_fields_lookup.
    destruct (decide (name = "field_id" \/ name = "name")) as [Hn|Hn].
    + split; [done|]. intros _. destruct Hn as [-> | ->].
      * rewrite with_name_field_id, with_field_id_lookup.
        destruct (columns z !! "field_id"); [eauto|]. destruct (columns z !! "id"); eauto.
      * apply with_name_name.
    + split; [by intros [? ?]|done].
  - unfold ensure_wgs84. cbn [crs geometry].
    destruct (crs z) as [c|]; [|done]. by destruct (decide _).
Qed.

Lemma astype_str_cell_cases (env : Env) (v : value) :
  (missing v = false -> exists s, astype_str_cell env v = VStr s) /\
  (missing v = true -> na_preserved env = true -> astype_str_cell env v = VFloat np.nan) /\
  (is_str (astype_str_cell env v) = true \/ astype_str_cell env v = VFloat np.nan) /\
  (na_preserved env = false -> is_str (astype_str_cell env v) = true).
Proof.
  unfold astype_str_cell.
  destruct (missing v), (na_preserved env); cbn; repeat split; eauto; done.
Qed.

(** X15 — The frame for the [ndvi_stats] table. When [load_zonal_csv]
    returns, it has read the CSV and inserted one frame with the rows of
    the CSV and exactly the six columns [field_id], [ndvi_mean],
    [ndvi_min], [ndvi_max], [ndvi_count] and [run_id]; every row carries
    the run identifier, and every column has one cell per row when those
    of the CSV do. A key is text or the missing value NaN: it is text
    when the cell of the CSV it comes from is not missing and when the
    keys are the row positions, and it is NaN for a missing cell when
    [astype(str)] preserves missing values. *)
Theorem load_zonal_csv_frame (env : Env) run_id path evs :
  load_zonal_csv env run_id path = (evs, inr tt) ->
  exists df frame msg keys,
    read_csv env path = inr df /\
    evs = [ToSql "ndvi_stats" frame; Logged (Info msg)] /\
    df_len frame = df_len df /\
    (forall name, is_Some (df_columns frame !! name) <->
       name ∈ ["field_id"; "ndvi_mean"; "ndvi_min"; "ndvi_max"; "ndvi_count"; "run_id"]) /\
    df_columns frame !! "field_id" = Some keys /\
    Forall (fun k => is_str k = true \/ k = VFloat np.nan) keys /\
    (na_preserved env = false -> Forall (fun k => is_str k = true) keys) /\
    (key_source df = None ->
     keys = (fun i : nat => VStr (pretty i)) <$> seq 0 (df_len df)) /\
    (forall col i v, key_source df = Some col -> col !! i = Some v ->
       (missing v = false -> exists s, keys !! i = Some (VStr s)) /\
       (missing v = true -> na_preserved env = true -> keys !! i = Some (VFloat np.nan))) /\
    df_columns frame !! "run_id" = Some (replicate (df_len df) (VStr run_id)) /\
    (df_wf df -> df_wf frame).
Proof.
  unfold load_zonal_csv. intros Hrun.
  destruct (read_csv env path) as [e|df] eqn:Hread; [done|].
  destruct (to_sql_error env _); [done|]. injection Hrun as <-.
  eexists df, _, _, (field_id_series env df).
  split; [done|]. split; [reflexivity|]. split; [done|].
  assert (field_id_series env df =
          match key_source df with
          | Some col => astype_str env col
          | None => index_str (df_len df)
          end) as Hkeys.
  { unfold field_id_series, key_source.
    by destruct (df_columns df !! "field_id"); [|destruct (df_columns df !! "id")]. }
  split; [|split; [|split; [|split; [|split; [|split; [|split]]]]]].
  - intros name. unfold ins_df. cbn [df_columns].
    rewrite !elem_of_cons, elem_of_nil.
    split.
    + intros Hsome.
      destruct (decide (name = "run_id")) as [->|]; [tauto|].
      destruct (decide (name = "ndvi_count")) as [->|]; [tauto|].
      destruct (decide (name = "ndvi_max")) as [->|]; [tauto|].
      destruct (decide (name = "ndvi_min")) as [->|]; [tauto|].
      destruct (decide (name = "ndvi_mean")) as [->|]; [tauto|].
      destruct (decide (name = "field_id")) as [->|]; [tauto|].
      rewrite !lookup_insert_ne, lookup_singleton_ne in Hsome by done.
      by destruct Hsome.
    + intros [->|[->|[->|[->|[->|[->|[]]]]]]];
        repeat (rewrite lookup_insert_eq || rewrite lookup_insert_ne by done
                || rewrite lookup_singleton_eq); eauto.
  - unfold ins_df. cbn [df_columns].
    by rewrite !lookup_insert_ne, lookup_singleton_eq by done.
  - rewrite Hkeys. destruct (key_source df) as [col|].
    + apply Forall_fmap, Forall_forall. intros v _. apply astype_str_cell_cases.
    + apply Forall_fmap, Forall_true. intros i. by left.
  - intros Hna. rewrite Hkeys. destruct (key_source df) as [col|].
    + apply Forall_fmap, Forall_forall. intros v _. by apply astype_str_cell_cases.
    + apply Forall_fmap, Forall_true. done.
  - intros Hnone. by rewrite Hkeys, Hnone.
  - intros col i v Hsrc Hv. rewrite Hkeys, Hsrc. unfold astype_str.
    rewrite list_lookup_fmap, Hv. cbn.
    destruct (astype_str_cell_cases env v) as (Hpresent & Hmissing & _).
    split.
    + intros Hm. destruct (Hpresent Hm) as [s ->]. by exists s.
    + intros Hm Hna. by rewrite Hmissing.
  - unfold ins_df. cbn [df_columns]. by rewrite lookup_insert_eq.
  - intros Hwf. unfold df_wf, ins_df. cbn [df_columns df_len].
    assert (forall name d, length (get_column df name d) = df_len df) as Hget.
    { intros name d. unfold get_column.
      destruct (df_columns df !! name) as [col|] eqn:Hc; [by apply (Hwf name)|].
      by rewrite length_replicate. }
    repeat (apply map_Forall_insert_2; [by rewrite ?Hget, ?length_replicate|]).
    apply map_Forall_singleton.
    unfold field_id_series, astype_str, index_str.
    destruct (df_columns df !! "field_id") as [col|] eqn:Hf;
      [rewrite length_fmap; by apply (Hwf "field_id")|].
    destruct (df_columns df !! "id") as [col|] eqn:Hi;
      [rewrite length_fmap; by apply (Hwf "id")|].
    by rewrite length_fmap, length_seq.
Qed.

End IngestProperties.

(** * The grid generator *)

Section GridProperties.
Context `{GeoLib}.
Import make_grid.

Lemma inner_loop_spec (env : Env) minx miny dx dy (cols r n : nat) :
  forall (c0 : nat) (polys : list Feature),
    (c0 + n <= cols)%nat ->
    fold_left (inner_body env minx miny dx dy r) (seq c0 n)
      (polys, Z.of_nat (r * cols + c0) + 1) =
    (polys ++ (feature_at env minx miny dx dy cols <$> seq (r * cols + c0) n),
     Z.of_nat (r * cols + c0 + n) + 1).
Proof.
  induction n as [|n IH]; intros c0 polys Hle.
  - cbn [seq fold_left fmap list_fmap]. by rewrite app_nil_r, Nat.add_0_r.
  - cbn [seq fold_left]. unfold inner_body at 2.
    replace (Z.of_nat (r * cols + c0) + 1 + 1) with (Z.of_nat (r * cols + S c0) + 1) by lia.
    rewrite IH by lia. f_equal; [|f_equal; lia].
    rewrite <- app_assoc. f_equal. cbn [fmap list_fmap app]. f_equal.
    + unfold feature_at. f_equal.
      replace ((r * cols + c0) / cols)%nat with r; [replace ((r * cols + c0) mod cols)%nat with c0|]; [done| |].
      * rewrite Nat.add_comm, Nat.Div0.mod_add. symmetry. apply Nat.mod_small. lia.
      * rewrite Nat.add_comm, Nat.div_add by lia. rewrite Nat.div_small by lia. done.
    + by replace (r * cols + S c0)%nat with (S (r * cols + c0)) by lia.
Qed.

Lemma loops_spec (env : Env) minx miny dx dy (rows cols : Z) :
  loops env minx miny dx dy rows cols =
  (feature_at env minx miny dx dy (Z.to_nat cols)
     <$> seq 0 (Z.to_nat rows * Z.to_nat cols),
   Z.of_nat (Z.to_nat rows * Z.to_nat cols) + 1).
Proof.
  unfold loops, range. induction (Z.to_nat rows) as [|n IH].
  - done.
  - rewrite seq_S, fold_left_app, IH. cbn [fold_left Nat.add]. unfold outer_body, range.
    pose proof (inner_loop_spec env minx miny dx dy (Z.to_nat cols) n (Z.to_nat cols) 0
                  (feature_at env minx miny dx dy (Z.to_nat cols)
                     <$> seq 0 (n * Z.to_nat cols))) as Hin.
    rewrite !Nat.add_0_r in Hin. rewrite Hin by lia.
    f_equal; [|f_equal; lia].
    replace (S n * Z.to_nat cols)%nat with (n * Z.to_nat cols + Z.to_nat cols)%nat by lia.
    by rewrite seq_app, fmap_app.
Qed.

Lemma float_div_int_ok (x : spec_float) (n : Z) :
  np.isfinite (np.float64_of_int n) = true -> n <> 0 ->
  float_div_int x n = inr (div64 x (np.float64_of_int n)).
Proof. intros Hf Hn. unfold float_div_int. by rewrite Hf, decide_False. Qed.

Lemma float_div_int_inv (x : spec_float) (n : Z) (d : spec_float) :
  float_div_int x n = inr d ->
  np.isfinite (np.float64_of_int n) = true /\ n <> 0 /\ d = div64 x (np.float64_of_int n).
Proof.
  unfold float_div_int. destruct (np.isfinite _); [|done].
  destruct (decide (n = 0)); [done|]. by intros [= <-].
Qed.


Lemma frame_to_wgs84_entries (polys : list Feature) (c : option CRS) :
  polys <> [] ->
  frame_to_wgs84 polys c = outcome (to_crs (Some "EPSG:4326") (frame_of polys c)).
Proof. by destruct polys. Qed.

Lemma features_entries (env : Env) minx miny dx dy (cols n : nat) :
  n <> 0%nat -> feature_at env minx miny dx dy cols <$> seq 0 n <> [].
Proof.
  intros Hn Heq. apply (f_equal length) in Heq.
  rewrite length_fmap, length_seq in Heq. done.
Qed.

(** The table for a raster with a reference system and positive counts
    that convert to floats. *)
Lemma make_grid_returns (env : Env) (fs : gmap string file) rp src c rows cols :
  fs !! rp = Some (RasterFile src) -> r_crs src = Some c ->
  0 < rows -> 0 < cols ->
  np.isfinite (np.float64_of_int rows) = true ->
  np.isfinite (np.float64_of_int cols) = true ->
  make_grid_over_raster env fs rp rows cols =
  inr {| crs := Some "EPSG:4326";
         geometry := (fun k => Some (transform c "EPSG:4326"
                                       (grid_cell env src rows cols
                                          (k / Z.to_nat cols) (k mod Z.to_nat cols))))
                     <$> seq 0 (Z.to_nat rows * Z.to_nat cols);
         columns := {[ "id" := (fun k : nat => VInt (Z.of_nat k + 1))
                               <$> seq 0 (Z.to_nat rows * Z.to_nat cols);
                       "name" := (fun k : nat => VStr ("Cell " +:+ pretty (Z.of_nat k + 1)))
                                 <$> seq 0 (Z.to_nat rows * Z.to_nat cols) ]} |}.
Proof.
  intros Hr Hc Hrows Hcols Hfr Hfc.
  unfold make_grid_over_raster, rasterio_open, grid_cell, step_x, step_y.
  rewrite Hr. cbn [outcome snd mret M_ret].
  destruct (bounds env src) as [[[minx miny] maxx] maxy].
  rewrite !float_div_int_ok by (done || lia). rewrite loops_spec. cbn [fst].
  rewrite frame_to_wgs84_entries by (apply features_entries; nia).
  rewrite Hc. unfold to_crs, frame_of. cbn [crs geometry columns outcome snd mret M_ret].
  by rewrite <- !list_fmap_compose.
Qed.

(** A call that returns had a readable raster with a reference system and
    positive counts that convert. *)
Lemma make_grid_inv (env : Env) (fs : gmap string file) rp rows cols gdf :
  make_grid_over_raster env fs rp rows cols = inr gdf ->
  exists src c,
    fs !! rp = Some (RasterFile src) /\ r_crs src = Some c /\
    0 < rows /\ 0 < cols /\
    np.isfinite (np.float64_of_int rows) = true /\
    np.isfinite (np.float64_of_int cols) = true.
Proof.
  unfold make_grid_over_raster, rasterio_open.
  destruct (fs !! rp) as [[src|z|]|] eqn:Hr; cbn [outcome snd raise mret M_ret]; try done.
  destruct (bounds env src) as [[[minx miny] maxx] maxy].
  destruct (float_div_int (sub64 maxx minx) cols) as [e|dx] eqn:Hdx; [done|].
  destruct (float_div_int (sub64 maxy miny) rows) as [e|dy] eqn:Hdy; [done|].
  apply float_div_int_inv in Hdx as (Hfc & Hc0 & _).
  apply float_div_int_inv in Hdy as (Hfr & Hr0 & _).
  rewrite loops_spec. cbn [fst].
  destruct (decide (0 < rows /\ 0 < cols)) as [[Hrows Hcols]|Hneg].
  - destruct (r_crs src) as [c|] eqn:Hc.
    + intros _. by exists src, c.
    + rewrite frame_to_wgs84_entries by (apply features_entries; nia). done.
  - assert ((Z.to_nat rows * Z.to_nat cols)%nat = 0%nat) as -> by nia.
    cbn. by destruct (r_crs src).
Qed.



(** X18 — Order of the cells. The features are numbered row by row
    from the lower edge of the raster ([miny]) and, within a row, from the
    left: the feature at position [r * cols + c] is the rectangle of row
    [r] and column [c], transformed from the raster's reference system to
    EPSG:4326, and its identifier is [r * cols + c + 1]. *)
Theorem grid_cell_position (env : Env) (fs : gmap string file) rp src rows cols r c gdf :
  fs !! rp = Some (RasterFile src) ->
  (r < Z.to_nat rows)%nat -> (c < Z.to_nat cols)%nat ->
  make_grid_over_raster env fs rp rows cols = inr gdf ->
  let k := (r * Z.to_nat cols + c)%nat in
  exists c0,
    r_crs src = Some c0 /\
    geometry gdf !! k =
      Some (Some (transform c0 "EPSG:4326" (grid_cell env src rows cols r c))) /\
    identifier gdf k = Some (VInt (Z.of_nat k + 1)).
Proof.
  intros Hr Hlt Hc Hrun k. subst k.
  destruct (make_grid_inv _ _ _ _ _ _ Hrun) as (src' & c0 & Hr' & Hc0 & Hrows & Hcols & Hfr & Hfc).
  assert (src' = src) as -> by congruence.
  rewrite (make_grid_returns env fs rp src c0) in Hrun by done. injection Hrun as <-.
  exists c0. split; [done|].
  assert (r * Z.to_nat cols + c < Z.to_nat rows * Z.to_nat cols)%nat as Hk by nia.
  assert ((r * Z.to_nat cols + c) / Z.to_nat cols = r)%nat as Hdiv.
  { rewrite Nat.add_comm, Nat.div_add by lia. by rewrite Nat.div_small. }
  assert ((r * Z.to_nat cols + c) mod Z.to_nat cols = c)%nat as Hmod.
  { rewrite Nat.add_comm, Nat.Div0.mod_add. by apply Nat.mod_small. }
  split.
  - cbn [geometry]. rewrite list_lookup_fmap, lookup_seq_lt by done.
    cbn. by rewrite Hdiv, Hmod.
  - unfold identifier, cell. cbn [columns]. rewrite lookup_insert_eq. cbn.
    rewrite list_lookup_fmap, lookup_seq_lt by done. done.
Qed.


End GridProperties.

(** * The further properties on concrete inputs *)

(** ** The aggregation on the 4x4 raster *)

Lemma aggregate_keeps_columns_witness :
  columns (result_table Ex.raster44 "EPSG:32633" Ex.zonesAB) !! "name" =
  Some [VStr "A"; VStr "B"].
Proof.
  rewrite (aggregate_keeps_columns (H := PixelGrid.lib)
             Ex.fs44 Ex.raster_path Ex.vector_path
             (result_trace Ex.raster_path Ex.vector_path Ex.raster44 "EPSG:32633" Ex.zonesAB)
             (result_table Ex.raster44 "EPSG:32633" Ex.zonesAB) Ex.zonesAB "name").
  - vm_compute; reflexivity.
  - vm_compute; reflexivity.
  - vm_compute; reflexivity.
  - apply (bool_decide_unpack _). vm_compute. exact I.
  - intros Hname. discriminate Hname.
Defined.

Lemma aggregate_clips_each_zone_once_witness :
  filter (fun ev => is_clip ev)
    (result_trace Ex.raster_path Ex.vector_path Ex.raster44 "EPSG:32633"
       Ex.zones_degenerate) =
  [Clip 0; Clip 1; Clip 2].
Proof.
  rewrite (aggregate_clips_each_zone_once (H := PixelGrid.lib)
             Ex.fs_degenerate Ex.raster_path Ex.vector_path _
             (result_table Ex.raster44 "EPSG:32633" Ex.zones_degenerate)).
  - vm_compute; reflexivity.
  - vm_compute; reflexivity.
Defined.

Lemma aggregate_warns_failed_zones_witness :
  filter (fun ev => is_warning ev)
    (result_trace Ex.raster_path Ex.vector_path Ex.raster44 "EPSG:32633"
       Ex.zones_degenerate) =
  [Warning "Polygon 1 failed: tuple index out of range"].
Proof.
  rewrite (aggregate_warns_failed_zones (H := PixelGrid.lib)
             Ex.fs_degenerate Ex.raster_path Ex.vector_path Ex.raster44 _
             (result_table Ex.raster44 "EPSG:32633" Ex.zones_degenerate)).
  - vm_compute; reflexivity.
  - vm_compute; reflexivity.
  - vm_compute; reflexivity.
Defined.

Lemma aggregate_row_standalone_witness :
  exists tj outj,
    compute_zonal_mean
      (<[Ex.vector_path := VectorFile (single Ex.zones_degenerate 2)]> Ex.fs_degenerate)
      Ex.raster_path Ex.vector_path = (tj, inr outj) /\
    nrows outj = 1%nat /\
    geometry (result_table Ex.raster44 "EPSG:32633" Ex.zones_degenerate) !! 2%nat =
      geometry outj !! 0%nat /\
    stat_row (result_table Ex.raster44 "EPSG:32633" Ex.zones_degenerate) 2 =
      stat_row outj 0.
Proof.
  apply (aggregate_row_standalone (H := PixelGrid.lib)
           Ex.fs_degenerate Ex.raster_path Ex.vector_path
           (result_trace Ex.raster_path Ex.vector_path Ex.raster44 "EPSG:32633"
              Ex.zones_degenerate)
           (result_table Ex.raster44 "EPSG:32633" Ex.zones_degenerate)
           Ex.zones_degenerate 2).
  - vm_compute; reflexivity.
  - vm_compute; reflexivity.
  - vm_compute; lia.
Defined.

Lemma fill_counted_without_nodata_witness :
  s_count (Ex.stats Ex.raster22 Ex.zoneL) = 3 + 1.
Proof.
  unfold Ex.stats.
  rewrite (fill_counted_without_nodata (H := PixelGrid.lib) Ex.raster22 Ex.zoneL
             {| row_off := 0; col_off := 0; height := 2; width := 2 |}
             (fun i j => negb (PixelGrid.covers Ex.zoneL (0 + Z.of_nat i) (0 + Z.of_nat j)))).
  - vm_compute; reflexivity.
  - reflexivity.
  - reflexivity.
Defined.

Lemma full_cover_stats_witness :
  Ex.stats Ex.raster44 Ex.zoneB =
  stats_of (filter (fun x => valid32 (r_nodata Ex.raster44) x)
              (concat (read_window Ex.raster44
                         {| row_off := 1; col_off := 0; height := 3; width := 4 |}))).
Proof.
  unfold Ex.stats.
  rewrite (full_cover_stats (H := PixelGrid.lib) Ex.raster44 Ex.zoneB
             {| row_off := 1; col_off := 0; height := 3; width := 4 |}
             (fun i j => negb (PixelGrid.covers Ex.zoneB (1 + Z.of_nat i) (0 + Z.of_nat j)))).
  - by rewrite list_fmap_id.
  - reflexivity.
  - cbn [height width]. intros i j Hi Hj.
    destruct i as [|[|[|i]]]; [| | |lia];
      (destruct j as [|[|[|[|j]]]]; [| | | |lia]); reflexivity.
Defined.

Lemma aggregate_failure_trail_witness :
  trace (Ex.aggregate Ex.fs_not_a_raster) = [Info "Loading raster: data/processed/ndvi.tif"] /\
  exists src c z gs rest,
    Ex.fs_null !! Ex.raster_path = Some (RasterFile src) /\ r_crs src = Some c /\
    Ex.fs_null !! Ex.vector_path = Some (VectorFile z) /\
    geometry z = (Some <$> gs) ++ None :: rest /\
    trace (Ex.aggregate Ex.fs_null) =
    [Info ("Loading raster: " +:+ Ex.raster_path);
     Info ("Loading polygons: " +:+ Ex.vector_path);
     Info ("Reprojected vector to raster CRS: " +:+ c)]
    ++ concat (imap (zone_events src) (transform (source_crs z) c <$> gs)).
Proof.
  split.
  - apply (aggregate_failure_trail (H := PixelGrid.lib)
             Ex.fs_not_a_raster Ex.raster_path Ex.vector_path
             (RasterioIOError
                "'data/processed/ndvi.tif' not recognized as being in a supported file format.")).
    vm_compute; reflexivity.
  - apply (aggregate_failure_trail (H := PixelGrid.lib)
             Ex.fs_null Ex.raster_path Ex.vector_path no_geo_interface).
    vm_compute; reflexivity.
Defined.

(** ** The logger factory from an empty registry *)

Lemma get_logger_handlers_invariant_witness :
  map_Forall (fun _ l => log.well_formed l)
    (log.calls Setup.log_env [("zonal", None); ("ingest", Some "logs/ingest.log")] ∅).
Proof.
  apply get_logger_handlers_invariant. apply map_Forall_empty.
Defined.

Lemma get_logger_never_reconfigures_witness :
  log.calls Setup.log_env [("zonal", Some "logs/zonal.log"); ("ingest", None)]
    {[ "zonal" := {| log.level := Some log.INFO;
                     log.handlers := [log.StreamHandler log.format] |} ]} !! "zonal" =
  Some {| log.level := Some log.INFO; log.handlers := [log.StreamHandler log.format] |}.
Proof.
  apply get_logger_never_reconfigures.
  - vm_compute; reflexivity.
  - discriminate.
Defined.

Lemma get_logger_configures_witness :
  exists l,
    log.calls Setup.log_env_readonly [("zonal", Some "logs/zonal.log")] ∅ !! "zonal" = Some l /\
    log.configured l.
Proof.
  apply get_logger_configures.
  - apply map_Forall_empty.
  - apply (bool_decide_unpack _). vm_compute. exact I.
Defined.

(** ** The command *)

Lemma main_failure_writes_nothing_witness :
  zonal_stats.writes
    (zonal_stats.main Setup.main_env Setup.fs_nothing zonal_stats.default_args).1 = [].
Proof.
  destruct (main_failure_writes_nothing (H := PixelGrid.lib)
              Setup.main_env Setup.fs_nothing zonal_stats.default_args
              (FileNotFoundError "Raster not found: data/processed/ndvi.tif")) as [Hw _].
  - vm_compute; reflexivity.
  - exact Hw.
Defined.

Lemma main_writes_geojson_then_csv_witness :
  let gdf := result_table Ex.raster44 "EPSG:32633" Ex.zonesAB in
  let run := zonal_stats.main Setup.main_env Ex.fs44 zonal_stats.default_args in
  zonal_stats.writes run.1 =
    [zonal_stats.ToFile "data/processed/ndvi_zonal.geojson" gdf;
     zonal_stats.ToCsv "data/processed/ndvi_zonal.csv" (columns gdf)] /\
  run.2 = inr tt.
Proof.
  intros gdf run.
  destruct (main_writes_geojson_then_csv (H := PixelGrid.lib)
              Setup.main_env Ex.fs44 zonal_stats.default_args
              (result_trace Ex.raster_path Ex.vector_path Ex.raster44 "EPSG:32633" Ex.zonesAB)
              gdf)
    as [[_ (op & msg & Hfail)]|[[_ (msg & Hfail)]|(Hw & Hret & _)]].
  - vm_compute; reflexivity.
  - vm_compute in Hfail. discriminate Hfail.
  - vm_compute in Hfail. discriminate Hfail.
  - split; [exact Hw|exact Hret].
Defined.

(** ** The ingest *)

Lemma upsert_fields_key_matches_zonal_witness :
  exists frame msg,
    postgis_ingest.upsert_fields Setup.ingest_env Ex.fs44 Ex.vector_path =
      ([postgis_ingest.ToPostgis "fields" frame; postgis_ingest.Logged (Info msg)], inr tt) /\
    columns frame !! "field_id" = Some [VStr "0"; VStr "1"].
Proof.
  destruct (upsert_fields_key_matches_zonal (H := PixelGrid.lib)
              Setup.ingest_env Ex.fs44 Ex.raster_path Ex.vector_path Ex.zonesAB
              (result_trace Ex.raster_path Ex.vector_path Ex.raster44 "EPSG:32633" Ex.zonesAB)
              (result_table Ex.raster44 "EPSG:32633" Ex.zonesAB))
    as (frame & msg & Hrun & Hkey).
  - vm_compute; reflexivity.
  - vm_compute; reflexivity.
  - vm_compute; reflexivity.
  - vm_compute; reflexivity.
  - intros frame. reflexivity.
  - exists frame, msg. split; [exact Hrun|].
    etrans; [exact Hkey|]. vm_compute; reflexivity.
Defined.

Lemma empty_zone_file_warns_or_raises_witness :
  postgis_ingest.upsert_fields Setup.ingest_env Setup.fs_empty_zones Ex.vector_path =
    ([postgis_ingest.Logged (Warning "No features in fields.geojson")], inr tt) /\
  outcome (Ex.aggregate Setup.fs_empty_zones) =
    inl (ValueError "Vector file has no features.").
Proof.
  apply (empty_zone_file_warns_or_raises (H := PixelGrid.lib)
           Setup.ingest_env Setup.fs_empty_zones Ex.raster_path Ex.vector_path
           Ex.raster44 Setup.zones_empty).
  - vm_compute; reflexivity.
  - vm_compute; reflexivity.
  - vm_compute; reflexivity.
Defined.

Lemma upsert_fields_frame_witness :
  nrows Setup.fields_table = 2%nat /\
  crs Setup.fields_table = Some "EPSG:4326" /\
  geometry Setup.fields_table = [Some Ex.zoneA; Some Ex.zoneB].
Proof.
  destruct (upsert_fields_frame (H := PixelGrid.lib)
              Setup.ingest_env Ex.fs44 Ex.vector_path
              (postgis_ingest.upsert_fields Setup.ingest_env Ex.fs44 Ex.vector_path).1
              (postgis_ingest.upsert_fields Setup.ingest_env Ex.fs44 Ex.vector_path).2
              "fields" Setup.fields_table)
    as (z & Hz & _ & Hn & _ & _ & Hcrs).
  - apply surjective_pairing.
  - vm_compute. apply list_elem_of_here.
  - assert (z = Ex.zonesAB) as ->.
    { assert (Ex.fs44 !! Ex.vector_path = Some (VectorFile Ex.zonesAB)) as Hz'
        by (vm_compute; reflexivity).
      rewrite Hz' in Hz. by injection Hz. }
    split; [exact Hn|]. exact Hcrs.
Defined.

(** The second row of the CSV has no identifier: its key is the missing
    value, not text. *)
Lemma load_zonal_csv_frame_witness :
  exists df frame msg keys,
    postgis_ingest.read_csv Setup.ingest_env Setup.csv_gap_path = inr df /\
    (postgis_ingest.load_zonal_csv (H := PixelGrid.lib)
       Setup.ingest_env "run-1" Setup.csv_gap_path).1 =
      [postgis_ingest.ToSql "ndvi_stats" frame; postgis_ingest.Logged (Info msg)] /\
    postgis_ingest.df_columns frame !! "field_id" = Some keys /\
    (exists s, keys !! 0%nat = Some (VStr s)) /\
    keys !! 1%nat = Some (VFloat np.nan) /\
    postgis_ingest.df_columns frame !! "run_id" = Some [VStr "run-1"; VStr "run-1"].
Proof.
  destruct (load_zonal_csv_frame (H := PixelGrid.lib)
              Setup.ingest_env "run-1" Setup.csv_gap_path
              (postgis_ingest.load_zonal_csv (H := PixelGrid.lib)
                 Setup.ingest_env "run-1" Setup.csv_gap_path).1)
    as (df & frame & msg & keys & Hread & Hevs & _ & _ & Hkeys & _ & _ & _ & Hcell & Hrun & _).
  - vm_compute; reflexivity.
  - exists df, frame, msg, keys. split; [exact Hread|]. split; [exact Hevs|].
    split; [exact Hkeys|].
    assert (df = Setup.zonal_csv_gap) as ->.
    { assert (postgis_ingest.read_csv Setup.ingest_env Setup.csv_gap_path =
              inr Setup.zonal_csv_gap) as Hread' by (vm_compute; reflexivity).
      rewrite Hread' in Hread. by injection Hread. }
    split; [|split; [|exact Hrun]].
    + apply (Hcell [VFloat (Ex.f64 1 1); VFloat np.nan] 0%nat (VFloat (Ex.f64 1 1)));
        vm_compute; reflexivity.
    + apply (Hcell [VFloat (Ex.f64 1 1); VFloat np.nan] 1%nat (VFloat np.nan));
        vm_compute; reflexivity.
Defined.

(** ** The grid generator on the 4x4 raster *)


Lemma grid_cell_position_witness :
  geometry Setup.grid22 !! 2%nat = Some (Some (PixelGrid.box 0 0 2 2)) /\
  identifier Setup.grid22 2 = Some (VInt 3).
Proof.
  destruct (grid_cell_position (H := PixelGrid.lib)
              Setup.grid_env Ex.fs44 Ex.raster_path Ex.raster44 2 2 1 0 Setup.grid22)
    as (c0 & Hc0 & Hg & Hid).
  - vm_compute; reflexivity.
  - vm_compute; lia.
  - vm_compute; lia.
  - vm_compute; reflexivity.
  - split; [|exact Hid].
    assert (c0 = "EPSG:32633") as -> by (vm_compute in Hc0; congruence).
    etrans; [exact Hg|]. vm_compute; reflexivity.
Defined.

